(** * Cost optimizer and workspace manager: a shallow embedding

    The two Lambda entry points of the repository,
    [04-cost-optimization/.../cost_optimizer.py] and
    [05-environment-management/.../workspace_manager.py], are embedded as
    Rocq functions.  Python dictionaries with a fixed key set become records,
    dictionaries used as maps become [gmap]s, integers are [Z], the CPU
    averages are binary64 floating-point numbers (the primitive floats of
    the kernel, which compute as IEEE 754 prescribes), and every statement
    that can raise is a computation in a small state-and-exception monad in
    which the mutated dictionary survives a raised exception, as it does in
    Python.

    The boto3 clients, the wall clock and [json.loads] lie outside the
    repository and are inputs of the embedding: a client call is any
    function from its request to a response or a raised exception.  The
    exceptions are those deriving from [Exception], which is what every
    [except] clause of the two programs names.  Logging has no bearing on
    what the functions return and is left out. *)

From Stdlib Require Import ZArith QArith Qabs String List DecimalString Lia.
From Stdlib Require Import PrimFloat FloatOps SpecFloat FloatAxioms Uint63.
From stdpp Require Import base option list gmap strings.

Open Scope string_scope.
Open Scope list_scope.
Open Scope Z_scope.

(** ** Python values, exceptions and the effect monad *)

Module Py.

(** The exception classes the two programs can meet.  All of them derive
    from [Exception], the class both programs catch. *)
Inductive exn_class :=
| KeyError
| AttributeError
| UnboundLocalError
| NoSuchLifecycleConfiguration
| NoSuchBucket
| ParameterNotFound
| JSONDecodeError
| ClientError
| OtherException (name : string).

(** An exception with the text [str(e)] gives for it. *)
Record exn := Exn { exn_cls : exn_class; exn_str : string }.

Definition exn_class_eqb (a b : exn_class) : bool :=
  match a, b with
  | KeyError, KeyError
  | AttributeError, AttributeError
  | UnboundLocalError, UnboundLocalError
  | NoSuchLifecycleConfiguration, NoSuchLifecycleConfiguration
  | NoSuchBucket, NoSuchBucket
  | ParameterNotFound, ParameterNotFound
  | JSONDecodeError, JSONDecodeError
  | ClientError, ClientError => true
  | OtherException n, OtherException m => String.eqb n m
  | _, _ => false
  end.

(** [isinstance(e, cls)] for the flat hierarchy above. *)
Definition isinstance (e : exn) (c : exn_class) : bool :=
  exn_class_eqb (exn_cls e) c.

(** [d[k]] on a dictionary without the key [k]: [str] of a [KeyError] is the
    [repr] of the key. *)
Definition key_error (k : string) : exn :=
  Exn KeyError ("'" +:+ k +:+ "'").

(** [obj.attr] on an object of class [ty] without that attribute. *)
Definition attribute_error (ty attr : string) : exn :=
  Exn AttributeError
      ("'" +:+ ty +:+ "' object has no attribute '" +:+ attr +:+ "'").

(** Reading a local variable that no assignment has bound yet (the text is
    the one of Python 3.11 and later). *)
Definition unbound_local_error (var : string) : exn :=
  Exn UnboundLocalError
      ("cannot access local variable '" +:+ var
         +:+ "' where it is not associated with a value").

(** What a statement does: it returns a value or raises. *)
Inductive outcome (A : Type) :=
| Ret (a : A)
| Raise (e : exn).
Arguments Ret {A} a.
Arguments Raise {A} e.

(** A block of statements working on a mutable object of type [S] (the
    dictionary the function fills in).  The object is returned in both
    cases: what was appended before an exception stays appended. *)
Definition M (S A : Type) : Type := S -> outcome A * S.

Definition ret {S A} (a : A) : M S A := fun s => (Ret a, s).

Definition bind {S A B} (m : M S A) (k : A -> M S B) : M S B :=
  fun s => match m s with
           | (Ret a, s') => k a s'
           | (Raise e, s') => (Raise e, s')
           end.

Definition raise {S A} (e : exn) : M S A := fun s => (Raise e, s).

(** A call to a collaborator: its outcome, the object untouched. *)
Definition call {S A} (o : outcome A) : M S A := fun s => (o, s).

Definition get {S} : M S S := fun s => (Ret s, s).

Definition modify {S} (f : S -> S) : M S unit := fun s => (Ret tt, f s).

(** [try: m  except Exception as e: h e] *)
Definition try_except {S A} (m : M S A) (h : exn -> M S A) : M S A :=
  fun s => match m s with
           | (Ret a, s') => (Ret a, s')
           | (Raise e, s') => h e s'
           end.

(** [try: m  except cls: h], any other exception passing through.  *)
Definition try_except_cls {S A} (m : M S A) (c : exn_class) (h : M S A)
  : M S A :=
  fun s => match m s with
           | (Ret a, s') => (Ret a, s')
           | (Raise e, s') => if isinstance e c then h s' else (Raise e, s')
           end.

(** [try: m  except <expr>: h], where the class named after [except] is an
    expression of its own (an attribute of a client).  Python evaluates it
    only once [m] has raised, and [cls] is what it evaluates to: a class, as
    in [try_except_cls], or an exception, which then leaves the statement in
    place of the one that was being handled. *)
Definition try_except_expr {S A} (m : M S A) (cls : outcome exn_class)
    (h : M S A) : M S A :=
  fun s => match m s with
           | (Ret a, s') => (Ret a, s')
           | (Raise e, s') =>
             match cls with
             | Ret c => if isinstance e c then h s' else (Raise e, s')
             | Raise e' => (Raise e', s')
             end
           end.

(** Running a block on an object and handing the object back, as a function
    that builds a dictionary, fills it in and returns it does. *)
Definition exec {S A} (m : M S A) (s : S) : outcome S :=
  match m s with
  | (Ret _, s') => Ret s'
  | (Raise e, _) => Raise e
  end.

(** Running a block that has no object to mutate. *)
Definition run {A} (m : M unit A) : outcome A := fst (m tt).

(** [for x in xs: body x] *)
Fixpoint for_each {S A} (xs : list A) (body : A -> M S unit) : M S unit :=
  match xs with
  | [] => ret tt
  | x :: xs' => bind (body x) (fun _ => for_each xs' body)
  end.

Definition when {S} (b : bool) (m : M S unit) : M S unit :=
  if b then m else ret tt.

(** [str(n)] and [f"{n}"] for an integer. *)
Definition str_int (z : Z) : string := NilZero.string_of_int (Z.to_int z).

(** [len(xs)] *)
Definition len {A} (xs : list A) : Z := Z.of_nat (length xs).

(** The truth value of a list: empty lists are false. *)
Definition truthy {A} (xs : list A) : bool :=
  match xs with [] => false | _ => true end.

Definition Qltb (a b : Q) : bool :=
  match Qcompare a b with Lt => true | _ => false end.

(** Rounding to the nearest integer, ties to even. *)
Definition round_half_even (q : Q) : Z :=
  let n := Qnum q in
  let d := Z.pos (Qden q) in
  let fl := n / d in
  match (2 * (n mod d)) ?= d with
  | Lt => fl
  | Gt => fl + 1
  | Eq => if Z.even fl then fl else fl + 1
  end.

(** One digit after the point for an exact rational, rounded to the nearest
    tenth, ties to even. *)
Definition format_1f (q : Q) : string :=
  let tenths := round_half_even (Qabs q * 10) in
  (if Qltb q 0 then "-" else "")
    +:+ str_int (tenths / 10) +:+ "." +:+ str_int (tenths mod 10).

(** The exact value of the finite binary64 number with sign [s], mantissa
    [m] and exponent [e]. *)
Definition float_value (s : bool) (m : positive) (e : Z) : Q :=
  let magnitude :=
    match e with
    | Z0 => Z.pos m # 1
    | Zpos p => (Z.pos m * 2 ^ Z.pos p) # 1
    | Zneg p => Z.pos m # (2 ^ p)
    end in
  if s then (- magnitude)%Q else magnitude.

(** [f"{x:.1f}"] for a float: the decimal nearest to the exact value of
    [x], ties to even; zeros keep their sign, and the values that are not
    numbers print by name. *)
Definition format_float_1f (x : float) : string :=
  match Prim2SF x with
  | S754_zero s => if s then "-0.0" else "0.0"
  | S754_infinity s => if s then "-inf" else "inf"
  | S754_nan => "nan"
  | S754_finite s m e => format_1f (float_value s m e)
  end.

(** [float(n)] for the length of a list. *)
Definition float_of_len (n : Z) : float :=
  PrimFloat.of_uint63 (Uint63.of_Z n).

(** [sum(xs)] for floats: the additions are made from left to right,
    starting from [0], each rounded to the nearest float (the summation of
    Python up to 3.11). *)
Definition sum_floats (xs : list float) : float :=
  fold_left PrimFloat.add xs 0%float.

(** [", ".join(xs)] *)
Fixpoint join (sep : string) (xs : list string) : string :=
  match xs with
  | [] => ""
  | [x] => x
  | x :: xs' => x +:+ sep +:+ join sep xs'
  end.

(** The documents [json.dumps] serialises.  A dictionary keeps the
    insertion order of its keys. *)
#[warnings="-register-all"] Inductive json :=
| JNull
| JBool (b : bool)
| JInt (n : Z)
| JStr (s : string)
| JList (l : list json)
| JDict (l : list (string * json)).

(** [d.get(k)] on a document. *)
Definition json_get (k : string) (j : json) : option json :=
  match j with
  | JDict l => snd <$> List.find (fun kv => String.eqb (fst kv) k) l
  | _ => None
  end.

Definition JStrs (l : list string) : json := JList (JStr <$> l).

(** The response dictionary both handlers return; [body] is the document
    handed to [json.dumps]. *)
Record response := Response { statusCode : Z; body : json }.

(** The execution context handed to a handler.  An attribute the object
    does not have is [None]; [ctx_class] is the name of its class. *)
Record lambda_context := LambdaContext {
  ctx_class : string;
  ctx_environment : option (gmap string string);
  ctx_function_name : option string
}.

(** [context.environment] *)
Definition context_environment (c : lambda_context)
  : outcome (gmap string string) :=
  match ctx_environment c with
  | Some env => Ret env
  | None => Raise (attribute_error (ctx_class c) "environment")
  end.

(** [context.function_name] *)
Definition context_function_name (c : lambda_context) : outcome string :=
  match ctx_function_name c with
  | Some n => Ret n
  | None => Raise (attribute_error (ctx_class c) "function_name")
  end.

(** [env[k]] *)
Definition getitem (env : gmap string string) (k : string) : outcome string :=
  match env !! k with
  | Some v => Ret v
  | None => Raise (key_error k)
  end.

(** [env.get(k, d)] *)
Definition get_default (env : gmap string string) (k d : string) : string :=
  default d (env !! k).

(** A block keeps a property of the object it mutates, whether it returns
    or raises. *)
Definition preserves {S A} (P : S -> Prop) (m : M S A) : Prop :=
  forall s, P s -> P (snd (m s)).

(** A block that always returns. *)
Definition total {S A} (m : M S A) : Prop :=
  forall s, exists a s', m s = (Ret a, s').

End Py.

Import Py.

Declare Scope py_scope.
Delimit Scope py_scope with py.
Notation "x <- m ;; k" := (bind m (fun x => k))
  (at level 100, m at next level, right associativity) : py_scope.
Notation "m ;; k" := (bind m (fun _ => k))
  (at level 100, right associativity) : py_scope.
Open Scope py_scope.

(** ** The inventory API as the programs see it

    The boto3 clients are collaborators outside the repository.  A client is
    a record of the calls the programs make; a call returns the response
    dictionary, as a record of the keys the programs read, or raises. *)

Module Aws.

Record tag := Tag { Key : string; Value : string }.

Record ec2_filter := Filter { Name : string; Values : list string }.

(** [Tags] is read with [instance.get('Tags', [])]: the key may be absent. *)
Record instance := Instance {
  InstanceId : string;
  InstanceType : string;
  InstanceTags : option (list tag)
}.

Record reservation := Reservation { Instances : list instance }.

Record describe_instances_response :=
  DescribeInstances { Reservations : list reservation }.

Record datapoint := Datapoint { Average : float }.

Record metric_query := MetricQuery {
  Namespace : string;
  MetricName : string;
  Dimensions : list (string * string);
  StartTime : Z;
  EndTime : Z;
  Period : Z;
  Statistics : list string
}.

Record metric_statistics := MetricStatistics { Datapoints : list datapoint }.

Record asg_instance := AsgInstance { HealthStatus : string }.

Record launch_template :=
  LaunchTemplateSpec { LaunchTemplateName : option string }.

Record auto_scaling_group := AutoScalingGroup {
  AutoScalingGroupName : string;
  AsgTags : option (list tag);
  DesiredCapacity : Z;
  MinSize : Z;
  MaxSize : Z;
  AsgInstances : list asg_instance;
  AvailabilityZones : list string;
  LaunchTemplate : option launch_template
}.

Record describe_asgs_response :=
  DescribeAsgs { AutoScalingGroups : list auto_scaling_group }.

Record scheduled_actions_response :=
  ScheduledActions { ScheduledUpdateGroupActions : list string }.

Record lifecycle_configuration := LifecycleConfiguration { Rules : list string }.

(** Times are seconds since the epoch, in UTC. *)
Record s3_object := S3Object { ObjKey : string; Size : Z; LastModified : Z }.

(** ['Contents' in response] is false for an empty listing. *)
Record list_objects_response :=
  ListObjects { Contents : option (list s3_object) }.

Record vpc := Vpc { VpcCidrBlock : string; VpcState : string }.

Record describe_vpcs_response := DescribeVpcs { Vpcs : list vpc }.

Record subnet := Subnet {
  SubnetId : string;
  SubnetCidrBlock : string;
  SubnetAvailabilityZone : string;
  AvailableIpAddressCount : Z;
  SubnetState : string;
  SubnetTags : option (list tag)
}.

Record describe_subnets_response := DescribeSubnets { Subnets : list subnet }.

Record security_group := SecurityGroup {
  GroupId : string;
  GroupName : string;
  Description : string;
  IpPermissions : list string;
  IpPermissionsEgress : list string
}.

Record describe_security_groups_response :=
  DescribeSecurityGroups { SecurityGroups : list security_group }.

Record nat_gateway_address := NatGatewayAddress { PublicIp : string }.

Record nat_gateway := NatGateway {
  NatGatewayId : string;
  NatSubnetId : string;
  NatState : string;
  NatGatewayAddresses : list nat_gateway_address
}.

Record describe_nat_gateways_response :=
  DescribeNatGateways { NatGateways : list nat_gateway }.

Record bucket_versioning := BucketVersioning { Status : option string }.

(** A [datetime] the programs only print: its instant and its [str]. *)
Record datetime := Datetime { dt_epoch : Z; dt_str : string }.

Record ssm_parameter := SsmParameter {
  ParamValue : string;
  ParamLastModifiedDate : datetime;
  ParamVersion : Z
}.

Record get_parameter_response := GetParameter { ParameterEntry : ssm_parameter }.

Record parameter_metadata := ParameterMetadata {
  MetaName : string;
  MetaType : string;
  MetaLastModifiedDate : datetime;
  MetaVersion : Z
}.

Record describe_parameters_response :=
  DescribeParameters { Parameters : list parameter_metadata }.

Record parameter_filter := ParameterFilter {
  FilterKey : string;
  FilterOption : string;
  FilterValues : list string
}.

Record put_parameter_request := PutParameter {
  PutName : string;
  PutValue : json;
  PutType : string;
  PutOverwrite : bool;
  PutDescription : string
}.

Record ec2_client := Ec2Client {
  describe_instances : list ec2_filter -> outcome describe_instances_response;
  describe_vpcs : list string -> outcome describe_vpcs_response;
  describe_subnets : list ec2_filter -> outcome describe_subnets_response;
  describe_security_groups :
    list ec2_filter -> outcome describe_security_groups_response;
  describe_nat_gateways :
    list ec2_filter -> outcome describe_nat_gateways_response
}.

Record cloudwatch_client := CloudwatchClient {
  get_metric_statistics : metric_query -> outcome metric_statistics
}.

Record autoscaling_client := AutoscalingClient {
  describe_auto_scaling_groups : outcome describe_asgs_response;
  describe_scheduled_actions : string -> outcome scheduled_actions_response
}.

(** [get_bucket_lifecycle_configuration] raises when the bucket has no
    lifecycle configuration; [list_objects_v2] takes the bucket and
    [MaxKeys].  [exceptions_NoSuchLifecycleConfiguration] is what the
    expression [s3.exceptions.NoSuchLifecycleConfiguration] evaluates to: the
    exception class of that name when the client has one, and otherwise the
    [AttributeError] its [exceptions] object raises for a name that is not
    among the service's exception classes. *)
Record s3_client := S3Client {
  get_bucket_lifecycle_configuration : string -> outcome lifecycle_configuration;
  list_objects_v2 : string -> Z -> outcome list_objects_response;
  head_bucket : string -> outcome unit;
  get_bucket_versioning : string -> outcome bucket_versioning;
  get_bucket_encryption : string -> outcome unit;
  exceptions_NoSuchLifecycleConfiguration : outcome exn_class
}.

Record ssm_client := SsmClient {
  get_parameter : string -> outcome get_parameter_response;
  describe_parameters :
    list parameter_filter -> outcome describe_parameters_response;
  put_parameter : put_parameter_request -> outcome unit
}.

(** [boto3.client(name)] for the five services the programs ask for. *)
Record boto3 := Boto3 {
  client_ec2 : outcome ec2_client;
  client_cloudwatch : outcome cloudwatch_client;
  client_autoscaling : outcome autoscaling_client;
  client_s3 : outcome s3_client;
  client_ssm : outcome ssm_client
}.

(** The wall clock: [datetime.utcnow()] in seconds since the epoch, and the
    text [isoformat()] gives for it. *)
Record clock := Clock { utcnow : Z; isoformat : string }.

(** [datetime.utcnow().hour] *)
Definition hour_of (t : Z) : Z := (t / 3600) mod 24.

(** [timedelta(days=n)] in seconds. *)
Definition days (n : Z) : Z := n * 86400.

(** [(now - then).days]: whole days, rounded down. *)
Definition delta_days (now then_ : Z) : Z := (now - then_) / 86400.

End Aws.

Import Aws.

(** ** cost_optimizer.py *)

Module CostOptimizer.

(** The [optimization] dictionary every check fills in and returns. *)
Record FindingSet := MkFindingSet {
  category : string;
  findings : list string;
  recommendations : list string;
  potential_savings : Z
}.

Definition new_optimization (cat : string) : FindingSet :=
  {| category := cat; findings := []; recommendations := [];
     potential_savings := 0 |}.

(** [optimization['findings'].append(s)] *)
Definition append_finding (s : string) : M FindingSet unit :=
  modify (fun o =>
    {| category := category o; findings := findings o ++ [s];
       recommendations := recommendations o;
       potential_savings := potential_savings o |}).

(** [optimization['findings'].extend(l)] *)
Definition extend_findings (l : list string) : M FindingSet unit :=
  modify (fun o =>
    {| category := category o; findings := findings o ++ l;
       recommendations := recommendations o;
       potential_savings := potential_savings o |}).

(** [optimization['recommendations'].append(s)] *)
Definition append_recommendation (s : string) : M FindingSet unit :=
  modify (fun o =>
    {| category := category o; findings := findings o;
       recommendations := recommendations o ++ [s];
       potential_savings := potential_savings o |}).

(** [optimization['potential_savings'] += n] *)
Definition add_savings (n : Z) : M FindingSet unit :=
  modify (fun o =>
    {| category := category o; findings := findings o;
       recommendations := recommendations o;
       potential_savings := potential_savings o + n |}).

(** The shape shared by the five checks: a fresh dictionary, the body inside
    [try], the handler appending the error text, [return optimization]. *)
Definition run_check (cat : string) (body : M FindingSet unit)
    (error_prefix : string) : outcome FindingSet :=
  exec (try_except body
          (fun e => append_finding (error_prefix +:+ exn_str e)))
       (new_optimization cat).

(** [sum(dp['Average'] for dp in datapoints) / len(datapoints)], in
    floating-point arithmetic. *)
Definition average_cpu (dps : list datapoint) : float :=
  PrimFloat.div (sum_floats (Average <$> dps)) (float_of_len (len dps)).

Definition low_cpu_finding (instance_id instance_type : string) (avg : float)
  : string :=
  "Instance " +:+ instance_id +:+ " (" +:+ instance_type
    +:+ ") has low CPU utilization: " +:+ format_float_1f avg +:+ "%".

Definition low_cpu_recommendation (instance_id : string) : string :=
  "Consider downsizing " +:+ instance_id +:+ " or using Spot instances".

Definition high_cpu_finding (instance_id instance_type : string) (avg : float)
  : string :=
  "Instance " +:+ instance_id +:+ " (" +:+ instance_type
    +:+ ") has high CPU utilization: " +:+ format_float_1f avg +:+ "%".

Definition high_cpu_recommendation (instance_id : string) : string :=
  "Consider upsizing " +:+ instance_id +:+ " or adding more instances".

Definition all_appropriate : string :=
  "All instances have appropriate utilization levels".

(** Lines 118-131: what one instance adds once its metrics are fetched. *)
Definition assess_instance (inst : instance) (cpu_metrics : metric_statistics)
  : M FindingSet unit :=
  let instance_id := InstanceId inst in
  let instance_type := InstanceType inst in
  if truthy (Datapoints cpu_metrics) then
    let avg_cpu := average_cpu (Datapoints cpu_metrics) in
    if PrimFloat.ltb avg_cpu 10 then
      append_finding (low_cpu_finding instance_id instance_type avg_cpu) ;;
      append_recommendation (low_cpu_recommendation instance_id) ;;
      when (String.prefix "t3." instance_type) (add_savings 20)
    else if PrimFloat.ltb 80 avg_cpu then
      append_finding (high_cpu_finding instance_id instance_type avg_cpu) ;;
      append_recommendation (high_cpu_recommendation instance_id)
    else ret tt
  else ret tt.

Definition cpu_query (instance_id : string) (now : Z) : metric_query :=
  let end_time := now in
  let start_time := end_time - days 7 in
  {| Namespace := "AWS/EC2"; MetricName := "CPUUtilization";
     Dimensions := [("InstanceId", instance_id)];
     StartTime := start_time; EndTime := end_time;
     Period := 86400; Statistics := ["Average"] |}.

(** Lines 98-131: the body of the loop over the instances. *)
Definition visit_instance (cloudwatch : cloudwatch_client) (clk : clock)
    (inst : instance) : M FindingSet unit :=
  cpu_metrics <-
    call (get_metric_statistics cloudwatch
            (cpu_query (InstanceId inst) (utcnow clk))) ;;
  assess_instance inst cpu_metrics.

Definition utilization_filters (project_name environment : string)
  : list ec2_filter :=
  [ Filter "tag:Project" [project_name];
    Filter "tag:Environment" [environment];
    Filter "instance-state-name" ["running"] ].

(** Lines 97-131: the two loops over the reservations and their
    instances. *)
Definition scan_instances (cloudwatch : cloudwatch_client) (clk : clock)
    (response : describe_instances_response) : M FindingSet unit :=
  for_each (Reservations response) (fun reservation =>
    for_each (Instances reservation) (visit_instance cloudwatch clk)).

Definition utilization_body (ec2 : ec2_client) (cloudwatch : cloudwatch_client)
    (clk : clock) (project_name environment : string) : M FindingSet unit :=
  response <-
    call (describe_instances ec2
            (utilization_filters project_name environment)) ;;
  scan_instances cloudwatch clk response ;;
  optimization <- get ;;
  when (negb (truthy (findings optimization)))
       (append_finding all_appropriate).

Definition check_instance_utilization (ec2 : ec2_client)
    (cloudwatch : cloudwatch_client) (clk : clock)
    (project_name environment : string) : outcome FindingSet :=
  run_check "EC2 Instance Utilization"
    (utilization_body ec2 cloudwatch clk project_name environment)
    "Error checking instance utilization: ".

(** [next((tag for tag in tags if tag['Key'] == key), None)] *)
Definition find_tag (key : string) (tags : list tag) : option tag :=
  List.find (fun t => String.eqb (Key t) key) tags.

Definition asg_capacity_finding (asg_name : string) (desired min_size max_size : Z)
  : string :=
  "ASG " +:+ asg_name +:+ ": Desired=" +:+ str_int desired
    +:+ ", Min=" +:+ str_int min_size +:+ ", Max=" +:+ str_int max_size.

(** Lines 156-182: the body of the loop over the groups; [continue] leaves
    it for a group of another project. *)
Definition visit_asg (autoscaling : autoscaling_client) (project_name : string)
    (asg : auto_scaling_group) : M FindingSet unit :=
  let asg_name := AutoScalingGroupName asg in
  let project_tag := find_tag "Project" (default [] (AsgTags asg)) in
  match project_tag with
  | None => ret tt
  | Some t =>
    if negb (String.eqb (Value t) project_name) then ret tt
    else
      let desired := DesiredCapacity asg in
      let min_size := MinSize asg in
      let max_size := MaxSize asg in
      append_finding (asg_capacity_finding asg_name desired min_size max_size) ;;
      when ((desired =? max_size) && (2 <? max_size))
        (append_recommendation
           ("ASG " +:+ asg_name +:+ " might be oversized - review max capacity")) ;;
      scheduled_actions <-
        call (describe_scheduled_actions autoscaling asg_name) ;;
      if negb (truthy (ScheduledUpdateGroupActions scheduled_actions)) then
        append_recommendation
          ("Consider adding scheduled scaling to ASG " +:+ asg_name
             +:+ " for cost savings") ;;
        add_savings 50
      else
        append_finding
          ("ASG " +:+ asg_name +:+ " has scheduled scaling configured")
  end.

Definition asg_body (autoscaling : autoscaling_client) (project_name : string)
  : M FindingSet unit :=
  response <- call (describe_auto_scaling_groups autoscaling) ;;
  for_each (AutoScalingGroups response) (visit_asg autoscaling project_name).

Definition check_asg_efficiency (autoscaling : autoscaling_client)
    (cloudwatch : cloudwatch_client) (project_name environment : string)
  : outcome FindingSet :=
  run_check "Auto Scaling Group Efficiency"
    (asg_body autoscaling project_name)
    "Error checking ASG efficiency: ".


(** Lines 218-222: the loop counting the objects older than 30 days. *)
Definition count_old_objects (now : Z) (contents : list s3_object) : Z :=
  fold_left
    (fun old_objects obj =>
       let age_days := delta_days now (LastModified obj) in
       if 30 <? age_days then old_objects + 1 else old_objects)
    contents 0.

(** [sum(obj['Size'] for obj in contents)] *)
Definition total_size_of (contents : list s3_object) : Z :=
  fold_left Z.add (Size <$> contents) 0.

Definition add_lifecycle_recommendation (bucket_name : string) : string :=
  "Add lifecycle policies to bucket " +:+ bucket_name.

Definition old_objects_recommendation (old_objects : Z) : string :=
  str_int old_objects
    +:+ " objects are older than 30 days - verify lifecycle transitions".

Definition bucket_contents_finding (contents : list s3_object) : string :=
  let total_objects := len contents in
  let total_size := total_size_of contents in
  "Bucket contains " +:+ str_int total_objects +:+ " objects, "
    +:+ format_1f (inject_Z total_size / inject_Z (1024 * 1024))%Q +:+ " MB".

(** Lines 201-206: the inner [try] around the lifecycle query.  The class
    after [except] is the attribute [s3.exceptions.NoSuchLifecycleConfiguration],
    looked up on the client once the query has raised. *)
Definition lifecycle_step (s3 : s3_client) (bucket_name : string)
  : M FindingSet unit :=
  try_except_expr
    (lifecycle <- call (get_bucket_lifecycle_configuration s3 bucket_name) ;;
     append_finding
       ("Bucket " +:+ bucket_name +:+ " has "
          +:+ str_int (len (Rules lifecycle)) +:+ " lifecycle rules"))
    (exceptions_NoSuchLifecycleConfiguration s3)
    (append_recommendation (add_lifecycle_recommendation bucket_name) ;;
     add_savings 30).

(** Lines 209-225: the sample of at most 1000 objects. *)
Definition usage_step (s3 : s3_client) (clk : clock) (bucket_name : string)
  : M FindingSet unit :=
  response <- call (list_objects_v2 s3 bucket_name 1000) ;;
  match Contents response with
  | Some contents =>
    append_finding (bucket_contents_finding contents) ;;
    let old_objects := count_old_objects (utcnow clk) contents in
    when (0 <? old_objects)
      (append_recommendation (old_objects_recommendation old_objects))
  | None => ret tt
  end.

Definition s3_body (s3 : s3_client) (clk : clock) (bucket_name : string)
  : M FindingSet unit :=
  lifecycle_step s3 bucket_name ;;
  usage_step s3 clk bucket_name.

Definition optimize_s3_storage (s3 : s3_client) (clk : clock)
    (bucket_name : string) : outcome FindingSet :=
  run_check "S3 Storage Optimization" (s3_body s3 clk bucket_name)
    "Error analyzing S3 storage: ".

Definition required_tags : list string :=
  ["Project"; "Environment"; "CostCenter"; "Owner"].

(** [{tag['Key']: tag['Value'] for tag in tags}]: a later tag with the same
    key replaces the earlier one. *)
Definition tags_dict (tags : list tag) : gmap string string :=
  fold_left (fun d t => <[Key t := Value t]> d) tags ∅.

(** [[tag for tag in required_tags if tag not in tags]] *)
Definition missing_tags (tags : gmap string string) : list string :=
  List.filter (fun t => negb (bool_decide (is_Some (tags !! t)))) required_tags.

(** Lines 250-256: what one instance adds to [untagged_resources]. *)
Definition untagged_entry (inst : instance) : list string :=
  let instance_id := InstanceId inst in
  let tags := tags_dict (default [] (InstanceTags inst)) in
  let missing := missing_tags tags in
  if truthy missing then
    ["Instance " +:+ instance_id +:+ " missing tags: " +:+ join ", " missing]
  else [].

(** Lines 249-256: the two loops, which raise nothing and only append to the
    local list. *)
Definition untagged_resources_of (response : describe_instances_response)
  : list string :=
  flat_map (fun reservation => flat_map untagged_entry (Instances reservation))
           (Reservations response).

Definition tagging_body (ec2 : ec2_client) : M FindingSet unit :=
  response <- call (describe_instances ec2 []) ;;
  let untagged_resources := untagged_resources_of response in
  if truthy untagged_resources then
    extend_findings untagged_resources ;;
    append_recommendation "Apply missing cost allocation tags to resources"
  else
    append_finding "All resources have proper cost allocation tags".

Definition check_tagging_compliance (ec2 : ec2_client) (s3 : s3_client)
    (project_name environment : string) : outcome FindingSet :=
  run_check "Tagging Compliance" (tagging_body ec2)
    "Error checking tagging compliance: ".

Definition off_hours_finding : string :=
  "Running outside business hours - opportunity for shutdown".

Definition anomalies_body (clk : clock) : M FindingSet unit :=
  append_finding "Simulated cost analysis complete" ;;
  append_recommendation "Review AWS Cost Explorer for detailed cost breakdown" ;;
  append_recommendation "Set up AWS Budgets for proactive cost monitoring" ;;
  append_recommendation "Consider Reserved Instances for predictable workloads" ;;
  let current_time := hour_of (utcnow clk) in
  when ((current_time <? 8) || (18 <? current_time))
    (append_finding off_hours_finding ;;
     add_savings 25).

Definition identify_cost_anomalies (cloudwatch : cloudwatch_client)
    (clk : clock) (project_name environment : string) : outcome FindingSet :=
  run_check "Cost Anomaly Detection" (anomalies_body clk)
    "Error in cost anomaly detection: ".

(** The [optimization_results] dictionary of the handler. *)
Record report := Report {
  timestamp : string;
  project : string;
  environment : string;
  optimizations : list FindingSet
}.

(** [optimization_results['optimizations'].append(o)] *)
Definition append_optimization (o : FindingSet) : M report unit :=
  modify (fun r =>
    {| timestamp := timestamp r; project := project r;
       environment := environment r;
       optimizations := optimizations r ++ [o] |}).

Definition finding_set_json (o : FindingSet) : json :=
  JDict [ ("category", JStr (category o));
          ("findings", JStrs (findings o));
          ("recommendations", JStrs (recommendations o));
          ("potential_savings", JInt (potential_savings o)) ].

Definition report_json (r : report) : json :=
  JDict [ ("timestamp", JStr (timestamp r));
          ("project", JStr (project r));
          ("environment", JStr (environment r));
          ("optimizations", JList (finding_set_json <$> optimizations r)) ].

(** Lines 43-61, once the report dictionary exists. *)
Definition run_checks (ec2 : ec2_client) (cloudwatch : cloudwatch_client)
    (autoscaling : autoscaling_client) (s3 : s3_client) (clk : clock)
    (project_name environment_ bucket_name : string) : M report unit :=
  instance_optimization <-
    call (check_instance_utilization ec2 cloudwatch clk project_name environment_) ;;
  append_optimization instance_optimization ;;
  asg_optimization <-
    call (check_asg_efficiency autoscaling cloudwatch project_name environment_) ;;
  append_optimization asg_optimization ;;
  s3_optimization <- call (optimize_s3_storage s3 clk bucket_name) ;;
  append_optimization s3_optimization ;;
  tagging_optimization <-
    call (check_tagging_compliance ec2 s3 project_name environment_) ;;
  append_optimization tagging_optimization ;;
  cost_anomalies <-
    call (identify_cost_anomalies cloudwatch clk project_name environment_) ;;
  append_optimization cost_anomalies.

(** Lines 24-68: the [try] block of the handler. *)
Definition handler_body (aws : boto3) (clk : clock) (event : json)
    (context : lambda_context) : M unit response :=
  env <- call (context_environment context) ;;
  project_name <- call (getitem env "PROJECT_NAME") ;;
  env <- call (context_environment context) ;;
  environment_ <- call (getitem env "ENVIRONMENT") ;;
  env <- call (context_environment context) ;;
  bucket_name <- call (getitem env "BUCKET_NAME") ;;
  ec2 <- call (client_ec2 aws) ;;
  cloudwatch <- call (client_cloudwatch aws) ;;
  autoscaling <- call (client_autoscaling aws) ;;
  s3 <- call (client_s3 aws) ;;
  optimization_results <-
    call (exec (run_checks ec2 cloudwatch autoscaling s3 clk
                  project_name environment_ bucket_name)
               {| timestamp := isoformat clk; project := project_name;
                  environment := environment_; optimizations := [] |}) ;;
  ret {| statusCode := 200; body := report_json optimization_results |}.

(** Lines 70-75: the handler of the outer [try]. *)
Definition handler_except (e : exn) : M unit response :=
  ret {| statusCode := 500; body := JDict [("error", JStr (exn_str e))] |}.

Definition handler (aws : boto3) (clk : clock) (event : json)
    (context : lambda_context) : outcome response :=
  run (try_except (handler_body aws clk event context) handler_except).

(** The five check modules and what the handler hands them. *)
Inductive check_module :=
| InstanceUtilization
| AsgEfficiency
| S3Storage
| TaggingCompliance
| CostAnomaly.

Record snapshot := Snapshot {
  snap_ec2 : ec2_client;
  snap_cloudwatch : cloudwatch_client;
  snap_autoscaling : autoscaling_client;
  snap_s3 : s3_client;
  snap_clock : clock;
  snap_project : string;
  snap_environment : string;
  snap_bucket : string
}.

Definition run_module (m : check_module) (i : snapshot) : outcome FindingSet :=
  match m with
  | InstanceUtilization =>
    check_instance_utilization (snap_ec2 i) (snap_cloudwatch i) (snap_clock i)
      (snap_project i) (snap_environment i)
  | AsgEfficiency =>
    check_asg_efficiency (snap_autoscaling i) (snap_cloudwatch i)
      (snap_project i) (snap_environment i)
  | S3Storage => optimize_s3_storage (snap_s3 i) (snap_clock i) (snap_bucket i)
  | TaggingCompliance =>
    check_tagging_compliance (snap_ec2 i) (snap_s3 i)
      (snap_project i) (snap_environment i)
  | CostAnomaly =>
    identify_cost_anomalies (snap_cloudwatch i) (snap_clock i)
      (snap_project i) (snap_environment i)
  end.

(** The statements inside the [try] of each module. *)
Definition module_body (m : check_module) (i : snapshot) : M FindingSet unit :=
  match m with
  | InstanceUtilization =>
    utilization_body (snap_ec2 i) (snap_cloudwatch i) (snap_clock i)
      (snap_project i) (snap_environment i)
  | AsgEfficiency => asg_body (snap_autoscaling i) (snap_project i)
  | S3Storage => s3_body (snap_s3 i) (snap_clock i) (snap_bucket i)
  | TaggingCompliance => tagging_body (snap_ec2 i)
  | CostAnomaly => anomalies_body (snap_clock i)
  end.

Definition module_category (m : check_module) : string :=
  match m with
  | InstanceUtilization => "EC2 Instance Utilization"
  | AsgEfficiency => "Auto Scaling Group Efficiency"
  | S3Storage => "S3 Storage Optimization"
  | TaggingCompliance => "Tagging Compliance"
  | CostAnomaly => "Cost Anomaly Detection"
  end.

Definition module_error_prefix (m : check_module) : string :=
  match m with
  | InstanceUtilization => "Error checking instance utilization: "
  | AsgEfficiency => "Error checking ASG efficiency: "
  | S3Storage => "Error analyzing S3 storage: "
  | TaggingCompliance => "Error checking tagging compliance: "
  | CostAnomaly => "Error in cost anomaly detection: "
  end.

(** What a check keeps true of its dictionary: the category it was created
    with, and an estimate that never drops below zero. *)
Definition well_formed (cat : string) (o : FindingSet) : Prop :=
  category o = cat /\ 0 <= potential_savings o.

End CostOptimizer.

(** ** workspace_manager.py *)

Module WorkspaceManager.

Record subnet_info := SubnetInfo {
  subnet_id : string;
  subnet_cidr_block : string;
  availability_zone : string;
  available_ip_count : Z;
  subnet_state : string;
  subnet_type : option string
}.

Record sg_info := SgInfo {
  group_id : string;
  group_name : string;
  description : string;
  ingress_rules : Z;
  egress_rules : Z
}.

Record nat_info := NatInfo {
  nat_gateway_id : string;
  nat_subnet_id : string;
  nat_state : string;
  public_ip : option string
}.

(** The [vpc_info] dictionary.  The keys ['cidr_block'], ['state'] and
    ['error'] exist only once assigned; ['route_tables'] and
    ['internet_gateways'] are created empty and never filled. *)
Record vpc_info := VpcInfo {
  vpc_id : string;
  subnets : list subnet_info;
  security_groups : list sg_info;
  nat_gateways : list nat_info;
  cidr_block : option string;
  state : option string;
  vpc_error : option string
}.

Definition set_vpc_details (v : vpc) : M vpc_info unit :=
  modify (fun i =>
    {| vpc_id := vpc_id i; subnets := subnets i;
       security_groups := security_groups i; nat_gateways := nat_gateways i;
       cidr_block := Some (VpcCidrBlock v); state := Some (VpcState v);
       vpc_error := vpc_error i |}).

Definition append_subnet (s : subnet_info) : M vpc_info unit :=
  modify (fun i =>
    {| vpc_id := vpc_id i; subnets := subnets i ++ [s];
       security_groups := security_groups i; nat_gateways := nat_gateways i;
       cidr_block := cidr_block i; state := state i;
       vpc_error := vpc_error i |}).

Definition append_security_group (g : sg_info) : M vpc_info unit :=
  modify (fun i =>
    {| vpc_id := vpc_id i; subnets := subnets i;
       security_groups := security_groups i ++ [g];
       nat_gateways := nat_gateways i;
       cidr_block := cidr_block i; state := state i;
       vpc_error := vpc_error i |}).

Definition append_nat_gateway (n : nat_info) : M vpc_info unit :=
  modify (fun i =>
    {| vpc_id := vpc_id i; subnets := subnets i;
       security_groups := security_groups i;
       nat_gateways := nat_gateways i ++ [n];
       cidr_block := cidr_block i; state := state i;
       vpc_error := vpc_error i |}).

Definition set_vpc_error (msg : string) : M vpc_info unit :=
  modify (fun i =>
    {| vpc_id := vpc_id i; subnets := subnets i;
       security_groups := security_groups i; nat_gateways := nat_gateways i;
       cidr_block := cidr_block i; state := state i;
       vpc_error := Some msg |}).

Definition workspace_filters (vpc workspace : string) : list ec2_filter :=
  [ Filter "vpc-id" [vpc]; Filter "tag:Workspace" [workspace] ].

(** Lines 126-138: the summary of one subnet; its type is the value of the
    first tag whose key is ['Type']. *)
Definition subnet_info_of (s : subnet) : subnet_info :=
  {| subnet_id := SubnetId s;
     subnet_cidr_block := SubnetCidrBlock s;
     availability_zone := SubnetAvailabilityZone s;
     available_ip_count := AvailableIpAddressCount s;
     subnet_state := SubnetState s;
     subnet_type := Value <$> List.find (fun t => String.eqb (Key t) "Type")
                                        (default [] (SubnetTags s)) |}.

Definition sg_info_of (sg : security_group) : sg_info :=
  {| group_id := GroupId sg; group_name := GroupName sg;
     description := Description sg;
     ingress_rules := len (IpPermissions sg);
     egress_rules := len (IpPermissionsEgress sg) |}.

Definition nat_info_of (n : nat_gateway) : nat_info :=
  {| nat_gateway_id := NatGatewayId n; nat_subnet_id := NatSubnetId n;
     nat_state := NatState n;
     public_ip := match NatGatewayAddresses n with
                  | a :: _ => Some (PublicIp a)
                  | [] => None
                  end |}.

Definition vpc_body (ec2 : ec2_client) (vpc workspace : string)
  : M vpc_info unit :=
  vpcs <- call (describe_vpcs ec2 [vpc]) ;;
  match Vpcs vpcs with
  | v :: _ => set_vpc_details v
  | [] => ret tt
  end ;;
  subnets_ <- call (describe_subnets ec2 (workspace_filters vpc workspace)) ;;
  for_each (Subnets subnets_) (fun s => append_subnet (subnet_info_of s)) ;;
  groups <-
    call (describe_security_groups ec2 (workspace_filters vpc workspace)) ;;
  for_each (SecurityGroups groups)
           (fun sg => append_security_group (sg_info_of sg)) ;;
  nats <- call (describe_nat_gateways ec2 (workspace_filters vpc workspace)) ;;
  for_each (NatGateways nats) (fun n => append_nat_gateway (nat_info_of n)).

Definition check_vpc_resources (ec2 : ec2_client) (vpc workspace : string)
  : outcome vpc_info :=
  exec (try_except (vpc_body ec2 vpc workspace)
                   (fun e => set_vpc_error (exn_str e)))
       {| vpc_id := vpc; subnets := []; security_groups := [];
          nat_gateways := []; cidr_block := None; state := None;
          vpc_error := None |}.

Record asg_details := AsgDetails {
  name : string;
  min_size : Z;
  max_size : Z;
  desired_capacity : Z;
  current_instances : Z;
  healthy_instances : Z;
  availability_zones : list string;
  launch_template : string
}.

(** The [asg_info] dictionary; [total_healthy] is its key
    ['healthy_instances']. *)
Record asg_info := AsgInfo {
  auto_scaling_groups : list asg_details;
  total_instances : Z;
  total_healthy : Z;
  asg_error : option string
}.

(** [len([i for i in asg['Instances'] if i['HealthStatus'] == 'Healthy'])] *)
Definition healthy_count (asg : auto_scaling_group) : Z :=
  len (List.filter (fun i => String.eqb (HealthStatus i) "Healthy")
                   (AsgInstances asg)).

Definition asg_details_of (asg : auto_scaling_group) : asg_details :=
  {| name := AutoScalingGroupName asg;
     min_size := MinSize asg;
     max_size := MaxSize asg;
     desired_capacity := DesiredCapacity asg;
     current_instances := len (AsgInstances asg);
     healthy_instances := healthy_count asg;
     availability_zones := AvailabilityZones asg;
     launch_template :=
       match LaunchTemplate asg with
       | Some lt => default "N/A" (LaunchTemplateName lt)
       | None => "N/A"
       end |}.

(** Lines 198-202: does a tag [Workspace] with this value exist. *)
Definition workspace_match (workspace : string) (asg : auto_scaling_group)
  : bool :=
  existsb (fun t => String.eqb (Key t) "Workspace"
                    && String.eqb (Value t) workspace)
          (default [] (AsgTags asg)).

Definition record_asg (asg : auto_scaling_group) : M asg_info unit :=
  modify (fun i =>
    {| auto_scaling_groups := auto_scaling_groups i ++ [asg_details_of asg];
       total_instances := total_instances i + len (AsgInstances asg);
       total_healthy := total_healthy i + healthy_count asg;
       asg_error := asg_error i |}).

Definition set_asg_error (msg : string) : M asg_info unit :=
  modify (fun i =>
    {| auto_scaling_groups := auto_scaling_groups i;
       total_instances := total_instances i;
       total_healthy := total_healthy i;
       asg_error := Some msg |}).

Definition asgs_body (autoscaling : autoscaling_client) (workspace : string)
  : M asg_info unit :=
  response <- call (describe_auto_scaling_groups autoscaling) ;;
  for_each (AutoScalingGroups response) (fun asg =>
    when (workspace_match workspace asg) (record_asg asg)).

Definition check_workspace_asgs (autoscaling : autoscaling_client)
    (project_name workspace : string) : outcome asg_info :=
  exec (try_except (asgs_body autoscaling workspace)
                   (fun e => set_asg_error (exn_str e)))
       {| auto_scaling_groups := []; total_instances := 0;
          total_healthy := 0; asg_error := None |}.

Record s3_info := S3Info {
  bucket_name : string;
  exists_ : bool;
  versioning : string;
  encryption : string;
  object_count : Z;
  total_size_bytes : Z;
  s3_error : option string
}.

Definition set_exists (b : bool) : M s3_info unit :=
  modify (fun i =>
    {| bucket_name := bucket_name i; exists_ := b;
       versioning := versioning i; encryption := encryption i;
       object_count := object_count i;
       total_size_bytes := total_size_bytes i; s3_error := s3_error i |}).

Definition set_versioning (v : string) : M s3_info unit :=
  modify (fun i =>
    {| bucket_name := bucket_name i; exists_ := exists_ i;
       versioning := v; encryption := encryption i;
       object_count := object_count i;
       total_size_bytes := total_size_bytes i; s3_error := s3_error i |}).

Definition set_encryption (v : string) : M s3_info unit :=
  modify (fun i =>
    {| bucket_name := bucket_name i; exists_ := exists_ i;
       versioning := versioning i; encryption := v;
       object_count := object_count i;
       total_size_bytes := total_size_bytes i; s3_error := s3_error i |}).

Definition set_usage (count size : Z) : M s3_info unit :=
  modify (fun i =>
    {| bucket_name := bucket_name i; exists_ := exists_ i;
       versioning := versioning i; encryption := encryption i;
       object_count := count;
       total_size_bytes := size; s3_error := s3_error i |}).

Definition set_s3_error (msg : string) : M s3_info unit :=
  modify (fun i =>
    {| bucket_name := bucket_name i; exists_ := exists_ i;
       versioning := versioning i; encryption := encryption i;
       object_count := object_count i;
       total_size_bytes := total_size_bytes i; s3_error := Some msg |}).

(** Lines 248-254: the inner [try] with its two handlers. *)
Definition encryption_step (s3 : s3_client) (bucket : string)
  : M s3_info unit :=
  try_except
    (_ <- call (get_bucket_encryption s3 bucket) ;;
     set_encryption "Enabled")
    (fun e =>
       if isinstance e NoSuchBucket then set_encryption "Disabled"
       else set_encryption "Unknown").

Definition s3_resources_body (s3 : s3_client) (bucket : string)
  : M s3_info unit :=
  _ <- call (head_bucket s3 bucket) ;;
  set_exists true ;;
  versioning_ <- call (get_bucket_versioning s3 bucket) ;;
  set_versioning (default "Suspended" (Status versioning_)) ;;
  encryption_step s3 bucket ;;
  objects <- call (list_objects_v2 s3 bucket 1000) ;;
  match Contents objects with
  | Some contents =>
    set_usage (len contents) (fold_left Z.add (Size <$> contents) 0)
  | None => ret tt
  end.

Definition check_s3_resources (s3 : s3_client) (bucket workspace : string)
  : outcome s3_info :=
  exec (try_except (s3_resources_body s3 bucket)
                   (fun e => set_s3_error (exn_str e)))
       {| bucket_name := bucket; exists_ := false; versioning := "Unknown";
          encryption := "Unknown"; object_count := 0; total_size_bytes := 0;
          s3_error := None |}.

Record param_info := ParamInfo {
  param_name : string;
  param_type : string;
  last_modified : datetime;
  version : Z
}.

(** The [ssm_info] dictionary; the three [config_] keys exist only once
    assigned. *)
Record ssm_info := SsmInfo {
  parameters : list param_info;
  workspace_config_exists : bool;
  config_last_modified : option datetime;
  config_version : option Z;
  config_data : option json;
  ssm_error : option string
}.

Definition set_config_exists (b : bool) : M ssm_info unit :=
  modify (fun i =>
    {| parameters := parameters i; workspace_config_exists := b;
       config_last_modified := config_last_modified i;
       config_version := config_version i; config_data := config_data i;
       ssm_error := ssm_error i |}).

Definition set_config_meta (p : ssm_parameter) : M ssm_info unit :=
  modify (fun i =>
    {| parameters := parameters i;
       workspace_config_exists := workspace_config_exists i;
       config_last_modified := Some (ParamLastModifiedDate p);
       config_version := Some (ParamVersion p);
       config_data := config_data i;
       ssm_error := ssm_error i |}).

Definition set_config_data (d : json) : M ssm_info unit :=
  modify (fun i =>
    {| parameters := parameters i;
       workspace_config_exists := workspace_config_exists i;
       config_last_modified := config_last_modified i;
       config_version := config_version i; config_data := Some d;
       ssm_error := ssm_error i |}).

Definition append_parameter (p : param_info) : M ssm_info unit :=
  modify (fun i =>
    {| parameters := parameters i ++ [p];
       workspace_config_exists := workspace_config_exists i;
       config_last_modified := config_last_modified i;
       config_version := config_version i; config_data := config_data i;
       ssm_error := ssm_error i |}).

Definition set_ssm_error (msg : string) : M ssm_info unit :=
  modify (fun i =>
    {| parameters := parameters i;
       workspace_config_exists := workspace_config_exists i;
       config_last_modified := config_last_modified i;
       config_version := config_version i; config_data := config_data i;
       ssm_error := Some msg |}).

Definition param_info_of (p : parameter_metadata) : param_info :=
  {| param_name := MetaName p; param_type := MetaType p;
     last_modified := MetaLastModifiedDate p; version := MetaVersion p |}.

Section Ssm.

(** [json.loads], which raises [JSONDecodeError] on a text that is not a
    JSON document. *)
Variable json_loads : string -> outcome json.

(** Lines 280-294: the configuration parameter. *)
Definition config_step (ssm : ssm_client) (config_param_name : string)
  : M ssm_info unit :=
  try_except_cls
    (param <- call (get_parameter ssm config_param_name) ;;
     set_config_exists true ;;
     set_config_meta (ParameterEntry param) ;;
     try_except_cls
       (config <- call (json_loads (ParamValue (ParameterEntry param))) ;;
        set_config_data config)
       JSONDecodeError
       (set_config_data (JStr "Invalid JSON")))
    ParameterNotFound
    (set_config_exists false).

Definition ssm_body (ssm : ssm_client) (project_name workspace : string)
  : M ssm_info unit :=
  let config_param_name :=
    "/" +:+ project_name +:+ "/" +:+ workspace +:+ "/config" in
  config_step ssm config_param_name ;;
  response <-
    call (describe_parameters ssm
            [ {| FilterKey := "Name"; FilterOption := "BeginsWith";
                 FilterValues :=
                   ["/" +:+ project_name +:+ "/" +:+ workspace +:+ "/"] |} ]) ;;
  for_each (Parameters response)
           (fun p => append_parameter (param_info_of p)).

Definition check_ssm_parameters (ssm : ssm_client)
    (project_name workspace : string) : outcome ssm_info :=
  exec (try_except (ssm_body ssm project_name workspace)
                   (fun e => set_ssm_error (exn_str e)))
       {| parameters := []; workspace_config_exists := false;
          config_last_modified := None; config_version := None;
          config_data := None; ssm_error := None |}.

End Ssm.

(** The [health] dictionary of the validators. *)
Record health := Health {
  status : string;
  issues : list string;
  warnings : list string
}.

Definition healthy_verdict : health :=
  {| status := "healthy"; issues := []; warnings := [] |}.

(** [health['issues'].append(s)] followed by
    [health['status'] = 'unhealthy'], as the validators always pair them. *)
Definition add_issue (s : string) (h : health) : health :=
  {| status := "unhealthy"; issues := issues h ++ [s];
     warnings := warnings h |}.

(** [health['warnings'].append(s)] *)
Definition add_warning (s : string) (h : health) : health :=
  {| status := status h; issues := issues h; warnings := warnings h ++ [s] |}.

(** [f"{x}"] for a value that is a string or [None]. *)
Definition str_opt (o : option string) : string := default "None" o.

(** Lines 338-346: one round of the loop over the subnets, on the verdict
    and the [subnets_by_type] dictionary. *)
Definition visit_subnet (acc : health * gmap string (list subnet_info))
    (s : subnet_info) : health * gmap string (list subnet_info) :=
  let '(h, subnets_by_type) := acc in
  let subnet_type_ := default "unknown" (subnet_type s) in
  let subnets_by_type :=
    match subnets_by_type !! subnet_type_ with
    | None => <[subnet_type_ := []]> subnets_by_type
    | Some _ => subnets_by_type
    end in
  let subnets_by_type :=
    <[subnet_type_ := default [] (subnets_by_type !! subnet_type_) ++ [s]]>
      subnets_by_type in
  let h :=
    if available_ip_count s <? 10 then
      add_warning ("Subnet " +:+ subnet_id s +:+ " has low available IPs: "
                     +:+ str_int (available_ip_count s)) h
    else h in
  (h, subnets_by_type).

Definition validate_vpc_health (info : vpc_info) : health :=
  let h := healthy_verdict in
  let h :=
    if bool_decide (state info = Some "available") then h
    else add_issue ("VPC state is " +:+ str_opt (state info)
                      +:+ ", expected 'available'") h in
  let '(h, subnets_by_type) := fold_left visit_subnet (subnets info) (h, ∅) in
  let expected_types := ["public"; "private"] in
  fold_left
    (fun h expected_type =>
       match subnets_by_type !! expected_type with
       | None => add_warning ("No " +:+ expected_type +:+ " subnets found") h
       | Some _ => h
       end)
    expected_types h.

(** Lines 371-384: one round of the loop over the groups. *)
Definition visit_group (workspace : string) (h : health) (asg : asg_details)
  : health :=
  let h :=
    if healthy_instances asg <? current_instances asg then
      add_warning ("ASG " +:+ name asg +:+ " has unhealthy instances: "
                     +:+ str_int (current_instances asg - healthy_instances asg)) h
    else h in
  let h :=
    if negb (current_instances asg =? desired_capacity asg) then
      add_warning ("ASG " +:+ name asg +:+ " current instances ("
                     +:+ str_int (current_instances asg)
                     +:+ ") doesn't match desired ("
                     +:+ str_int (desired_capacity asg) +:+ ")") h
    else h in
  if String.eqb workspace "prod" then
    let h :=
      if min_size asg <? 2 then
        add_warning ("Production ASG " +:+ name asg
                       +:+ " should have min_size >= 2 for HA") h
      else h in
    if len (availability_zones asg) <? 2 then
      add_warning ("Production ASG " +:+ name asg
                     +:+ " should span multiple AZs") h
    else h
  else h.

Definition validate_asg_health (info : asg_info) (workspace : string)
  : health :=
  let h := healthy_verdict in
  if negb (truthy (auto_scaling_groups info)) then
    add_issue "No Auto Scaling Groups found for this workspace" h
  else
    fold_left (visit_group workspace) (auto_scaling_groups info) h.

Definition validate_s3_health (info : s3_info) : health :=
  let h := healthy_verdict in
  if negb (exists_ info) then
    add_issue "S3 bucket does not exist" h
  else if String.eqb (encryption info) "Disabled" then
    add_warning "S3 bucket encryption is disabled" h
  else h.

(** [workspace_info['resources']]: a key exists once its check has run. *)
Record resources := Resources {
  res_vpc : option vpc_info;
  res_autoscaling : option asg_info;
  res_s3 : option s3_info;
  res_ssm : option ssm_info
}.

(** [workspace_info['health_checks']] *)
Record health_checks := HealthChecks {
  hc_vpc : option health;
  hc_autoscaling : option health;
  hc_s3 : option health
}.

Record workspace_info := WorkspaceInfo {
  workspace : string;
  environment : string;
  project_name : string;
  timestamp : string;
  function_name : string;
  info_resources : resources;
  info_health_checks : health_checks;
  recommendations : list string
}.

(** [workspace in ['dev', 'test']] *)
Definition dev_or_test (workspace_ : string) : bool :=
  String.eqb workspace_ "dev" || String.eqb workspace_ "test".

(** [l.append(s)] on a list of strings. *)
Definition push (l : list string) (s : string) : list string := l ++ [s].

(** Each resource dictionary, once present, has keys and so is true. *)
Definition generate_recommendations (info : workspace_info)
    (workspace_ : string) : list string :=
  let recommendations : list string := [] in
  let recommendations :=
    match res_vpc (info_resources info) with
    | Some vpc_info_ =>
      let nat_gateways_ := nat_gateways vpc_info_ in
      if dev_or_test workspace_ && truthy nat_gateways_ then
        push recommendations
          "Consider removing NAT Gateways in dev/test environments to reduce costs"
      else if String.eqb workspace_ "prod" && negb (truthy nat_gateways_) then
        push recommendations
          "Production environment should have NAT Gateways for private subnet internet access"
      else recommendations
    | None => recommendations
    end in
  let recommendations :=
    match res_autoscaling (info_resources info) with
    | Some asg_info_ =>
      let total := total_instances asg_info_ in
      if dev_or_test workspace_ && (2 <? total) then
        push recommendations
          "Consider reducing instance count in dev/test environments for cost optimization"
      else if String.eqb workspace_ "prod" && (total <? 3) then
        push recommendations
          "Production environment should have at least 3 instances for high availability"
      else recommendations
    | None => recommendations
    end in
  let recommendations :=
    match res_s3 (info_resources info) with
    | Some s3_info_ =>
      if String.eqb workspace_ "prod"
         && negb (String.eqb (versioning s3_info_) "Enabled") then
        push recommendations
          "Enable S3 versioning for production environments"
      else if dev_or_test workspace_
              && String.eqb (versioning s3_info_) "Enabled" then
        push recommendations
          "Consider disabling S3 versioning in dev/test to reduce storage costs"
      else recommendations
    | None => recommendations
    end in
  if String.eqb workspace_ "default" then
    push recommendations
          "Consider creating dedicated workspaces (dev, staging, prod) instead of using default"
  else recommendations.

(** [health_checks.items()], in insertion order. *)
Definition health_items (hc : health_checks) : list (string * health) :=
  match hc_vpc hc with Some h => [("vpc", h)] | None => [] end
  ++ match hc_autoscaling hc with Some h => [("autoscaling", h)] | None => [] end
  ++ match hc_s3 hc with Some h => [("s3", h)] | None => [] end.

(** Lines 451-469: the summary written to the parameter store. *)
Definition status_summary (info : workspace_info) (workspace_ : string)
  : json :=
  let res := info_resources info in
  let overall_health :=
    if existsb (fun kv => String.eqb (status (snd kv)) "unhealthy")
               (health_items (info_health_checks info))
    then "unhealthy" else "healthy" in
  JDict
    [ ("workspace", JStr workspace_);
      ("last_check", JStr (timestamp info));
      ("overall_health", JStr overall_health);
      ("resource_counts",
       JDict
         [ ("vpc_subnets",
            JInt (len (from_option subnets [] (res_vpc res))));
           ("security_groups",
            JInt (len (from_option security_groups [] (res_vpc res))));
           ("auto_scaling_groups",
            JInt (len (from_option auto_scaling_groups [] (res_autoscaling res))));
           ("total_instances",
            JInt (from_option total_instances 0 (res_autoscaling res))) ]);
      ("recommendations_count", JInt (len (recommendations info))) ].

(** The whole function is one [try] whose handler only logs. *)
Definition store_workspace_status (ssm : ssm_client) (info : workspace_info)
    (project_name_ workspace_ : string) : outcome unit :=
  run (try_except
         (let status_param_name :=
            "/" +:+ project_name_ +:+ "/" +:+ workspace_ +:+ "/status" in
          call (put_parameter ssm
                  {| PutName := status_param_name;
                     PutValue := status_summary info workspace_;
                     PutType := "String";
                     PutOverwrite := true;
                     PutDescription := "Workspace status for " +:+ workspace_ |}))
         (fun e => ret tt)).

(** *** The report as the document handed to [json.dumps]

    [default=str] turns a [datetime] into its [str]. *)

Definition opt_entry {A} (k : string) (f : A -> json) (o : option A)
  : list (string * json) :=
  match o with Some a => [(k, f a)] | None => [] end.

Definition subnet_info_json (s : subnet_info) : json :=
  JDict ([ ("subnet_id", JStr (subnet_id s));
           ("cidr_block", JStr (subnet_cidr_block s));
           ("availability_zone", JStr (availability_zone s));
           ("available_ip_count", JInt (available_ip_count s));
           ("state", JStr (subnet_state s)) ]
         ++ opt_entry "type" JStr (subnet_type s)).

Definition sg_info_json (g : sg_info) : json :=
  JDict [ ("group_id", JStr (group_id g));
          ("group_name", JStr (group_name g));
          ("description", JStr (description g));
          ("ingress_rules", JInt (ingress_rules g));
          ("egress_rules", JInt (egress_rules g)) ].

Definition nat_info_json (n : nat_info) : json :=
  JDict [ ("nat_gateway_id", JStr (nat_gateway_id n));
          ("subnet_id", JStr (nat_subnet_id n));
          ("state", JStr (nat_state n));
          ("public_ip", from_option JStr JNull (public_ip n)) ].

Definition vpc_info_json (i : vpc_info) : json :=
  JDict ([ ("vpc_id", JStr (vpc_id i));
           ("subnets", JList (subnet_info_json <$> subnets i));
           ("security_groups", JList (sg_info_json <$> security_groups i));
           ("route_tables", JList []);
           ("internet_gateways", JList []);
           ("nat_gateways", JList (nat_info_json <$> nat_gateways i)) ]
         ++ opt_entry "cidr_block" JStr (cidr_block i)
         ++ opt_entry "state" JStr (state i)
         ++ opt_entry "error" JStr (vpc_error i)).

Definition asg_details_json (a : asg_details) : json :=
  JDict [ ("name", JStr (name a));
          ("min_size", JInt (min_size a));
          ("max_size", JInt (max_size a));
          ("desired_capacity", JInt (desired_capacity a));
          ("current_instances", JInt (current_instances a));
          ("healthy_instances", JInt (healthy_instances a));
          ("availability_zones", JStrs (availability_zones a));
          ("launch_template", JStr (launch_template a)) ].

Definition asg_info_json (i : asg_info) : json :=
  JDict ([ ("auto_scaling_groups",
            JList (asg_details_json <$> auto_scaling_groups i));
           ("total_instances", JInt (total_instances i));
           ("healthy_instances", JInt (total_healthy i)) ]
         ++ opt_entry "error" JStr (asg_error i)).

Definition s3_info_json (i : s3_info) : json :=
  JDict ([ ("bucket_name", JStr (bucket_name i));
           ("exists", JBool (exists_ i));
           ("versioning", JStr (versioning i));
           ("encryption", JStr (encryption i));
           ("object_count", JInt (object_count i));
           ("total_size_bytes", JInt (total_size_bytes i)) ]
         ++ opt_entry "error" JStr (s3_error i)).

Definition datetime_json (d : datetime) : json := JStr (dt_str d).

Definition param_info_json (p : param_info) : json :=
  JDict [ ("name", JStr (param_name p));
          ("type", JStr (param_type p));
          ("last_modified", datetime_json (last_modified p));
          ("version", JInt (version p)) ].

Definition ssm_info_json (i : ssm_info) : json :=
  JDict ([ ("parameters", JList (param_info_json <$> parameters i));
           ("workspace_config_exists", JBool (workspace_config_exists i)) ]
         ++ opt_entry "config_last_modified" datetime_json (config_last_modified i)
         ++ opt_entry "config_version" JInt (config_version i)
         ++ opt_entry "config_data" id (config_data i)
         ++ opt_entry "error" JStr (ssm_error i)).

Definition health_json (h : health) : json :=
  JDict [ ("status", JStr (status h));
          ("issues", JStrs (issues h));
          ("warnings", JStrs (warnings h)) ].

Definition resources_json (r : resources) : json :=
  JDict (opt_entry "vpc" vpc_info_json (res_vpc r)
         ++ opt_entry "autoscaling" asg_info_json (res_autoscaling r)
         ++ opt_entry "s3" s3_info_json (res_s3 r)
         ++ opt_entry "ssm" ssm_info_json (res_ssm r)).

Definition health_checks_json (hc : health_checks) : json :=
  JDict (List.map (fun kv => (fst kv, health_json (snd kv))) (health_items hc)).

Definition workspace_info_json (i : workspace_info) : json :=
  JDict [ ("workspace", JStr (workspace i));
          ("environment", JStr (environment i));
          ("project_name", JStr (project_name i));
          ("timestamp", JStr (timestamp i));
          ("function_name", JStr (function_name i));
          ("resources", resources_json (info_resources i));
          ("health_checks", health_checks_json (info_health_checks i));
          ("recommendations", JStrs (recommendations i)) ].

Definition with_vpc (i : workspace_info) (v : vpc_info) (h : health)
  : workspace_info :=
  let r := info_resources i in
  let hc := info_health_checks i in
  {| workspace := workspace i; environment := environment i;
     project_name := project_name i; timestamp := timestamp i;
     function_name := function_name i;
     info_resources :=
       {| res_vpc := Some v; res_autoscaling := res_autoscaling r;
          res_s3 := res_s3 r; res_ssm := res_ssm r |};
     info_health_checks :=
       {| hc_vpc := Some h; hc_autoscaling := hc_autoscaling hc;
          hc_s3 := hc_s3 hc |};
     recommendations := recommendations i |}.

Definition with_autoscaling (i : workspace_info) (a : asg_info) (h : health)
  : workspace_info :=
  let r := info_resources i in
  let hc := info_health_checks i in
  {| workspace := workspace i; environment := environment i;
     project_name := project_name i; timestamp := timestamp i;
     function_name := function_name i;
     info_resources :=
       {| res_vpc := res_vpc r; res_autoscaling := Some a;
          res_s3 := res_s3 r; res_ssm := res_ssm r |};
     info_health_checks :=
       {| hc_vpc := hc_vpc hc; hc_autoscaling := Some h;
          hc_s3 := hc_s3 hc |};
     recommendations := recommendations i |}.

Definition with_s3 (i : workspace_info) (s : s3_info) (h : health)
  : workspace_info :=
  let r := info_resources i in
  let hc := info_health_checks i in
  {| workspace := workspace i; environment := environment i;
     project_name := project_name i; timestamp := timestamp i;
     function_name := function_name i;
     info_resources :=
       {| res_vpc := res_vpc r; res_autoscaling := res_autoscaling r;
          res_s3 := Some s; res_ssm := res_ssm r |};
     info_health_checks :=
       {| hc_vpc := hc_vpc hc; hc_autoscaling := hc_autoscaling hc;
          hc_s3 := Some h |};
     recommendations := recommendations i |}.

Definition with_ssm (i : workspace_info) (s : ssm_info) : workspace_info :=
  let r := info_resources i in
  {| workspace := workspace i; environment := environment i;
     project_name := project_name i; timestamp := timestamp i;
     function_name := function_name i;
     info_resources :=
       {| res_vpc := res_vpc r; res_autoscaling := res_autoscaling r;
          res_s3 := res_s3 r; res_ssm := Some s |};
     info_health_checks := info_health_checks i;
     recommendations := recommendations i |}.

Definition with_recommendations (i : workspace_info) (l : list string)
  : workspace_info :=
  {| workspace := workspace i; environment := environment i;
     project_name := project_name i; timestamp := timestamp i;
     function_name := function_name i;
     info_resources := info_resources i;
     info_health_checks := info_health_checks i;
     recommendations := l |}.

(** The one local variable of the handler that its [except] block reads;
    [None] until the first assignment has run. *)
Record locals := Locals { local_workspace : option string }.

(** [workspace = v] *)
Definition assign_workspace (v : string) : M locals unit :=
  modify (fun _ => {| local_workspace := Some v |}).

(** Reading [workspace]. *)
Definition read_workspace : M locals string :=
  l <- get ;;
  match local_workspace l with
  | Some v => ret v
  | None => raise (unbound_local_error "workspace")
  end.

(** The truth value of a string: the empty string is false. *)
Definition nonempty (s : string) : bool := negb (String.eqb s "").

Section Handler.

Variable json_loads : string -> outcome json.

(** Lines 52-77, once the clients and the report dictionary exist. *)
Definition gather (ec2 : ec2_client) (autoscaling : autoscaling_client)
    (s3 : s3_client) (ssm : ssm_client)
    (workspace_ project_name_ vpc_id_ bucket_name_ : string)
    (info : workspace_info) : M locals workspace_info :=
  info <-
    (if nonempty vpc_id_ then
       vpc_info_ <- call (check_vpc_resources ec2 vpc_id_ workspace_) ;;
       ret (with_vpc info vpc_info_ (validate_vpc_health vpc_info_))
     else ret info) ;;
  asg_info_ <- call (check_workspace_asgs autoscaling project_name_ workspace_) ;;
  let info :=
    with_autoscaling info asg_info_ (validate_asg_health asg_info_ workspace_) in
  info <-
    (if nonempty bucket_name_ then
       s3_info_ <- call (check_s3_resources s3 bucket_name_ workspace_) ;;
       ret (with_s3 info s3_info_ (validate_s3_health s3_info_))
     else ret info) ;;
  ssm_info_ <-
    call (check_ssm_parameters json_loads ssm project_name_ workspace_) ;;
  let info := with_ssm info ssm_info_ in
  let info :=
    with_recommendations info (generate_recommendations info workspace_) in
  _ <- call (store_workspace_status ssm info project_name_ workspace_) ;;
  ret info.

(** Lines 24-84: the [try] block of the handler. *)
Definition handler_body (aws : boto3) (clk : clock) (event : json)
    (context : lambda_context) : M locals response :=
  env <- call (context_environment context) ;;
  let workspace_ := get_default env "WORKSPACE" "unknown" in
  assign_workspace workspace_ ;;
  env <- call (context_environment context) ;;
  let environment_ := get_default env "ENVIRONMENT" "unknown" in
  env <- call (context_environment context) ;;
  let project_name_ := get_default env "PROJECT_NAME" "unknown" in
  env <- call (context_environment context) ;;
  let vpc_id_ := get_default env "VPC_ID" "" in
  env <- call (context_environment context) ;;
  let bucket_name_ := get_default env "BUCKET_NAME" "" in
  env <- call (context_environment context) ;;
  let log_group := get_default env "LOG_GROUP" "" in
  ec2 <- call (client_ec2 aws) ;;
  autoscaling <- call (client_autoscaling aws) ;;
  s3 <- call (client_s3 aws) ;;
  ssm <- call (client_ssm aws) ;;
  cloudwatch <- call (client_cloudwatch aws) ;;
  function_name_ <- call (context_function_name context) ;;
  let info :=
    {| workspace := workspace_; environment := environment_;
       project_name := project_name_; timestamp := isoformat clk;
       function_name := function_name_;
       info_resources :=
         {| res_vpc := None; res_autoscaling := None; res_s3 := None;
            res_ssm := None |};
       info_health_checks :=
         {| hc_vpc := None; hc_autoscaling := None; hc_s3 := None |};
       recommendations := [] |} in
  info <-
    gather ec2 autoscaling s3 ssm workspace_ project_name_ vpc_id_
           bucket_name_ info ;;
  ret {| statusCode := 200; body := workspace_info_json info |}.

(** Lines 86-95: the handler of the outer [try], which reads the local
    variable [workspace]. *)
Definition handler_except (clk : clock) (e : exn) : M locals response :=
  workspace_ <- read_workspace ;;
  ret {| statusCode := 500;
         body := JDict [ ("error", JStr (exn_str e));
                         ("workspace", JStr workspace_);
                         ("timestamp", JStr (isoformat clk)) ] |}.

Definition handler (aws : boto3) (clk : clock) (event : json)
    (context : lambda_context) : outcome response :=
  fst (try_except (handler_body aws clk event context) (handler_except clk)
         {| local_workspace := None |}).

End Handler.

End WorkspaceManager.

(** ** Concrete inventories

    The inputs the properties below are exercised on. *)

Module Scenarios.

(** A call the provider refuses. *)
Definition denied {A} : outcome A := Raise (Exn ClientError "AccessDenied").

(** 1970-01-01 12:00 and 03:00 UTC. *)
Definition noon : clock := Clock 43200 "1970-01-01T12:00:00".
Definition night : clock := Clock 10800 "1970-01-01T03:00:00".

Definition idle_burstable : instance := Instance "i-idle" "t3.micro" None.
Definition idle_large : instance := Instance "i-large" "m5.large" None.
Definition busy : instance := Instance "i-busy" "t3.micro" None.
Definition steady : instance := Instance "i-steady" "t3.micro" None.

Definition series (values : list float) : metric_statistics :=
  MetricStatistics (Datapoint <$> values).

(** An account with one instance, whose CPU averages 50, and nothing else
    the programs may read. *)
Definition steady_ec2 : ec2_client :=
  {| describe_instances := fun _ =>
       Ret (DescribeInstances [Reservation [steady]]);
     describe_vpcs := fun _ => denied;
     describe_subnets := fun _ => denied;
     describe_security_groups := fun _ => denied;
     describe_nat_gateways := fun _ => denied |}.

Definition steady_cloudwatch : cloudwatch_client :=
  {| get_metric_statistics := fun _ => Ret (series [40%float; 60%float]) |}.

(** A metering service that refuses every query. *)
Definition refusing_cloudwatch : cloudwatch_client :=
  {| get_metric_statistics := fun _ => denied |}.

(** An account with four instances in two reservations, whose CPU averages
    are 5, 5, 85 and 50. *)
Definition mixed_ec2 : ec2_client :=
  {| describe_instances := fun _ =>
       Ret (DescribeInstances
              [ Reservation [idle_burstable; idle_large];
                Reservation [busy; steady] ]);
     describe_vpcs := fun _ => denied;
     describe_subnets := fun _ => denied;
     describe_security_groups := fun _ => denied;
     describe_nat_gateways := fun _ => denied |}.

Definition mixed_cloudwatch : cloudwatch_client :=
  {| get_metric_statistics := fun q =>
       let instance_id := snd (List.hd ("", "") (Dimensions q)) in
       if String.eqb instance_id "i-busy" then
         Ret (series [90%float; 80%float])
       else if String.eqb instance_id "i-steady" then
         Ret (series [40%float; 60%float])
       else Ret (series [4%float; 6%float]) |}.

Definition no_autoscaling : autoscaling_client :=
  {| describe_auto_scaling_groups := denied;
     describe_scheduled_actions := fun _ => denied |}.

(** What [s3.exceptions.NoSuchLifecycleConfiguration] gives on a client
    whose exception classes do not include that name, as is the case of the
    S3 client boto3 builds: an [AttributeError] that lists the classes there
    are (the list is cut short here). *)
Definition missing_class_error : exn :=
  Exn AttributeError
      ("<botocore.errorfactory.S3Exceptions object> object has no "
         +:+ "attribute NoSuchLifecycleConfiguration. Valid exceptions "
         +:+ "are: BucketAlreadyExists, BucketAlreadyOwnedByYou, "
         +:+ "NoSuchBucket, NoSuchKey, NoSuchUpload").

Definition no_such_exception_class : outcome exn_class :=
  Raise missing_class_error.

(** The error of a lifecycle query on a bucket that has no lifecycle
    configuration. *)
Definition no_lifecycle_configuration : exn :=
  Exn ClientError
      ("An error occurred (NoSuchLifecycleConfiguration) when calling the "
         +:+ "GetBucketLifecycleConfiguration operation: The lifecycle "
         +:+ "configuration does not exist").

(** A bucket of 1500 objects without lifecycle configuration: 40 objects
    from day 0, then 960 written at noon, then 500 more from day 0.  The
    listing returns the first [MaxKeys] objects. *)
Definition bucket_objects (now : Z) : list s3_object :=
  replicate 40 (S3Object "old" 1024 (now - days 90))
  ++ replicate 960 (S3Object "new" 1024 now)
  ++ replicate 500 (S3Object "older" 1024 (now - days 90)).

Definition unmanaged_s3 (now : Z) : s3_client :=
  {| get_bucket_lifecycle_configuration := fun _ =>
       Raise no_lifecycle_configuration;
     list_objects_v2 := fun _ max_keys =>
       Ret (ListObjects (Some (take (Z.to_nat max_keys) (bucket_objects now))));
     head_bucket := fun _ => Ret tt;
     get_bucket_versioning := fun _ => Ret (BucketVersioning None);
     get_bucket_encryption := fun _ => Ret tt;
     exceptions_NoSuchLifecycleConfiguration := no_such_exception_class |}.

Definition no_ssm : ssm_client :=
  {| get_parameter := fun _ => Raise (Exn ParameterNotFound "ParameterNotFound");
     describe_parameters := fun _ => Ret (DescribeParameters []);
     put_parameter := fun _ => denied |}.

Definition account (clk : clock) : boto3 :=
  {| client_ec2 := Ret steady_ec2;
     client_cloudwatch := Ret steady_cloudwatch;
     client_autoscaling := Ret no_autoscaling;
     client_s3 := Ret (unmanaged_s3 (utcnow clk));
     client_ssm := Ret no_ssm |}.

Definition no_json (text : string) : outcome json :=
  Raise (Exn JSONDecodeError "Expecting value").

Definition context_of (env : gmap string string) : lambda_context :=
  {| ctx_class := "LambdaContext"; ctx_environment := Some env;
     ctx_function_name := Some "workspace-manager" |}.

(** The context object of the Lambda runtime, which has a function name but
    no attribute [environment]. *)
Definition runtime_context : lambda_context :=
  {| ctx_class := "LambdaContext"; ctx_environment := None;
     ctx_function_name := Some "workspace-manager" |}.

Definition full_env : gmap string string :=
  <["PROJECT_NAME" := "shop"]>
    (<["ENVIRONMENT" := "dev"]> (<["BUCKET_NAME" := "shop-dev-assets"]> ∅)).

Definition env_without_project : gmap string string :=
  <["ENVIRONMENT" := "dev"]> (<["BUCKET_NAME" := "shop-dev-assets"]> ∅).

Definition env_unknown_project : gmap string string :=
  <["PROJECT_NAME" := "unknown"]> env_without_project.

Definition lone_prod_group : WorkspaceManager.asg_details :=
  {| WorkspaceManager.name := "web";
     WorkspaceManager.min_size := 1;
     WorkspaceManager.max_size := 4;
     WorkspaceManager.desired_capacity := 1;
     WorkspaceManager.current_instances := 1;
     WorkspaceManager.healthy_instances := 1;
     WorkspaceManager.availability_zones := ["eu-west-1a"];
     WorkspaceManager.launch_template := "N/A" |}.

End Scenarios.

(** ** Readings of the inventory

    What the checks are expected to report, read off the inventory itself:
    the functions below look at the responses, not at the dictionaries the
    programs build, and the properties further down compare the two. *)

Module Readings.

(** The group carries the project: its first tag named [Project] has the
    project's name as value. *)
Definition own_group (project_name : string) (asg : auto_scaling_group)
  : bool :=
  match CostOptimizer.find_tag "Project" (default [] (AsgTags asg)) with
  | Some t => String.eqb (Value t) project_name
  | None => false
  end.

(** The scheduled-actions query answers for the group with an empty list. *)
Definition unscheduled (autoscaling : autoscaling_client)
    (asg : auto_scaling_group) : bool :=
  match describe_scheduled_actions autoscaling (AutoScalingGroupName asg) with
  | Ret actions => negb (truthy (ScheduledUpdateGroupActions actions))
  | Raise _ => false
  end.

(** Some tag of the list has this key. *)
Definition has_tag (tags : list tag) (key : string) : bool :=
  existsb (fun t => String.eqb (Key t) key) tags.

(** The required tags the instance lacks, in the order of
    [required_tags]. *)
Definition lacking (inst : instance) : list string :=
  List.filter (fun key => negb (has_tag (default [] (InstanceTags inst)) key))
              CostOptimizer.required_tags.

Definition all_instances (response : describe_instances_response)
  : list instance :=
  flat_map Instances (Reservations response).

(** The instances that lack a required tag, in the order of the response. *)
Definition untagged (response : describe_instances_response) : list instance :=
  List.filter (fun inst => truthy (lacking inst)) (all_instances response).

(** The line the tagging check writes for an instance that lacks tags. *)
Definition untagged_line (inst : instance) : string :=
  "Instance " +:+ InstanceId inst +:+ " missing tags: "
    +:+ join ", " (lacking inst).

(** The fixed estimate each check adds per trigger; the tagging check has
    none. *)
Definition savings_unit (m : CostOptimizer.check_module) : Z :=
  match m with
  | CostOptimizer.InstanceUtilization => 20
  | CostOptimizer.AsgEfficiency => 50
  | CostOptimizer.S3Storage => 30
  | CostOptimizer.TaggingCompliance => 0
  | CostOptimizer.CostAnomaly => 25
  end.

(** The estimate is a whole number of triggers of [unit] each. *)
Definition in_units (unit : Z) (o : CostOptimizer.FindingSet) : Prop :=
  exists triggers,
    0 <= triggers /\ CostOptimizer.potential_savings o = unit * triggers.

(** The low-address warnings of the subnets, in their order. *)
Definition low_ip_warnings (subnets : list WorkspaceManager.subnet_info)
  : list string :=
  flat_map
    (fun s =>
       if WorkspaceManager.available_ip_count s <? 10 then
         ["Subnet " +:+ WorkspaceManager.subnet_id s
            +:+ " has low available IPs: "
            +:+ str_int (WorkspaceManager.available_ip_count s)]
       else [])
    subnets.

(** The type a subnet is filed under: its [Type] tag, or [unknown]. *)
Definition filed_under (s : WorkspaceManager.subnet_info) : string :=
  default "unknown" (WorkspaceManager.subnet_type s).

(** Some subnet is filed under this type. *)
Definition has_type (subnets : list WorkspaceManager.subnet_info)
    (type : string) : bool :=
  existsb (fun s => String.eqb (filed_under s) type) subnets.

(** The sum of a count over the listed groups. *)
Definition sum_over (count : WorkspaceManager.asg_details -> Z)
    (groups : list WorkspaceManager.asg_details) : Z :=
  fold_right Z.add 0 (List.map count groups).

(** The totals of the summary are the sums over its groups, and no group
    has more healthy instances than instances. *)
Definition consistent_totals (info : WorkspaceManager.asg_info) : Prop :=
  WorkspaceManager.total_instances info
  = sum_over WorkspaceManager.current_instances
             (WorkspaceManager.auto_scaling_groups info)
  /\ WorkspaceManager.total_healthy info
     = sum_over WorkspaceManager.healthy_instances
                (WorkspaceManager.auto_scaling_groups info)
  /\ Forall (fun g => 0 <= WorkspaceManager.healthy_instances g
                      <= WorkspaceManager.current_instances g)
            (WorkspaceManager.auto_scaling_groups info).

(** The name of the configuration parameter of a workspace, and the filter
    that selects the parameters of the workspace. *)
Definition config_name (project_name_ workspace_ : string) : string :=
  "/" +:+ project_name_ +:+ "/" +:+ workspace_ +:+ "/config".

Definition workspace_prefix_filter (project_name_ workspace_ : string)
  : list parameter_filter :=
  [ {| FilterKey := "Name"; FilterOption := "BeginsWith";
       FilterValues := ["/" +:+ project_name_ +:+ "/" +:+ workspace_ +:+ "/"] |} ].

(** One recommendation, or none. *)
Definition advise (condition : bool) (text : string) : list string :=
  if condition then [text] else [].

(** The sum of a number over a list. *)
Definition sum_of {A} (number : A -> Z) (l : list A) : Z :=
  fold_right Z.add 0 (List.map number l).

(** The CPU series the utilization check reads for an instance: the
    datapoints its metric query answers with, none when the query raises. *)
Definition cpu_series (cloudwatch : cloudwatch_client) (clk : clock)
    (inst : instance) : list datapoint :=
  match get_metric_statistics cloudwatch
          (CostOptimizer.cpu_query (InstanceId inst) (utcnow clk)) with
  | Ret metrics => Datapoints metrics
  | Raise _ => []
  end.

(** The instances the utilization check gets to assess: those in front of
    the first one whose metric query raises, all of them when none does. *)
Fixpoint assessed (cloudwatch : cloudwatch_client) (clk : clock)
    (instances : list instance) : list instance :=
  match instances with
  | [] => []
  | inst :: rest =>
    match get_metric_statistics cloudwatch
            (CostOptimizer.cpu_query (InstanceId inst) (utcnow clk)) with
    | Ret _ => inst :: assessed cloudwatch clk rest
    | Raise _ => []
    end
  end.

(** The exception of the first metric query that raises, if one does. *)
Fixpoint refusal (cloudwatch : cloudwatch_client) (clk : clock)
    (instances : list instance) : option exn :=
  match instances with
  | [] => None
  | inst :: rest =>
    match get_metric_statistics cloudwatch
            (CostOptimizer.cpu_query (InstanceId inst) (utcnow clk)) with
    | Ret _ => refusal cloudwatch clk rest
    | Raise e => Some e
    end
  end.

(** The series has datapoints and their average is below 10. *)
Definition underused (series : list datapoint) : bool :=
  truthy series && PrimFloat.ltb (CostOptimizer.average_cpu series) 10.

(** The series has datapoints and their average is above 80. *)
Definition overloaded (series : list datapoint) : bool :=
  truthy series && PrimFloat.ltb 80 (CostOptimizer.average_cpu series).

(** The burstable-small family: the types whose name starts with [t3.]. *)
Definition burstable_small (inst : instance) : bool :=
  String.prefix "t3." (InstanceType inst).

(** What an instance with this series is expected to add to the findings,
    to the recommendations and to the savings of the utilization check. *)
Definition utilization_findings (inst : instance) (series : list datapoint)
  : list string :=
  advise (underused series)
    (CostOptimizer.low_cpu_finding (InstanceId inst) (InstanceType inst)
       (CostOptimizer.average_cpu series))
  ++ advise (overloaded series)
       (CostOptimizer.high_cpu_finding (InstanceId inst) (InstanceType inst)
          (CostOptimizer.average_cpu series)).

Definition utilization_recommendations (inst : instance)
    (series : list datapoint) : list string :=
  advise (underused series)
    (CostOptimizer.low_cpu_recommendation (InstanceId inst))
  ++ advise (overloaded series)
       (CostOptimizer.high_cpu_recommendation (InstanceId inst)).

Definition utilization_savings (inst : instance) (series : list datapoint)
  : Z :=
  if underused series && burstable_small inst then 20 else 0.

(** The lifecycle query raised, the client has an exception class of the
    name the storage check asks for, and the exception is of that class. *)
Definition absence_recognised (s3 : s3_client) (bucket_name : string) : bool :=
  match get_bucket_lifecycle_configuration s3 bucket_name,
        exceptions_NoSuchLifecycleConfiguration s3 with
  | Raise e, Ret c => isinstance e c
  | _, _ => false
  end.

End Readings.

(** ** More concrete inventories *)

Module Inventories.

Import Scenarios.

Definition group (name project workspace_ : string) (desired min_ max_ : Z)
    (health : list string) (zones : list string) : auto_scaling_group :=
  {| AutoScalingGroupName := name;
     AsgTags := Some [Tag "Project" project; Tag "Workspace" workspace_];
     DesiredCapacity := desired; MinSize := min_; MaxSize := max_;
     AsgInstances := AsgInstance <$> health;
     AvailabilityZones := zones;
     LaunchTemplate := None |}.

Definition web : auto_scaling_group :=
  group "web" "shop" "dev" 3 1 3 ["Healthy"; "Healthy"; "Unhealthy"]
        ["eu-west-1a"; "eu-west-1b"].
Definition jobs : auto_scaling_group :=
  group "jobs" "shop" "dev" 1 1 2 ["Healthy"] ["eu-west-1a"].
Definition billing : auto_scaling_group :=
  group "billing" "ledger" "prod" 2 2 4 ["Healthy"; "Healthy"]
        ["eu-west-1a"; "eu-west-1b"].

(** The groups of two projects; only [jobs] has scheduled actions, and the
    query is refused for [billing]. *)
Definition mixed_autoscaling : autoscaling_client :=
  {| describe_auto_scaling_groups := Ret (DescribeAsgs [web; billing; jobs]);
     describe_scheduled_actions := fun name =>
       if String.eqb name "web" then Ret (ScheduledActions [])
       else if String.eqb name "jobs" then Ret (ScheduledActions ["nightly"])
       else denied |}.

Definition tagged : instance :=
  Instance "i-tagged" "t3.micro"
    (Some [Tag "Project" "shop"; Tag "Environment" "dev";
           Tag "CostCenter" "42"; Tag "Owner" "ops"]).
Definition half_tagged : instance :=
  Instance "i-half" "t3.micro"
    (Some [Tag "Project" "shop"; Tag "Environment" "dev"]).
Definition bare : instance := Instance "i-bare" "m5.large" None.

Definition tagging_ec2 : ec2_client :=
  {| describe_instances := fun _ =>
       Ret (DescribeInstances
              [Reservation [tagged; half_tagged]; Reservation [bare]]);
     describe_vpcs := fun _ => denied;
     describe_subnets := fun _ => denied;
     describe_security_groups := fun _ => denied;
     describe_nat_gateways := fun _ => denied |}.

(** A bucket whose lifecycle query is refused. *)
Definition locked_s3 : s3_client :=
  {| get_bucket_lifecycle_configuration := fun _ => denied;
     list_objects_v2 := fun _ _ => Ret (ListObjects None);
     head_bucket := fun _ => denied;
     get_bucket_versioning := fun _ => denied;
     get_bucket_encryption := fun _ => denied;
     exceptions_NoSuchLifecycleConfiguration := no_such_exception_class |}.

(** A bucket with two lifecycle rules and two objects written 30 days and
    23 hours before [now], whose encryption query raises the no-such-bucket
    exception. *)
Definition managed_s3 (now : Z) : s3_client :=
  {| get_bucket_lifecycle_configuration := fun _ =>
       Ret (LifecycleConfiguration ["archive"; "expire"]);
     list_objects_v2 := fun _ _ =>
       Ret (ListObjects
              (Some [ S3Object "a" 1048576 (now - days 30 - 82800);
                      S3Object "b" 524288 (now - days 30 - 82800) ]));
     head_bucket := fun _ => Ret tt;
     get_bucket_versioning := fun _ => Ret (BucketVersioning None);
     get_bucket_encryption := fun _ =>
       Raise (Exn NoSuchBucket "NoSuchBucket");
     exceptions_NoSuchLifecycleConfiguration := no_such_exception_class |}.


(** A client written for a test, which has an exception class of the name
    the check asks for and raises it for a bucket without lifecycle
    configuration; the bucket holds one object, written 45 days before
    [now]. *)
Definition stub_s3 (now : Z) : s3_client :=
  {| get_bucket_lifecycle_configuration := fun _ =>
       Raise (Exn NoSuchLifecycleConfiguration
                "The lifecycle configuration does not exist");
     list_objects_v2 := fun _ _ =>
       Ret (ListObjects (Some [ S3Object "a" 1048576 (now - days 45) ]));
     head_bucket := fun _ => Ret tt;
     get_bucket_versioning := fun _ => Ret (BucketVersioning None);
     get_bucket_encryption := fun _ => Ret tt;
     exceptions_NoSuchLifecycleConfiguration :=
       Ret NoSuchLifecycleConfiguration |}.

Definition public_subnet : subnet :=
  {| SubnetId := "subnet-1"; SubnetCidrBlock := "10.0.1.0/24";
     SubnetAvailabilityZone := "eu-west-1a"; AvailableIpAddressCount := 7;
     SubnetState := "available";
     SubnetTags := Some [Tag "Name" "edge"; Tag "Type" "public"] |}.

Definition plain_subnet : subnet :=
  {| SubnetId := "subnet-2"; SubnetCidrBlock := "10.0.2.0/24";
     SubnetAvailabilityZone := "eu-west-1b"; AvailableIpAddressCount := 200;
     SubnetState := "available"; SubnetTags := None |}.

Definition network_ec2 : ec2_client :=
  {| describe_instances := fun _ => denied;
     describe_vpcs := fun _ => Ret (DescribeVpcs [Vpc "10.0.0.0/16" "available"]);
     describe_subnets := fun _ =>
       Ret (DescribeSubnets [public_subnet; plain_subnet]);
     describe_security_groups := fun _ =>
       Ret (DescribeSecurityGroups
              [SecurityGroup "sg-1" "web" "front" ["tcp/443"] []]);
     describe_nat_gateways := fun _ =>
       Ret (DescribeNatGateways
              [NatGateway "nat-1" "subnet-1" "available"
                 [NatGatewayAddress "203.0.113.7"]]) |}.

(** The VPC is listed as available; every other network query is refused. *)
Definition half_network_ec2 : ec2_client :=
  {| describe_instances := fun _ => denied;
     describe_vpcs := fun _ => Ret (DescribeVpcs [Vpc "10.0.0.0/16" "available"]);
     describe_subnets := fun _ => denied;
     describe_security_groups := fun _ => denied;
     describe_nat_gateways := fun _ => denied |}.

Definition stamp : datetime := Datetime 0 "1970-01-01 00:00:00+00:00".

(** A parameter store whose configuration parameter holds a text that is
    not JSON. *)
Definition broken_config_ssm : ssm_client :=
  {| get_parameter := fun _ =>
       Ret (GetParameter (SsmParameter "{oops" stamp 3));
     describe_parameters := fun _ =>
       Ret (DescribeParameters
              [ParameterMetadata "/shop/dev/config" "String" stamp 3]);
     put_parameter := fun _ => denied |}.

Definition steady_group : WorkspaceManager.asg_details :=
  {| WorkspaceManager.name := "web";
     WorkspaceManager.min_size := 1;
     WorkspaceManager.max_size := 4;
     WorkspaceManager.desired_capacity := 2;
     WorkspaceManager.current_instances := 2;
     WorkspaceManager.healthy_instances := 2;
     WorkspaceManager.availability_zones := ["eu-west-1a"];
     WorkspaceManager.launch_template := "N/A" |}.

Definition workspace_env : gmap string string :=
  <["WORKSPACE" := "dev"]>
    (<["PROJECT_NAME" := "shop"]> (<["BUCKET_NAME" := "shop-dev-assets"]> ∅)).

End Inventories.

(** ** Proof rules for blocks *)

Module PyFacts.

Section Rules.

Context {S : Type} (P : S -> Prop).

Lemma preserves_ret {A} (a : A) : preserves P (@ret S A a).
Proof. intros s Hs. exact Hs. Qed.

Lemma preserves_raise {A} (e : exn) : preserves P (@raise S A e).
Proof. intros s Hs. exact Hs. Qed.

Lemma preserves_call {A} (o : outcome A) : preserves P (@call S A o).
Proof. intros s Hs. exact Hs. Qed.

Lemma preserves_get : preserves P (@get S).
Proof. intros s Hs. exact Hs. Qed.

Lemma preserves_modify (f : S -> S) :
  (forall s, P s -> P (f s)) -> preserves P (modify f).
Proof. intros Hf s Hs. apply Hf, Hs. Qed.

Lemma preserves_bind {A B} (m : M S A) (k : A -> M S B) :
  preserves P m -> (forall a, preserves P (k a)) -> preserves P (bind m k).
Proof.
  intros Hm Hk s Hs. unfold bind.
  specialize (Hm s Hs).
  destruct (m s) as [[a | e] s']; simpl in *.
  - apply Hk, Hm.
  - exact Hm.
Qed.

Lemma preserves_try_except {A} (m : M S A) (h : exn -> M S A) :
  preserves P m -> (forall e, preserves P (h e)) ->
  preserves P (try_except m h).
Proof.
  intros Hm Hh s Hs. unfold try_except.
  specialize (Hm s Hs).
  destruct (m s) as [[a | e] s']; simpl in *.
  - exact Hm.
  - apply Hh, Hm.
Qed.

Lemma preserves_try_except_cls {A} (m : M S A) (c : exn_class) (h : M S A) :
  preserves P m -> preserves P h -> preserves P (try_except_cls m c h).
Proof.
  intros Hm Hh s Hs. unfold try_except_cls.
  specialize (Hm s Hs).
  destruct (m s) as [[a | e] s']; simpl in *.
  - exact Hm.
  - destruct (isinstance e c); simpl; [apply Hh, Hm | exact Hm].
Qed.

Lemma preserves_try_except_expr {A} (m : M S A) (cls : outcome exn_class)
    (h : M S A) :
  preserves P m -> preserves P h -> preserves P (try_except_expr m cls h).
Proof.
  intros Hm Hh s Hs. unfold try_except_expr.
  specialize (Hm s Hs).
  destruct (m s) as [[a | e] s']; simpl in *.
  - exact Hm.
  - destruct cls as [c | e']; simpl; [| exact Hm].
    destruct (isinstance e c); simpl; [apply Hh, Hm | exact Hm].
Qed.

Lemma preserves_when (b : bool) (m : M S unit) :
  preserves P m -> preserves P (when b m).
Proof. intros Hm. destruct b; simpl; [exact Hm | apply preserves_ret]. Qed.

Lemma preserves_for_each {A} (xs : list A) (body : A -> M S unit) :
  (forall x, preserves P (body x)) -> preserves P (for_each xs body).
Proof.
  intros Hbody. induction xs as [| x xs IH]; simpl.
  - apply preserves_ret.
  - apply preserves_bind; [apply Hbody | intros _; exact IH].
Qed.

(** A guarded block run on an object hands the object back whenever its
    handler returns, and the property the block keeps holds of it. *)
Lemma exec_guarded {A} (m : M S A) (h : exn -> M S A) (s : S) :
  preserves P m -> (forall e, preserves P (h e)) -> (forall e, total (h e)) ->
  P s -> exists s', exec (try_except m h) s = Ret s' /\ P s'.
Proof.
  intros Hm Hh Ht Hs. unfold exec, try_except.
  specialize (Hm s Hs).
  destruct (m s) as [[a | e] s1]; simpl in *.
  - exists s1. split; [reflexivity | exact Hm].
  - destruct (Ht e s1) as (a & s2 & E).
    specialize (Hh e s1 Hm). rewrite E in *. simpl in Hh.
    exists s2. split; [reflexivity | exact Hh].
Qed.

End Rules.

(** The order of the floats below a bound and above a larger one, read off
    their sign, exponent and mantissa. *)
Lemma SFltb_low_high (x : spec_float) (m1 m2 : positive) (e1 e2 : Z) :
  e1 < e2 ->
  SFltb x (S754_finite false m1 e1) = true ->
  SFltb (S754_finite false m2 e2) x = false.
Proof.
  intros He. unfold SFltb, SFcompare.
  destruct x as [s | s | | s m e]; try (destruct s);
    try reflexivity; try discriminate.
  destruct (Z.compare_spec e e1); destruct (Z.compare_spec e2 e);
    try lia; try discriminate; try reflexivity.
Qed.

(** A float below 10 is not above 80. *)
Lemma low_excludes_high (x : float) :
  PrimFloat.ltb x 10 = true -> PrimFloat.ltb 80 x = false.
Proof.
  rewrite !FloatAxioms.ltb_spec. apply SFltb_low_high. reflexivity.
Qed.

Lemma for_each_app {S A} (xs ys : list A) (body : A -> M S unit) (s : S) :
  for_each (xs ++ ys) body s
  = bind (for_each xs body) (fun _ => for_each ys body) s.
Proof.
  revert s. induction xs as [| x xs IH]; intros s; simpl.
  - reflexivity.
  - unfold bind. destruct (body x s) as [[[] | e] s1]; [| reflexivity].
    rewrite IH. reflexivity.
Qed.

(** A loop whose every round leaves the dictionary as it found it. *)
Lemma for_each_unchanged {S A} (xs : list A) (body : A -> M S unit) (s : S) :
  (forall x, In x xs -> body x s = (Ret tt, s)) ->
  for_each xs body s = (Ret tt, s).
Proof.
  induction xs as [| x xs IH]; intros H; simpl.
  - reflexivity.
  - unfold bind. rewrite (H x (or_introl eq_refl)).
    apply IH. intros y Hy. apply H. right. exact Hy.
Qed.

Lemma total_modify {S} (f : S -> S) : total (modify f).
Proof. intros s. exists tt, (f s). reflexivity. Qed.

Lemma total_ret {S A} (a : A) : total (@ret S A a).
Proof. intros s. exists a, s. reflexivity. Qed.

End PyFacts.

(** ** The cost optimizer's checks keep their dictionary well formed *)

Module CostOptimizerFacts.

Import PyFacts CostOptimizer.

Lemma append_finding_wf cat s : preserves (well_formed cat) (append_finding s).
Proof. apply preserves_modify. intros o [Hc Hs]. split; simpl; assumption. Qed.

Lemma extend_findings_wf cat l :
  preserves (well_formed cat) (extend_findings l).
Proof. apply preserves_modify. intros o [Hc Hs]. split; simpl; assumption. Qed.

Lemma append_recommendation_wf cat s :
  preserves (well_formed cat) (append_recommendation s).
Proof. apply preserves_modify. intros o [Hc Hs]. split; simpl; assumption. Qed.

Lemma add_savings_wf cat n :
  0 <= n -> preserves (well_formed cat) (add_savings n).
Proof.
  intros Hn. apply preserves_modify. intros o [Hc Hs].
  split; simpl; [assumption | lia].
Qed.

(** One step of a preservation proof: a proof rule, or a case split on the
    test or the scrutinee the block branches on. *)
Ltac preserve_step :=
  first
    [ apply preserves_ret | apply preserves_call | apply preserves_get
    | apply append_finding_wf | apply extend_findings_wf
    | apply append_recommendation_wf
    | apply add_savings_wf; lia
    | apply preserves_when
    | apply preserves_for_each; intros ?
    | apply preserves_try_except_cls
    | apply preserves_try_except_expr
    | apply preserves_bind; [| intros ?]
    | match goal with
      | |- preserves _ (let _ := _ in _) => cbv zeta
      | |- preserves _ (if ?b then _ else _) => destruct b
      | |- preserves _ (match ?x with _ => _ end) => destruct x
      end ].

Ltac preserve := repeat preserve_step.

Lemma assess_instance_wf cat inst m :
  preserves (well_formed cat) (assess_instance inst m).
Proof. unfold assess_instance. preserve. Qed.

Lemma utilization_body_wf cat ec2 cloudwatch clk project_name environment_ :
  preserves (well_formed cat)
    (utilization_body ec2 cloudwatch clk project_name environment_).
Proof.
  unfold utilization_body, scan_instances, visit_instance. preserve.
Qed.

Lemma asg_body_wf cat autoscaling project_name :
  preserves (well_formed cat) (asg_body autoscaling project_name).
Proof. unfold asg_body, visit_asg. preserve. Qed.

Lemma s3_body_wf cat s3 clk bucket_name :
  preserves (well_formed cat) (s3_body s3 clk bucket_name).
Proof. unfold s3_body, lifecycle_step, usage_step. preserve. Qed.

Lemma tagging_body_wf cat ec2 : preserves (well_formed cat) (tagging_body ec2).
Proof. unfold tagging_body. preserve. Qed.

Lemma anomalies_body_wf cat clk :
  preserves (well_formed cat) (anomalies_body clk).
Proof. unfold anomalies_body. preserve. Qed.

Lemma module_body_wf m i :
  preserves (well_formed (module_category m)) (module_body m i).
Proof.
  destruct m; simpl.
  - apply utilization_body_wf.
  - apply asg_body_wf.
  - apply s3_body_wf.
  - apply tagging_body_wf.
  - apply anomalies_body_wf.
Qed.

Lemma new_optimization_wf cat : well_formed cat (new_optimization cat).
Proof. split; simpl; [reflexivity | lia]. Qed.

(** What [run_check] returns, from what its body did. *)
Lemma run_check_outcome cat body prefix :
  preserves (well_formed cat) body ->
  exists fs,
    run_check cat body prefix = Ret fs
    /\ well_formed cat fs
    /\ match body (new_optimization cat) with
       | (Ret _, o) => fs = o
       | (Raise e, o) =>
         findings fs = findings o ++ [prefix +:+ exn_str e]
         /\ recommendations fs = recommendations o
         /\ potential_savings fs = potential_savings o
       end.
Proof.
  intros Hbody. unfold run_check, exec, try_except.
  pose proof (Hbody _ (new_optimization_wf cat)) as Hwf.
  destruct (body (new_optimization cat)) as [[[] | e] o]; simpl in *.
  - exists o. auto.
  - eexists. split; [reflexivity |].
    destruct Hwf as [Hc Hs]. repeat split; simpl; assumption.
Qed.

Lemma run_module_unfold m i :
  run_module m i
  = run_check (module_category m) (module_body m i) (module_error_prefix m).
Proof. destruct m; reflexivity. Qed.

End CostOptimizerFacts.

(** ** Properties of the cost optimizer *)

Module CostOptimizerSpec.

Import PyFacts CostOptimizer CostOptimizerFacts.

(** C1. Each of the five check modules (instance utilization, ASG
    efficiency, S3 storage, tagging compliance, cost anomaly), on every
    snapshot, returns a FindingSet and never raises; the FindingSet carries
    the module's fixed category; and when the statements of the module raise
    an exception, the FindingSet is the dictionary as those statements left
    it with one more finding, the module's error prefix followed by the text
    of the exception. *)
Theorem check_module_contains_failure (m : check_module) (i : snapshot) :
  exists fs,
    run_module m i = Ret fs
    /\ category fs = module_category m
    /\ match module_body m i (new_optimization (module_category m)) with
       | (Ret _, o) => fs = o
       | (Raise e, o) =>
         findings fs = findings o ++ [module_error_prefix m +:+ exn_str e]
         /\ recommendations fs = recommendations o
         /\ potential_savings fs = potential_savings o
       end.
Proof.
  rewrite run_module_unfold.
  destruct (run_check_outcome (module_category m) (module_body m i)
              (module_error_prefix m) (module_body_wf m i))
    as (fs & Hrun & [Hcat _] & Hbody).
  exists fs. auto.
Qed.

(** The failure path of a check on a concrete inventory: the metric query
    answers for the first instance and is refused for the second, and the
    findings of the first instance stay in front of the error finding. *)
Example utilization_check_refused_midway :
  check_instance_utilization
    {| describe_instances := fun _ =>
         Ret (DescribeInstances
                [Reservation [Scenarios.idle_burstable; Scenarios.busy]]);
       describe_vpcs := fun _ => Scenarios.denied;
       describe_subnets := fun _ => Scenarios.denied;
       describe_security_groups := fun _ => Scenarios.denied;
       describe_nat_gateways := fun _ => Scenarios.denied |}
    {| get_metric_statistics := fun q =>
         if String.eqb (snd (List.hd ("", "") (Dimensions q))) "i-idle"
         then Ret (Scenarios.series [5%float])
         else Scenarios.denied |}
    Scenarios.noon "shop" "dev"
  = Ret {| category := "EC2 Instance Utilization";
           findings :=
             [ "Instance i-idle (t3.micro) has low CPU utilization: 5.0%";
               "Error checking instance utilization: AccessDenied" ];
           recommendations :=
             [ "Consider downsizing i-idle or using Spot instances" ];
           potential_savings := 20 |}.
Proof. vm_compute. reflexivity. Qed.

(** The five checks in the order the handler runs them, each returning. *)
Lemma run_checks_outcome ec2 cloudwatch autoscaling s3 clk
    project_name environment_ bucket_name (r0 : report) :
  exists o1 o2 o3 o4 o5,
    exec (run_checks ec2 cloudwatch autoscaling s3 clk
            project_name environment_ bucket_name) r0
    = Ret {| timestamp := timestamp r0; project := project r0;
             environment := environment r0;
             optimizations := optimizations r0 ++ [o1; o2; o3; o4; o5] |}
    /\ well_formed "EC2 Instance Utilization" o1
    /\ well_formed "Auto Scaling Group Efficiency" o2
    /\ well_formed "S3 Storage Optimization" o3
    /\ well_formed "Tagging Compliance" o4
    /\ well_formed "Cost Anomaly Detection" o5.
Proof.
  destruct (run_check_outcome _ _ "Error checking instance utilization: "
              (utilization_body_wf "EC2 Instance Utilization" ec2 cloudwatch
                 clk project_name environment_)) as (o1 & E1 & W1 & _).
  destruct (run_check_outcome _ _ "Error checking ASG efficiency: "
              (asg_body_wf "Auto Scaling Group Efficiency" autoscaling
                 project_name)) as (o2 & E2 & W2 & _).
  destruct (run_check_outcome _ _ "Error analyzing S3 storage: "
              (s3_body_wf "S3 Storage Optimization" s3 clk bucket_name))
    as (o3 & E3 & W3 & _).
  destruct (run_check_outcome _ _ "Error checking tagging compliance: "
              (tagging_body_wf "Tagging Compliance" ec2))
    as (o4 & E4 & W4 & _).
  destruct (run_check_outcome _ _ "Error in cost anomaly detection: "
              (anomalies_body_wf "Cost Anomaly Detection" clk))
    as (o5 & E5 & W5 & _).
  exists o1, o2, o3, o4, o5.
  repeat split; try (apply W1 || apply W2 || apply W3 || apply W4 || apply W5).
  unfold run_checks, exec, bind, call,
    check_instance_utilization, check_asg_efficiency, optimize_s3_storage,
    check_tagging_compliance, identify_cost_anomalies.
  rewrite E1, E2, E3, E4, E5. simpl.
  repeat rewrite <- app_assoc. reflexivity.
Qed.


(** What one instance adds, once its series is fetched, is what the
    readings of the series expect. *)
Lemma assess_instance_reading inst m o :
  assess_instance inst m o
  = (Ret tt,
     {| category := category o;
        findings :=
          findings o ++ Readings.utilization_findings inst (Datapoints m);
        recommendations :=
          recommendations o
            ++ Readings.utilization_recommendations inst (Datapoints m);
        potential_savings :=
          potential_savings o
            + Readings.utilization_savings inst (Datapoints m) |}).
Proof.
  unfold assess_instance, Readings.utilization_findings,
    Readings.utilization_recommendations, Readings.utilization_savings,
    Readings.underused, Readings.overloaded, Readings.burstable_small,
    Readings.advise.
  destruct o as [c f r s].
  destruct (Datapoints m) as [| d ds]; cbn [truthy andb].
  - cbn. rewrite !app_nil_r, Z.add_0_r. reflexivity.
  - cbv zeta. destruct (PrimFloat.ltb (average_cpu (d :: ds)) 10) eqn:Hlo.
    + rewrite (low_excludes_high _ Hlo).
      destruct (String.prefix "t3." (InstanceType inst)); cbn;
        rewrite ?app_nil_r, ?Z.add_0_r; reflexivity.
    + destruct (PrimFloat.ltb 80 (average_cpu (d :: ds))); cbn;
        rewrite ?app_nil_r, ?Z.add_0_r; reflexivity.
Qed.

(** The two nested loops visit the instances of the response in order. *)
Lemma scan_instances_flat cloudwatch clk response o :
  scan_instances cloudwatch clk response o
  = for_each (Readings.all_instances response)
             (visit_instance cloudwatch clk) o.
Proof.
  unfold scan_instances, Readings.all_instances.
  revert o. induction (Reservations response) as [| r rs IH]; intros o.
  - reflexivity.
  - cbn [for_each flat_map]. rewrite for_each_app. unfold bind.
    destruct (for_each (Instances r) (visit_instance cloudwatch clk) o)
      as [[[] | e] o1]; [apply IH | reflexivity].
Qed.

(** The loop over the instances stops at the first metric query that raises
    and has added, by then, what the instances in front of it call for. *)
Lemma visit_instances_reading cloudwatch clk instances o :
  let series := Readings.cpu_series cloudwatch clk in
  let seen := Readings.assessed cloudwatch clk instances in
  for_each instances (visit_instance cloudwatch clk) o
  = (match Readings.refusal cloudwatch clk instances with
     | Some e => Raise e
     | None => Ret tt
     end,
     {| category := category o;
        findings :=
          findings o
            ++ flat_map
                 (fun inst => Readings.utilization_findings inst (series inst))
                 seen;
        recommendations :=
          recommendations o
            ++ flat_map
                 (fun inst =>
                    Readings.utilization_recommendations inst (series inst))
                 seen;
        potential_savings :=
          potential_savings o
            + Readings.sum_of
                (fun inst => Readings.utilization_savings inst (series inst))
                seen |}).
Proof.
  cbv zeta. unfold Readings.sum_of.
  revert o. induction instances as [| inst rest IH]; intros o.
  - destruct o. cbn. rewrite !app_nil_r, Z.add_0_r. reflexivity.
  - cbn [for_each Readings.assessed Readings.refusal].
    unfold bind at 1. unfold visit_instance at 1.
    unfold bind at 1. unfold call at 1.
    assert (Hs : forall m,
               get_metric_statistics cloudwatch
                 (cpu_query (InstanceId inst) (utcnow clk)) = Ret m ->
               Readings.cpu_series cloudwatch clk inst = Datapoints m).
    { intros m Hm. unfold Readings.cpu_series. rewrite Hm. reflexivity. }
    destruct (get_metric_statistics cloudwatch
                (cpu_query (InstanceId inst) (utcnow clk))) as [m | e].
    + rewrite assess_instance_reading, IH.
      cbn [category findings recommendations potential_savings
           flat_map List.map fold_right].
      rewrite (Hs m eq_refl), <- !app_assoc, Z.add_assoc. reflexivity.
    + destruct o. cbn. rewrite !app_nil_r, Z.add_0_r. reflexivity.
Qed.

(** C3, counterexample.  An account with one running instance whose metric
    query is refused: no instance produces a finding, and yet the finding
    that all instances are appropriately utilized is not emitted; the only
    finding is the error finding of the check. *)
Lemma refused_query_leaves_no_informational_finding :
  exists fs,
    check_instance_utilization Scenarios.steady_ec2
      Scenarios.refusing_cloudwatch Scenarios.noon "shop" "dev" = Ret fs
    /\ findings fs = ["Error checking instance utilization: AccessDenied"]
    /\ ~ In all_appropriate (findings fs).
Proof.
  eexists. split; [vm_compute; reflexivity |].
  split; [reflexivity |].
  intros [H | []]. discriminate H.
Qed.

(** C3, amended.  In the utilization check, the average of a CPU series
    being the floating-point quotient of the sum of its datapoints by their
    number: once the series of a running instance has been fetched, an empty
    series leaves the FindingSet untouched; an average below 10 appends the
    low-utilization finding and the downsize-or-spot recommendation and adds
    20 to potential_savings exactly when the instance type starts with
    [t3.], nothing otherwise; an average above 80 appends the
    high-utilization finding and the upsize recommendation and leaves
    potential_savings alone; an average neither below 10 nor above 80, so
    one of 50, leaves the FindingSet untouched.  And the check as a whole
    returns exactly this: when the instance query raises, the error finding
    alone; otherwise, for the instances of the response in order up to the
    first one whose metric query raises, the findings, the recommendations
    and the savings these rules give each of them for the series its query
    answered with, followed by the error finding when a metric query raised,
    and, when every query answered and no instance produced a finding,
    replaced by the one informational finding that all instances have
    appropriate utilization levels. *)
Theorem utilization_rules :
  (forall (inst : instance) (m : metric_statistics) (o : FindingSet),
      let avg := average_cpu (Datapoints m) in
      let o' := snd (assess_instance inst m o) in
      fst (assess_instance inst m o) = Ret tt
      /\ (Datapoints m = [] -> o' = o)
      /\ (Datapoints m <> [] -> PrimFloat.ltb avg 10 = true ->
          findings o'
          = findings o
              ++ [low_cpu_finding (InstanceId inst) (InstanceType inst) avg]
          /\ recommendations o'
             = recommendations o ++ [low_cpu_recommendation (InstanceId inst)]
          /\ potential_savings o'
             = potential_savings o
               + (if String.prefix "t3." (InstanceType inst) then 20 else 0))
      /\ (Datapoints m <> [] -> PrimFloat.ltb 80 avg = true ->
          findings o'
          = findings o
              ++ [high_cpu_finding (InstanceId inst) (InstanceType inst) avg]
          /\ recommendations o'
             = recommendations o ++ [high_cpu_recommendation (InstanceId inst)]
          /\ potential_savings o' = potential_savings o)
      /\ (Datapoints m <> [] -> PrimFloat.ltb avg 10 = false ->
          PrimFloat.ltb 80 avg = false -> o' = o)
      /\ (Datapoints m <> [] -> avg = 50%float -> o' = o))
  /\
  (forall (ec2 : ec2_client) (cloudwatch : cloudwatch_client) (clk : clock)
          (project_name environment_ : string),
      let series := Readings.cpu_series cloudwatch clk in
      check_instance_utilization ec2 cloudwatch clk project_name environment_
      = Ret
          match describe_instances ec2
                  (utilization_filters project_name environment_) with
          | Raise e =>
            {| category := "EC2 Instance Utilization";
               findings :=
                 ["Error checking instance utilization: " +:+ exn_str e];
               recommendations := [];
               potential_savings := 0 |}
          | Ret response =>
            let instances := Readings.all_instances response in
            let seen := Readings.assessed cloudwatch clk instances in
            let reported :=
              flat_map
                (fun inst => Readings.utilization_findings inst (series inst))
                seen in
            {| category := "EC2 Instance Utilization";
               findings :=
                 match Readings.refusal cloudwatch clk instances with
                 | Some e =>
                   reported
                     ++ ["Error checking instance utilization: " +:+ exn_str e]
                 | None =>
                   match reported with
                   | [] => [all_appropriate]
                   | _ :: _ => reported
                   end
                 end;
               recommendations :=
                 flat_map
                   (fun inst =>
                      Readings.utilization_recommendations inst (series inst))
                   seen;
               potential_savings :=
                 Readings.sum_of
                   (fun inst =>
                      Readings.utilization_savings inst (series inst))
                   seen |}
          end).
Proof.
  split.
  - intros inst m o avg o'. subst avg o'.
    rewrite assess_instance_reading. cbn [fst snd].
    unfold Readings.utilization_findings, Readings.utilization_recommendations,
      Readings.utilization_savings, Readings.underused, Readings.overloaded,
      Readings.burstable_small, Readings.advise.
    destruct o as [c f r s].
    destruct (Datapoints m) as [| d ds] eqn:E.
    + cbn. rewrite !app_nil_r, Z.add_0_r.
      repeat split; intros; congruence.
    + cbn [truthy andb category findings recommendations potential_savings].
      set (avg := average_cpu (d :: ds)).
      split; [reflexivity |]. split; [intros; discriminate |].
      split; [| split; [| split]].
      * intros _ Hlo. rewrite Hlo, (low_excludes_high _ Hlo). cbn.
        repeat split.
      * intros _ Hhi.
        destruct (PrimFloat.ltb avg 10) eqn:Hlo.
        { rewrite (low_excludes_high _ Hlo) in Hhi. discriminate Hhi. }
        rewrite Hhi. cbn. rewrite Z.add_0_r. repeat split.
      * intros _ Hlo Hhi. rewrite Hlo, Hhi. cbn.
        rewrite !app_nil_r, Z.add_0_r. reflexivity.
      * intros _ Havg. rewrite Havg. cbn.
        rewrite !app_nil_r, Z.add_0_r. reflexivity.
  - intros ec2 cloudwatch clk project_name environment_ series. subst series.
    unfold check_instance_utilization, run_check, exec, try_except,
      utilization_body.
    unfold bind at 1. unfold call at 1.
    destruct (describe_instances ec2
                (utilization_filters project_name environment_))
      as [response | e]; [| reflexivity].
    cbv zeta. unfold bind at 1.
    rewrite scan_instances_flat, visit_instances_reading.
    cbv zeta.
    destruct (Readings.refusal cloudwatch clk (Readings.all_instances response))
      as [e |].
    + reflexivity.
    + unfold bind, get, when, append_finding, modify.
      cbn [category findings recommendations potential_savings
           new_optimization app].
      destruct (flat_map _ _) as [| line lines]; reflexivity.
Qed.

(** C4. The cost-anomaly check always returns; with [hour] the hour of the
    day of the UTC clock, a number from 0 to 23, it reports the off-hours
    shutdown finding and a potential_savings of exactly 25 when the hour is
    below 8 or above 18, and neither the finding nor any savings when the
    hour is from 8 to 18. *)
Theorem off_hours_rule (cloudwatch : cloudwatch_client) (clk : clock)
    (project_name environment_ : string) :
  let hour := hour_of (utcnow clk) in
  exists fs,
    identify_cost_anomalies cloudwatch clk project_name environment_ = Ret fs
    /\ 0 <= hour < 24
    /\ (hour < 8 \/ 18 < hour ->
        In off_hours_finding (findings fs) /\ potential_savings fs = 25)
    /\ (8 <= hour <= 18 ->
        ~ In off_hours_finding (findings fs) /\ potential_savings fs = 0).
Proof.
  intros hour.
  assert (Hrange : 0 <= hour < 24).
  { unfold hour, hour_of. apply Z.mod_pos_bound. lia. }
  unfold identify_cost_anomalies, run_check, exec, try_except, anomalies_body.
  fold hour.
  destruct ((hour <? 8) || (18 <? hour)) eqn:Hoff; simpl.
  - eexists. split; [reflexivity |]. split; [exact Hrange |]. simpl. split.
    + intros _. split; [right; left; reflexivity | reflexivity].
    + intros Hin. exfalso.
      apply Bool.orb_true_iff in Hoff as [H | H]; apply Z.ltb_lt in H; lia.
  - eexists. split; [reflexivity |]. split; [exact Hrange |]. simpl.
    apply Bool.orb_false_iff in Hoff as [H1 H2].
    apply Z.ltb_ge in H1, H2. split.
    + intros [H | H]; lia.
    + intros _. split; [| reflexivity].
      intros [H | []]. discriminate H.
Qed.


(** C5.  The storage check does not handle the bucket without lifecycle
    configuration as its inner [except] clause intends.  Whenever the
    lifecycle query raises and the client has no exception class named
    [NoSuchLifecycleConfiguration], so that naming it raises in its turn, as
    on the S3 client of boto3, the check takes the error path: it returns
    the single finding made of the error prefix and the text of that second
    exception, no add-lifecycle-policy recommendation, a potential_savings
    of 0, and, the objects never being listed, no old-objects advisory. *)
Theorem storage_check_misses_absent_lifecycle (s3 : s3_client) (clk : clock)
    (bucket_name : string) (e e' : exn) :
  get_bucket_lifecycle_configuration s3 bucket_name = Raise e ->
  exceptions_NoSuchLifecycleConfiguration s3 = Raise e' ->
  optimize_s3_storage s3 clk bucket_name
  = Ret {| category := "S3 Storage Optimization";
           findings := ["Error analyzing S3 storage: " +:+ exn_str e'];
           recommendations := [];
           potential_savings := 0 |}.
Proof.
  intros Hq Hcls.
  unfold optimize_s3_storage, run_check, exec, try_except, s3_body,
    lifecycle_step, try_except_expr.
  unfold bind at 1. unfold bind at 1. unfold call at 1.
  rewrite Hq, Hcls. reflexivity.
Qed.

(** C3 at an account of four instances, two idle ones of which one is
    burstable, a busy one and one averaging 50, and at an account whose only
    instance averages 50. *)
Lemma utilization_rules_witness :
  check_instance_utilization Scenarios.mixed_ec2 Scenarios.mixed_cloudwatch
    Scenarios.noon "shop" "dev"
  = Ret {| category := "EC2 Instance Utilization";
           findings :=
             [ "Instance i-idle (t3.micro) has low CPU utilization: 5.0%";
               "Instance i-large (m5.large) has low CPU utilization: 5.0%";
               "Instance i-busy (t3.micro) has high CPU utilization: 85.0%" ];
           recommendations :=
             [ "Consider downsizing i-idle or using Spot instances";
               "Consider downsizing i-large or using Spot instances";
               "Consider upsizing i-busy or adding more instances" ];
           potential_savings := 20 |}
  /\ check_instance_utilization Scenarios.steady_ec2
       Scenarios.steady_cloudwatch Scenarios.noon "shop" "dev"
     = Ret {| category := "EC2 Instance Utilization";
              findings := [all_appropriate];
              recommendations := [];
              potential_savings := 0 |}
  /\ snd (assess_instance Scenarios.steady (Scenarios.series [50%float])
            (new_optimization "EC2 Instance Utilization"))
     = new_optimization "EC2 Instance Utilization".
Proof.
  destruct utilization_rules as [Hone Hall].
  split; [| split].
  - rewrite Hall. vm_compute. reflexivity.
  - rewrite Hall. vm_compute. reflexivity.
  - destruct (Hone Scenarios.steady (Scenarios.series [50%float])
                (new_optimization "EC2 Instance Utilization"))
      as (_ & _ & _ & _ & _ & Hfifty).
    apply Hfifty; [discriminate | vm_compute; reflexivity].
Defined.

(** C4 at 03:00 and at 12:00 UTC. *)
Lemma off_hours_rule_witness :
  (exists fs,
      identify_cost_anomalies Scenarios.steady_cloudwatch Scenarios.night
        "shop" "dev" = Ret fs
      /\ In off_hours_finding (findings fs) /\ potential_savings fs = 25)
  /\ (exists fs,
         identify_cost_anomalies Scenarios.steady_cloudwatch Scenarios.noon
           "shop" "dev" = Ret fs
         /\ ~ In off_hours_finding (findings fs) /\ potential_savings fs = 0).
Proof.
  split.
  - destruct (off_hours_rule Scenarios.steady_cloudwatch Scenarios.night
                "shop" "dev") as (fs & E & _ & Hoff & _).
    exists fs. split; [exact E |]. apply Hoff. left. reflexivity.
  - destruct (off_hours_rule Scenarios.steady_cloudwatch Scenarios.noon
                "shop" "dev") as (fs & E & _ & _ & Hin).
    exists fs. split; [exact E |]. apply Hin.
    split; intros H; discriminate H.
Defined.

(** C5 at a bucket without lifecycle configuration that holds 1500 objects,
    40 of the first 1000 older than 30 days, on a client without the
    exception class: neither the recommendation, nor the savings, nor the
    advisory. *)
Lemma storage_check_misses_absent_lifecycle_witness :
  optimize_s3_storage (Scenarios.unmanaged_s3 (utcnow Scenarios.noon))
    Scenarios.noon "shop-dev-assets"
  = Ret {| category := "S3 Storage Optimization";
           findings :=
             [ "Error analyzing S3 storage: "
                 +:+ exn_str Scenarios.missing_class_error ];
           recommendations := [];
           potential_savings := 0 |}.
Proof.
  apply (storage_check_misses_absent_lifecycle
           (Scenarios.unmanaged_s3 (utcnow Scenarios.noon)) Scenarios.noon
           "shop-dev-assets" Scenarios.no_lifecycle_configuration
           Scenarios.missing_class_error); reflexivity.
Defined.


End CostOptimizerSpec.

(** ** Properties of the workspace manager *)

Module WorkspaceManagerSpec.

Import PyFacts WorkspaceManager.

Lemma visit_subnet_verdict acc s :
  status (fst (visit_subnet acc s)) = status (fst acc)
  /\ issues (fst (visit_subnet acc s)) = issues (fst acc).
Proof.
  destruct acc as [h by_type]. unfold visit_subnet.
  destruct (available_ip_count s <? 10); simpl; auto.
Qed.

Lemma subnets_loop_verdict l acc :
  status (fst (fold_left visit_subnet l acc)) = status (fst acc)
  /\ issues (fst (fold_left visit_subnet l acc)) = issues (fst acc).
Proof.
  revert acc. induction l as [| s l IH]; intros acc; simpl.
  - auto.
  - destruct (IH (visit_subnet acc s)) as [-> ->].
    apply visit_subnet_verdict.
Qed.

Lemma expected_types_loop_verdict
    (by_type : gmap string (list subnet_info)) (types : list string) h :
  let step := fun h expected_type =>
    match by_type !! expected_type with
    | None => add_warning ("No " +:+ expected_type +:+ " subnets found") h
    | Some _ => h
    end in
  status (fold_left step types h) = status h
  /\ issues (fold_left step types h) = issues h.
Proof.
  intros step. revert h. induction types as [| t types IH]; intros h; simpl.
  - auto.
  - destruct (IH (step h t)) as [-> ->].
    unfold step. destruct (by_type !! t); simpl; auto.
Qed.

(** The verdict of the network validator, as far as issues and status go. *)
Lemma validate_vpc_health_verdict info :
  let v := validate_vpc_health info in
  (state info = Some "available" /\ status v = "healthy" /\ issues v = [])
  \/ (state info <> Some "available" /\ status v = "unhealthy"
      /\ issues v = ["VPC state is " +:+ str_opt (state info)
                       +:+ ", expected 'available'"]).
Proof.
  unfold validate_vpc_health.
  match goal with
  | |- context [fold_left visit_subnet ?l ?acc] =>
    pose proof (subnets_loop_verdict l acc) as Hloop;
    destruct (fold_left visit_subnet l acc) as [h by_type]
  end.
  simpl in Hloop. destruct Hloop as [Hs Hi].
  cbv zeta.
  match goal with
  | |- context [fold_left ?f ?types h] =>
    destruct (expected_types_loop_verdict by_type types h) as [Hs' Hi']
  end.
  rewrite Hs', Hi', Hs, Hi.
  case_bool_decide as Hstate; simpl; [left | right]; auto.
Qed.

Lemma visit_group_verdict workspace_ h asg :
  status (visit_group workspace_ h asg) = status h
  /\ issues (visit_group workspace_ h asg) = issues h.
Proof.
  unfold visit_group.
  destruct (healthy_instances asg <? current_instances asg),
    (negb (current_instances asg =? desired_capacity asg)),
    (String.eqb workspace_ "prod"), (min_size asg <? 2),
    (len (availability_zones asg) <? 2); simpl; auto.
Qed.

Lemma groups_loop_verdict workspace_ l h :
  status (fold_left (visit_group workspace_) l h) = status h
  /\ issues (fold_left (visit_group workspace_) l h) = issues h.
Proof.
  revert h. induction l as [| asg l IH]; intros h; simpl.
  - auto.
  - destruct (IH (visit_group workspace_ h asg)) as [-> ->].
    apply visit_group_verdict.
Qed.

Lemma validate_asg_health_verdict info workspace_ :
  let v := validate_asg_health info workspace_ in
  (truthy (auto_scaling_groups info) = true
   /\ status v = "healthy" /\ issues v = [])
  \/ (truthy (auto_scaling_groups info) = false
      /\ v = {| status := "unhealthy";
                issues := ["No Auto Scaling Groups found for this workspace"];
                warnings := [] |}).
Proof.
  unfold validate_asg_health.
  destruct (truthy (auto_scaling_groups info)); simpl.
  - left.
    destruct (groups_loop_verdict workspace_ (auto_scaling_groups info)
                healthy_verdict) as [-> ->].
    auto.
  - right. auto.
Qed.

(** C2. For each of the three health validators and every snapshot: the
    issues list of the verdict is non-empty exactly when its status is
    [unhealthy], the status being [healthy] for an empty issues list and
    [unhealthy] otherwise; and the status stays the same across snapshots
    that agree on the one field the issues are decided from, whatever they
    hold in the fields the warnings are made from. *)
Theorem health_verdict_status :
  (forall info : vpc_info,
      let v := validate_vpc_health info in
      (issues v <> [] <-> status v = "unhealthy")
      /\ status v = match issues v with [] => "healthy" | _ => "unhealthy" end
      /\ forall info' : vpc_info,
          state info' = state info ->
          status (validate_vpc_health info') = status v)
  /\ (forall (info : asg_info) (workspace_ : string),
         let v := validate_asg_health info workspace_ in
         (issues v <> [] <-> status v = "unhealthy")
         /\ status v = match issues v with [] => "healthy" | _ => "unhealthy" end
         /\ forall (info' : asg_info) (workspace' : string),
             truthy (auto_scaling_groups info')
             = truthy (auto_scaling_groups info) ->
             status (validate_asg_health info' workspace') = status v)
  /\ (forall info : s3_info,
         let v := validate_s3_health info in
         (issues v <> [] <-> status v = "unhealthy")
         /\ status v = match issues v with [] => "healthy" | _ => "unhealthy" end
         /\ forall info' : s3_info,
             exists_ info' = exists_ info ->
             status (validate_s3_health info') = status v).
Proof.
  split; [| split].
  - intros info v.
    destruct (validate_vpc_health_verdict info) as [(Hst & Hs & Hi) | (Hst & Hs & Hi)];
      fold v in Hs, Hi; rewrite Hs, Hi.
    + split; [split; [congruence | discriminate] |].
      split; [reflexivity |].
      intros info' Heq.
      destruct (validate_vpc_health_verdict info') as [(_ & Hs' & _) | (Hst' & _)];
        [exact Hs' | congruence].
    + split; [split; [reflexivity | discriminate] |].
      split; [reflexivity |].
      intros info' Heq.
      destruct (validate_vpc_health_verdict info') as [(Hst' & _) | (_ & Hs' & _)];
        [congruence | exact Hs'].
  - intros info workspace_ v.
    destruct (validate_asg_health_verdict info workspace_)
      as [(Ht & Hs & Hi) | (Ht & Hv)]; fold v in Hs, Hi || fold v in Hv.
    + rewrite Hs, Hi.
      split; [split; [congruence | discriminate] |].
      split; [reflexivity |].
      intros info' workspace' Heq.
      destruct (validate_asg_health_verdict info' workspace')
        as [(_ & Hs' & _) | (Ht' & _)]; [exact Hs' | congruence].
    + rewrite Hv. simpl.
      split; [split; [reflexivity | discriminate] |].
      split; [reflexivity |].
      intros info' workspace' Heq.
      destruct (validate_asg_health_verdict info' workspace')
        as [(Ht' & _) | (_ & ->)]; [congruence | reflexivity].
  - intros info v. subst v. unfold validate_s3_health.
    destruct (exists_ info) eqn:He; simpl.
    + assert (Hv : forall i : s3_info,
                 exists_ i = true ->
                 status (validate_s3_health i) = "healthy"
                 /\ issues (validate_s3_health i) = []).
      { intros i Hi. unfold validate_s3_health. rewrite Hi. simpl.
        destruct (String.eqb (encryption i) "Disabled"); simpl; auto. }
      destruct (String.eqb (encryption info) "Disabled"); simpl;
        (split; [split; [congruence | discriminate] |]);
        (split; [reflexivity |]);
        intros info' Heq; apply Hv; exact Heq.
    + split; [split; [reflexivity | discriminate] |].
      split; [reflexivity |].
      intros info' Heq. unfold validate_s3_health. rewrite Heq. reflexivity.
Qed.

(** C8. For an S3 snapshot whose bucket does not exist the validator
    returns status [unhealthy], the single issue that the bucket does not
    exist and no warning; and the encryption-disabled warning is among the
    warnings exactly when the bucket exists and its encryption field is
    [Disabled]. *)
Theorem s3_health_short_circuit (info : s3_info) :
  (exists_ info = false ->
   validate_s3_health info
   = {| status := "unhealthy"; issues := ["S3 bucket does not exist"];
        warnings := [] |})
  /\ (In "S3 bucket encryption is disabled"
         (warnings (validate_s3_health info))
      <-> exists_ info = true /\ encryption info = "Disabled").
Proof.
  unfold validate_s3_health. split.
  - intros ->. reflexivity.
  - destruct (exists_ info); simpl.
    + destruct (String.eqb (encryption info) "Disabled") eqn:He; simpl.
      * apply String.eqb_eq in He. split; [auto | intros _; left; reflexivity].
      * apply String.eqb_neq in He. split; [intros [] | intros [_ H]; contradiction].
    + split; [intros [] | intros [H _]; discriminate].
Qed.

(** C9. For the workspace [prod] and a snapshot holding exactly one group
    whose min_size is 1, which spans one availability zone and whose healthy,
    current and desired instance counts are equal, the autoscaling validator
    returns status [healthy], no issue and exactly two warnings: the one
    about min_size and then the one about availability zones. *)
Theorem prod_single_zone_group (info : asg_info) (asg : asg_details) :
  auto_scaling_groups info = [asg] ->
  min_size asg = 1 ->
  len (availability_zones asg) = 1 ->
  healthy_instances asg = current_instances asg ->
  current_instances asg = desired_capacity asg ->
  validate_asg_health info "prod"
  = {| status := "healthy";
       issues := [];
       warnings :=
         [ "Production ASG " +:+ name asg
             +:+ " should have min_size >= 2 for HA";
           "Production ASG " +:+ name asg +:+ " should span multiple AZs" ] |}.
Proof.
  intros Hg Hmin Hzones Hhealthy Hdesired.
  unfold validate_asg_health. rewrite Hg. simpl.
  unfold visit_group.
  rewrite Hmin, Hzones, Hhealthy, Hdesired.
  rewrite Z.ltb_irrefl, Z.eqb_refl. reflexivity.
Qed.

(** C9 at a production group named [web]. *)
Lemma prod_single_zone_group_witness :
  validate_asg_health
    {| auto_scaling_groups := [Scenarios.lone_prod_group];
       total_instances := 1; total_healthy := 1; asg_error := None |}
    "prod"
  = {| status := "healthy";
       issues := [];
       warnings :=
         [ "Production ASG web should have min_size >= 2 for HA";
           "Production ASG web should span multiple AZs" ] |}.
Proof.
  apply (prod_single_zone_group
           {| auto_scaling_groups := [Scenarios.lone_prod_group];
              total_instances := 1; total_healthy := 1; asg_error := None |}
           Scenarios.lone_prod_group); reflexivity.
Defined.

End WorkspaceManagerSpec.

(** ** Properties of the two handlers *)

Module HandlerSpec.

Import PyFacts.

Lemma guarded_returns {S A} (m : M S A) (h : exn -> M S A) (s : S) :
  (forall e, total (h e)) -> exists s', exec (try_except m h) s = Ret s'.
Proof.
  intros Ht.
  destruct (exec_guarded (fun _ => True) m h s) as (s' & E & _);
    [intros s0 _; exact I | intros e s0 _; exact I | exact Ht | exact I |].
  exists s'. exact E.
Qed.

Lemma check_vpc_resources_returns ec2 vpc workspace_ :
  exists info, WorkspaceManager.check_vpc_resources ec2 vpc workspace_ = Ret info.
Proof. apply guarded_returns. intros e. apply total_modify. Qed.

Lemma check_workspace_asgs_returns autoscaling project_name_ workspace_ :
  exists info,
    WorkspaceManager.check_workspace_asgs autoscaling project_name_ workspace_
    = Ret info.
Proof. apply guarded_returns. intros e. apply total_modify. Qed.

Lemma check_s3_resources_returns s3 bucket workspace_ :
  exists info, WorkspaceManager.check_s3_resources s3 bucket workspace_ = Ret info.
Proof. apply guarded_returns. intros e. apply total_modify. Qed.

Lemma check_ssm_parameters_returns json_loads ssm project_name_ workspace_ :
  exists info,
    WorkspaceManager.check_ssm_parameters json_loads ssm project_name_ workspace_
    = Ret info.
Proof. apply guarded_returns. intros e. apply total_modify. Qed.

Lemma store_workspace_status_returns ssm info project_name_ workspace_ :
  WorkspaceManager.store_workspace_status ssm info project_name_ workspace_
  = Ret tt.
Proof.
  unfold WorkspaceManager.store_workspace_status, run, try_except, call.
  destruct (put_parameter ssm _) as [[] | e]; reflexivity.
Qed.

(** Lines 52-77 never raise and leave the identity of the report alone. *)
Lemma gather_returns json_loads ec2 autoscaling s3 ssm
    workspace_ project_name_ vpc_id_ bucket_name_ info l :
  exists info',
    WorkspaceManager.gather json_loads ec2 autoscaling s3 ssm workspace_
      project_name_ vpc_id_ bucket_name_ info l = (Ret info', l)
    /\ WorkspaceManager.workspace info' = WorkspaceManager.workspace info
    /\ WorkspaceManager.environment info' = WorkspaceManager.environment info
    /\ WorkspaceManager.project_name info' = WorkspaceManager.project_name info.
Proof.
  unfold WorkspaceManager.gather, bind, call, ret.
  destruct (check_vpc_resources_returns ec2 vpc_id_ workspace_) as [v ->].
  destruct (check_workspace_asgs_returns autoscaling project_name_ workspace_)
    as [a Ha].
  destruct (check_s3_resources_returns s3 bucket_name_ workspace_) as [b ->].
  destruct (check_ssm_parameters_returns json_loads ssm project_name_ workspace_)
    as [p Hp].
  destruct (WorkspaceManager.nonempty vpc_id_),
    (WorkspaceManager.nonempty bucket_name_);
    rewrite Ha, Hp, store_workspace_status_returns;
    eexists; (split; [reflexivity |]); simpl; auto.
Qed.

(** C6, at the input where the code falls short of it.  When the context
    object has no attribute [environment], the first statement of the
    workspace handler raises before [workspace] is assigned, its [except]
    block then reads the unbound variable, and the handler raises
    [UnboundLocalError] in place of returning the 500 response. *)
Theorem workspace_handler_raises_without_environment
    (json_loads : string -> outcome json) (aws : boto3) (clk : clock)
    (event : json) (cls : string) (fn : option string) :
  WorkspaceManager.handler json_loads aws clk event
    {| ctx_class := cls; ctx_environment := None; ctx_function_name := fn |}
  = Raise (unbound_local_error "workspace").
Proof. reflexivity. Qed.

(** The same at the context object of the Lambda runtime, next to the
    cost-optimizer handler, which answers 500 there. *)
Example handlers_at_runtime_context :
  WorkspaceManager.handler Scenarios.no_json (Scenarios.account Scenarios.noon)
    Scenarios.noon JNull Scenarios.runtime_context
  = Raise (unbound_local_error "workspace")
  /\ CostOptimizer.handler (Scenarios.account Scenarios.noon) Scenarios.noon
       JNull Scenarios.runtime_context
     = Ret {| statusCode := 500;
              body :=
                JDict [("error",
                        JStr "'LambdaContext' object has no attribute 'environment'")] |}.
Proof. split; vm_compute; reflexivity. Qed.

(** The cost-optimizer handler never raises: it answers 200, or 500 with a
    body that holds the error text and nothing else. *)
Lemma cost_handler_answers aws clk event context :
  exists r,
    CostOptimizer.handler aws clk event context = Ret r
    /\ (statusCode r = 200
        \/ (statusCode r = 500
            /\ exists e, body r = JDict [("error", JStr (exn_str e))])).
Proof.
  unfold CostOptimizer.handler, run, try_except.
  destruct (CostOptimizer.handler_body aws clk event context tt)
    as [[r | e] []] eqn:E.
  - exists r. split; [reflexivity |]. left.
    revert E.
    unfold CostOptimizer.handler_body, bind, call, ret.
    repeat match goal with
    | |- context [match ?o with Ret _ => _ | Raise _ => _ end] =>
      destruct o; try discriminate
    end.
    intros [= <-]. reflexivity.
  - simpl. eexists. split; [reflexivity |]. right. simpl.
    split; [reflexivity |]. exists e. reflexivity.
Qed.

(** Once [context.environment] can be read, the workspace handler never
    raises either, and its 500 body holds the error text, the workspace and
    a timestamp. *)
Lemma workspace_handler_answers json_loads aws clk event cls env fn :
  exists r,
    WorkspaceManager.handler json_loads aws clk event
      {| ctx_class := cls; ctx_environment := Some env;
         ctx_function_name := fn |} = Ret r
    /\ (statusCode r = 200
        \/ (statusCode r = 500
            /\ exists e,
                body r
                = JDict [ ("error", JStr (exn_str e));
                          ("workspace",
                           JStr (get_default env "WORKSPACE" "unknown"));
                          ("timestamp", JStr (isoformat clk)) ])).
Proof.
  unfold WorkspaceManager.handler, WorkspaceManager.handler_body,
    WorkspaceManager.handler_except, WorkspaceManager.read_workspace,
    WorkspaceManager.assign_workspace, try_except, bind, call, ret, get,
    modify, context_environment, context_function_name.
  cbn [ctx_environment ctx_function_name ctx_class].
  repeat match goal with
  | |- context [match ?o with Ret _ => _ | Raise _ => _ end] =>
    lazymatch o with
    | client_ec2 _ => idtac | client_autoscaling _ => idtac
    | client_s3 _ => idtac | client_ssm _ => idtac
    | client_cloudwatch _ => idtac
    end;
    destruct o;
    [| cbn; eexists; split; [reflexivity |]; right;
       split; [reflexivity |]; eexists; reflexivity ]
  end.
  destruct fn as [f |];
    [| cbn; eexists; split; [reflexivity |]; right;
       split; [reflexivity |];
       exists (attribute_error cls "function_name"); reflexivity ].
  match goal with
  | |- context [WorkspaceManager.gather ?j ?a ?b ?c ?d ?w ?p ?v ?k ?i ?l] =>
    destruct (gather_returns j a b c d w p v k i l) as (info' & -> & _)
  end.
  cbn. eexists. split; [reflexivity |]. left. reflexivity.
Qed.

Lemma get_default_fallback (env : gmap string string) (key k d : string) :
  env !! key = None ->
  (k = key -> d = "unknown") ->
  get_default (<[key := "unknown"]> env) k d = get_default env k d.
Proof.
  intros Hnone Hd. unfold get_default.
  destruct (decide (k = key)) as [-> | Hne].
  - rewrite lookup_insert_eq, Hnone. simpl. symmetry. apply Hd. reflexivity.
  - rewrite lookup_insert_ne by congruence. reflexivity.
Qed.

(** C7, counterexample.  With [PROJECT_NAME] absent from the environment the
    cost-optimizer handler substitutes nothing: it answers 500 with the
    missing key as the error, where the same invocation with [PROJECT_NAME]
    set to [unknown] answers 200. *)
Lemma cost_handler_needs_project_name :
  CostOptimizer.handler (Scenarios.account Scenarios.noon) Scenarios.noon JNull
    (Scenarios.context_of Scenarios.env_without_project)
  = Ret {| statusCode := 500;
           body := JDict [("error", JStr "'PROJECT_NAME'")] |}
  /\ exists r,
      CostOptimizer.handler (Scenarios.account Scenarios.noon) Scenarios.noon
        JNull (Scenarios.context_of Scenarios.env_unknown_project) = Ret r
      /\ statusCode r = 200
      /\ json_get "project" (body r) = Some (JStr "unknown").
Proof.
  split; [vm_compute; reflexivity |].
  eexists. split; [vm_compute; reflexivity |].
  split; reflexivity.
Qed.

(** C7, amended.  In the workspace-manager handler an identity value
    (workspace, environment, project name) absent from the environment of
    the context is replaced by the literal [unknown]: the handler answers as
    it does when the value is [unknown]; and it proceeds: whenever the
    clients can be created and the context names the function, the answer is
    200 and the report carries, for each identity value, the value of the
    environment or [unknown].  The cost-optimizer handler has no fallback:
    with [PROJECT_NAME] absent, or [PROJECT_NAME] present and [ENVIRONMENT]
    absent, it answers 500 with the missing key as the error text. *)
Theorem identity_fallback :
  (forall json_loads aws clk event cls (env : gmap string string) fn key,
      In key ["WORKSPACE"; "ENVIRONMENT"; "PROJECT_NAME"] ->
      env !! key = None ->
      WorkspaceManager.handler json_loads aws clk event
        {| ctx_class := cls; ctx_environment := Some env;
           ctx_function_name := fn |}
      = WorkspaceManager.handler json_loads aws clk event
          {| ctx_class := cls;
             ctx_environment := Some (<[key := "unknown"]> env);
             ctx_function_name := fn |})
  /\ (forall json_loads ec2 cloudwatch autoscaling s3 ssm clk event cls
             (env : gmap string string) fn,
         exists info,
           WorkspaceManager.handler json_loads
             {| client_ec2 := Ret ec2; client_cloudwatch := Ret cloudwatch;
                client_autoscaling := Ret autoscaling; client_s3 := Ret s3;
                client_ssm := Ret ssm |}
             clk event
             {| ctx_class := cls; ctx_environment := Some env;
                ctx_function_name := Some fn |}
           = Ret {| statusCode := 200;
                    body := WorkspaceManager.workspace_info_json info |}
           /\ WorkspaceManager.workspace info
              = default "unknown" (env !! "WORKSPACE")
           /\ WorkspaceManager.environment info
              = default "unknown" (env !! "ENVIRONMENT")
           /\ WorkspaceManager.project_name info
              = default "unknown" (env !! "PROJECT_NAME"))
  /\ (forall aws clk event cls (env : gmap string string) fn,
         env !! "PROJECT_NAME" = None ->
         CostOptimizer.handler aws clk event
           {| ctx_class := cls; ctx_environment := Some env;
              ctx_function_name := fn |}
         = Ret {| statusCode := 500;
                  body := JDict [("error", JStr "'PROJECT_NAME'")] |})
  /\ (forall aws clk event cls (env : gmap string string) fn p,
         env !! "PROJECT_NAME" = Some p ->
         env !! "ENVIRONMENT" = None ->
         CostOptimizer.handler aws clk event
           {| ctx_class := cls; ctx_environment := Some env;
              ctx_function_name := fn |}
         = Ret {| statusCode := 500;
                  body := JDict [("error", JStr "'ENVIRONMENT'")] |}).
Proof.
  split; [| split; [| split]].
  - intros json_loads aws clk event cls env fn key Hkey Hnone.
    unfold WorkspaceManager.handler, WorkspaceManager.handler_body,
      WorkspaceManager.assign_workspace, context_environment, try_except,
      bind, call, modify.
    cbn [ctx_environment]. cbn beta iota.
    destruct Hkey as [<- | [<- | [<- | []]]];
      rewrite !get_default_fallback
        by (assumption || (intros H; first [discriminate H | reflexivity]));
      reflexivity.
  - intros json_loads ec2 cloudwatch autoscaling s3 ssm clk event cls env fn.
    unfold WorkspaceManager.handler, WorkspaceManager.handler_body,
      WorkspaceManager.assign_workspace, try_except, bind, call, ret, modify,
      context_environment, context_function_name.
    cbn [ctx_environment ctx_function_name client_ec2 client_cloudwatch
           client_autoscaling client_s3 client_ssm].
    match goal with
    | |- context [WorkspaceManager.gather ?j ?a ?b ?c ?d ?w ?p ?v ?k ?i ?l] =>
      destruct (gather_returns j a b c d w p v k i l)
        as (info' & -> & Hw & He & Hp)
    end.
    cbn. exists info'. split; [reflexivity |].
    rewrite Hw, He, Hp. cbn. auto.
  - intros aws clk event cls env fn Hnone.
    unfold CostOptimizer.handler, CostOptimizer.handler_body, run, try_except,
      bind, call, context_environment, getitem.
    cbn [ctx_environment]. rewrite Hnone. reflexivity.
  - intros aws clk event cls env fn p Hp Hnone.
    unfold CostOptimizer.handler, CostOptimizer.handler_body, run, try_except,
      bind, call, context_environment, getitem.
    cbn [ctx_environment]. rewrite Hp, Hnone. reflexivity.
Qed.

(** The amended claim at the empty environment, in both handlers. *)
Lemma identity_fallback_witness :
  WorkspaceManager.handler Scenarios.no_json (Scenarios.account Scenarios.noon)
    Scenarios.noon JNull (Scenarios.context_of ∅)
  = WorkspaceManager.handler Scenarios.no_json
      (Scenarios.account Scenarios.noon) Scenarios.noon JNull
      (Scenarios.context_of (<["WORKSPACE" := "unknown"]> ∅))
  /\ CostOptimizer.handler (Scenarios.account Scenarios.noon) Scenarios.noon
       JNull (Scenarios.context_of Scenarios.env_without_project)
     = Ret {| statusCode := 500;
              body := JDict [("error", JStr "'PROJECT_NAME'")] |}.
Proof.
  destruct identity_fallback as (Hsub & _ & Hproject & _).
  split.
  - apply (Hsub Scenarios.no_json (Scenarios.account Scenarios.noon)
             Scenarios.noon JNull "LambdaContext" ∅
             (Some "workspace-manager") "WORKSPACE").
    + left. reflexivity.
    + reflexivity.
  - apply (Hproject (Scenarios.account Scenarios.noon) Scenarios.noon JNull
             "LambdaContext" Scenarios.env_without_project
             (Some "workspace-manager")).
    reflexivity.
Defined.

End HandlerSpec.

(** ** Further properties of the cost optimizer *)

Module CostOptimizerExtra.

Import PyFacts CostOptimizer CostOptimizerFacts Readings.

Lemma visit_asg_foreign autoscaling project_name asg o :
  own_group project_name asg = false ->
  visit_asg autoscaling project_name asg o = (Ret tt, o).
Proof.
  unfold own_group, visit_asg. intros H.
  destruct (find_tag "Project" (default [] (AsgTags asg))) as [t |];
    [| reflexivity].
  rewrite H. reflexivity.
Qed.

(** X1. When the group query answers and no group carries the project, the
    ASG efficiency check returns its dictionary as created: no finding, no
    recommendation, no savings (it has no nothing-found finding of its own),
    and the scheduled-actions query is not consulted, so its failures do not
    show. *)
Theorem asg_check_ignores_foreign_groups
    (autoscaling : autoscaling_client) (cloudwatch : cloudwatch_client)
    (project_name environment_ : string) (response : describe_asgs_response) :
  describe_auto_scaling_groups autoscaling = Ret response ->
  (forall asg, In asg (AutoScalingGroups response) ->
               own_group project_name asg = false) ->
  check_asg_efficiency autoscaling cloudwatch project_name environment_
  = Ret {| category := "Auto Scaling Group Efficiency";
           findings := []; recommendations := []; potential_savings := 0 |}.
Proof.
  intros Hq Hforeign.
  unfold check_asg_efficiency, run_check, exec, try_except, asg_body.
  unfold bind at 1. unfold call at 1. rewrite Hq.
  rewrite for_each_unchanged; [reflexivity |].
  intros asg Hin. apply visit_asg_foreign, Hforeign, Hin.
Qed.

Lemma visit_asg_own autoscaling project_name asg actions o :
  own_group project_name asg = true ->
  describe_scheduled_actions autoscaling (AutoScalingGroupName asg)
  = Ret actions ->
  exists o',
    visit_asg autoscaling project_name asg o = (Ret tt, o')
    /\ category o' = category o
    /\ potential_savings o'
       = potential_savings o + (if unscheduled autoscaling asg then 50 else 0)
    /\ (forall x, In x (findings o) -> In x (findings o'))
    /\ In (asg_capacity_finding (AutoScalingGroupName asg)
             (DesiredCapacity asg) (MinSize asg) (MaxSize asg))
          (findings o').
Proof.
  unfold own_group, unscheduled, visit_asg. intros Hown Hq.
  destruct (find_tag "Project" (default [] (AsgTags asg))) as [t |];
    [| discriminate].
  rewrite Hown, Hq. cbn [negb].
  unfold bind, call, when, append_finding, append_recommendation, add_savings,
    modify, ret.
  destruct ((DesiredCapacity asg =? MaxSize asg) && (2 <? MaxSize asg));
    destruct (truthy (ScheduledUpdateGroupActions actions));
    cbn; eexists; (split; [reflexivity |]); cbn;
    (split; [reflexivity |]);
    (split; [lia |]);
    (split; [intros x Hx; rewrite ?in_app_iff; auto |]);
    rewrite ?in_app_iff; cbn; auto.
Qed.

Lemma asg_loop autoscaling project_name groups :
  (forall asg, In asg groups -> own_group project_name asg = true ->
     exists actions,
       describe_scheduled_actions autoscaling (AutoScalingGroupName asg)
       = Ret actions) ->
  forall o,
  exists o',
    for_each groups (visit_asg autoscaling project_name) o = (Ret tt, o')
    /\ category o' = category o
    /\ potential_savings o'
       = potential_savings o
         + 50 * len (List.filter
                       (fun asg => own_group project_name asg
                                   && unscheduled autoscaling asg) groups)
    /\ (forall x, In x (findings o) -> In x (findings o'))
    /\ (forall asg, In asg groups -> own_group project_name asg = true ->
          In (asg_capacity_finding (AutoScalingGroupName asg)
                (DesiredCapacity asg) (MinSize asg) (MaxSize asg))
             (findings o')).
Proof.
  induction groups as [| g groups IH]; intros Hq o.
  - exists o. unfold len. cbn. split; [reflexivity |]. split; [reflexivity |].
    split; [lia |]. split; [auto |]. intros asg Hin. destruct Hin.
  - assert (Hq' : forall asg, In asg groups ->
                    own_group project_name asg = true ->
                    exists actions,
                      describe_scheduled_actions autoscaling
                        (AutoScalingGroupName asg) = Ret actions).
    { intros asg Hin. apply Hq. right. exact Hin. }
    cbn [for_each List.filter]. unfold bind.
    destruct (own_group project_name g) eqn:Hown.
    + destruct (Hq g (or_introl eq_refl) Hown) as [actions Ha].
      destruct (visit_asg_own autoscaling project_name g actions o Hown Ha)
        as (o1 & -> & Hc1 & Hs1 & Hf1 & Hg1).
      destruct (IH Hq' o1) as (o' & -> & Hc & Hs & Hf & Hg).
      exists o'. split; [reflexivity |].
      split; [congruence |].
      split.
      { rewrite Hs, Hs1. cbn [andb].
        destruct (unscheduled autoscaling g); unfold len; cbn [length]; lia. }
      split; [auto |].
      intros asg [<- | Hin] Hown'; [apply Hf, Hg1 | apply Hg; assumption].
    + rewrite (visit_asg_foreign autoscaling project_name g o Hown).
      destruct (IH Hq' o) as (o' & -> & Hc & Hs & Hf & Hg).
      exists o'. split; [reflexivity |].
      split; [exact Hc |]. split; [exact Hs |]. split; [exact Hf |].
      intros asg [<- | Hin] Hown'; [congruence | apply Hg; assumption].
Qed.

(** X2. When the group query answers and the scheduled-actions query
    answers for every group that carries the project, the ASG efficiency
    check returns a FindingSet whose potential_savings is 50 for each such
    group without scheduled actions and nothing for every other group, and
    whose findings hold the capacity line of every group that carries the
    project. *)
Theorem asg_check_savings
    (autoscaling : autoscaling_client) (cloudwatch : cloudwatch_client)
    (project_name environment_ : string) (response : describe_asgs_response) :
  describe_auto_scaling_groups autoscaling = Ret response ->
  (forall asg, In asg (AutoScalingGroups response) ->
     own_group project_name asg = true ->
     exists actions,
       describe_scheduled_actions autoscaling (AutoScalingGroupName asg)
       = Ret actions) ->
  exists fs,
    check_asg_efficiency autoscaling cloudwatch project_name environment_
    = Ret fs
    /\ potential_savings fs
       = 50 * len (List.filter
                     (fun asg => own_group project_name asg
                                 && unscheduled autoscaling asg)
                     (AutoScalingGroups response))
    /\ (forall asg, In asg (AutoScalingGroups response) ->
          own_group project_name asg = true ->
          In (asg_capacity_finding (AutoScalingGroupName asg)
                (DesiredCapacity asg) (MinSize asg) (MaxSize asg))
             (findings fs)).
Proof.
  intros Hq Hsched.
  unfold check_asg_efficiency, run_check, exec, try_except, asg_body.
  unfold bind at 1. unfold call at 1. rewrite Hq.
  destruct (asg_loop autoscaling project_name (AutoScalingGroups response)
              Hsched (new_optimization "Auto Scaling Group Efficiency"))
    as (o' & -> & _ & Hs & _ & Hg).
  exists o'. split; [reflexivity |]. split; [| exact Hg].
  rewrite Hs. cbn [potential_savings new_optimization]. lia.
Qed.

Lemma tags_fold_lookup (tags : list tag) (d : gmap string string) (k : string) :
  fold_left (fun d t => <[Key t := Value t]> d) tags d !! k
  = match List.find (fun t => String.eqb (Key t) k) (rev tags) with
    | Some t => Some (Value t)
    | None => d !! k
    end.
Proof.
  induction tags as [| t tags IH] using rev_ind.
  - reflexivity.
  - rewrite fold_left_app, rev_app_distr. cbn.
    destruct (String.eqb (Key t) k) eqn:E.
    + apply String.eqb_eq in E. subst k. apply lookup_insert_eq.
    + apply String.eqb_neq in E. rewrite lookup_insert_ne by exact E.
      exact IH.
Qed.

(** X3. The dictionary the tagging check builds from the tag list of an
    instance maps a key to the value of the last tag of the list that has
    this key, and has no entry for a key no tag has. *)
Theorem tags_dict_lookup (tags : list tag) (k : string) :
  tags_dict tags !! k
  = Value <$> List.find (fun t => String.eqb (Key t) k) (rev tags).
Proof.
  unfold tags_dict. rewrite tags_fold_lookup.
  destruct (List.find _ (rev tags)); reflexivity.
Qed.

Lemma find_rev_has_tag (tags : list tag) (k : string) :
  is_Some (List.find (fun t => String.eqb (Key t) k) (rev tags))
  <-> has_tag tags k = true.
Proof.
  unfold has_tag. rewrite existsb_exists. split.
  - intros [t Ht]. apply find_some in Ht as [Hin He].
    exists t. split; [apply in_rev, Hin | exact He].
  - intros (t & Hin & He).
    destruct (List.find _ (rev tags)) as [t' |] eqn:Hf; [eexists; eauto |].
    exfalso. apply in_rev in Hin.
    pose proof (find_none _ _ Hf t Hin) as Hn. cbn in Hn. congruence.
Qed.

Lemma missing_tags_lacking inst :
  missing_tags (tags_dict (default [] (InstanceTags inst))) = lacking inst.
Proof.
  unfold missing_tags, lacking. apply filter_ext. intros k. f_equal.
  unfold tags_dict. rewrite tags_fold_lookup, lookup_empty.
  pose proof (find_rev_has_tag (default [] (InstanceTags inst)) k) as H.
  destruct (has_tag (default [] (InstanceTags inst)) k).
  - apply bool_decide_eq_true.
    destruct H as [_ H]. destruct (H eq_refl) as [t ->]. eexists; reflexivity.
  - apply bool_decide_eq_false. intros Hs.
    destruct (List.find _ _) as [t |]; [| destruct Hs; discriminate].
    destruct H as [H _]. discriminate H. eexists; reflexivity.
Qed.

Lemma untagged_entry_line inst :
  untagged_entry inst
  = if truthy (lacking inst) then [untagged_line inst] else [].
Proof.
  unfold untagged_entry, untagged_line. cbv zeta.
  rewrite missing_tags_lacking. reflexivity.
Qed.

Lemma flat_map_optional {A B} (p : A -> bool) (f : A -> B) (l : list A) :
  flat_map (fun x => if p x then [f x] else []) l = List.map f (List.filter p l).
Proof.
  induction l as [| x l IH]; cbn; [reflexivity |].
  destruct (p x); cbn; rewrite IH; reflexivity.
Qed.

Lemma untagged_resources_lines response :
  untagged_resources_of response
  = List.map untagged_line (untagged response).
Proof.
  unfold untagged_resources_of, untagged, all_instances.
  rewrite <- flat_map_optional.
  induction (Reservations response) as [| r rs IH]; cbn; [reflexivity |].
  rewrite IH, flat_map_app. f_equal.
  apply flat_map_ext. intros inst. apply untagged_entry_line.
Qed.

(** X4. When the instance query answers, the tagging check reports, in the
    order of the response, one line for each instance that lacks a required
    tag, naming the tags it lacks in the order Project, Environment,
    CostCenter, Owner, together with the one recommendation to apply the
    tags; when no instance lacks a tag it reports the single finding that
    all resources are properly tagged and no recommendation.  It never
    estimates savings. *)
Theorem tagging_check_outcome (ec2 : ec2_client) (s3 : s3_client)
    (project_name environment_ : string)
    (response : describe_instances_response) :
  describe_instances ec2 [] = Ret response ->
  check_tagging_compliance ec2 s3 project_name environment_
  = Ret {| category := "Tagging Compliance";
           findings :=
             match untagged response with
             | [] => ["All resources have proper cost allocation tags"]
             | _ :: _ => List.map untagged_line (untagged response)
             end;
           recommendations :=
             match untagged response with
             | [] => []
             | _ :: _ => ["Apply missing cost allocation tags to resources"]
             end;
           potential_savings := 0 |}.
Proof.
  intros Hq.
  unfold check_tagging_compliance, run_check, exec, try_except, tagging_body.
  unfold bind at 1. unfold call at 1. rewrite Hq.
  rewrite untagged_resources_lines.
  destruct (untagged response) as [| inst rest]; reflexivity.
Qed.

(** X5. Whatever the S3 client does, the storage check returns, and its
    potential_savings is 30 when the lifecycle query raised, the client has
    an exception class named [NoSuchLifecycleConfiguration] and the
    exception is of that class, and 0 in every other case: when the bucket
    has lifecycle rules, when the query failed otherwise, and whenever the
    client has no exception class of that name; old objects and failures of
    the listing change nothing about it. *)
Theorem storage_savings (s3 : s3_client) (clk : clock) (bucket_name : string) :
  exists fs,
    optimize_s3_storage s3 clk bucket_name = Ret fs
    /\ potential_savings fs
       = (if Readings.absence_recognised s3 bucket_name then 30 else 0)
    /\ (forall e',
           exceptions_NoSuchLifecycleConfiguration s3 = Raise e' ->
           potential_savings fs = 0).
Proof.
  unfold Readings.absence_recognised.
  unfold optimize_s3_storage, run_check, exec, try_except, s3_body,
    lifecycle_step, try_except_expr, usage_step, bind, call, when.
  destruct (get_bucket_lifecycle_configuration s3 bucket_name) as [lc | e];
    cbn;
    [| destruct (exceptions_NoSuchLifecycleConfiguration s3) as [c | e2]; cbn;
       [destruct (isinstance e c); cbn |]];
    try (destruct (list_objects_v2 s3 bucket_name 1000) as [listing | e3];
         cbn;
         [destruct (Contents listing) as [sample |]; cbn;
          [destruct (0 <? count_old_objects (utcnow clk) sample); cbn |] |]);
    eexists; (split; [reflexivity |]); (split; [reflexivity |]);
    intros e' H; (discriminate H || reflexivity).
Qed.

(** X6. When the lifecycle query raises and the inner [except] clause does
    not take the exception, the client having no exception class of the
    name asked for or the exception not being of that class, the storage
    check stops there: it returns the error finding alone, with no
    recommendation and no savings, and the objects are not listed.  The
    error text is that of the exception raised by naming the missing class
    in the first case, and that of the query's exception in the second. *)
Theorem storage_check_stops_on_lifecycle_failure
    (s3 : s3_client) (clk : clock) (bucket_name : string) (e : exn) :
  get_bucket_lifecycle_configuration s3 bucket_name = Raise e ->
  Readings.absence_recognised s3 bucket_name = false ->
  optimize_s3_storage s3 clk bucket_name
  = Ret {| category := "S3 Storage Optimization";
           findings :=
             [ "Error analyzing S3 storage: "
                 +:+ exn_str
                       match exceptions_NoSuchLifecycleConfiguration s3 with
                       | Raise e' => e'
                       | Ret _ => e
                       end ];
           recommendations := [];
           potential_savings := 0 |}.
Proof.
  intros Hq. unfold Readings.absence_recognised. rewrite Hq. intros Hcls.
  unfold optimize_s3_storage, run_check, exec, try_except, s3_body,
    lifecycle_step, try_except_expr.
  unfold bind at 1. unfold bind at 1. unfold call at 1.
  rewrite Hq.
  destruct (exceptions_NoSuchLifecycleConfiguration s3) as [c | e'];
    [rewrite Hcls |]; reflexivity.
Qed.


Lemma filter_nothing {A} (p : A -> bool) (l : list A) :
  (forall x, In x l -> p x = false) -> List.filter p l = [].
Proof.
  induction l as [| x l IH]; intros H; cbn; [reflexivity |].
  rewrite (H x (or_introl eq_refl)). apply IH.
  intros y Hy. apply H. right. exact Hy.
Qed.




Section Units.

Variable unit : Z.

Lemma append_finding_units s : preserves (in_units unit) (append_finding s).
Proof. apply preserves_modify. intros o H. exact H. Qed.

Lemma extend_findings_units l : preserves (in_units unit) (extend_findings l).
Proof. apply preserves_modify. intros o H. exact H. Qed.

Lemma append_recommendation_units s :
  preserves (in_units unit) (append_recommendation s).
Proof. apply preserves_modify. intros o H. exact H. Qed.

Lemma add_savings_units : preserves (in_units unit) (add_savings unit).
Proof.
  apply preserves_modify. intros o (k & Hk & Hs).
  exists (k + 1). cbn. split; lia.
Qed.

End Units.

Ltac units_step :=
  first
    [ apply preserves_ret | apply preserves_call | apply preserves_get
    | apply append_finding_units | apply extend_findings_units
    | apply append_recommendation_units
    | apply add_savings_units
    | apply preserves_when
    | apply preserves_for_each; intros ?
    | apply preserves_try_except_cls
    | apply preserves_try_except_expr
    | apply preserves_bind; [| intros ?]
    | match goal with
      | |- preserves _ (let _ := _ in _) => cbv zeta
      | |- preserves _ (if ?b then _ else _) => destruct b
      | |- preserves _ (match ?x with _ => _ end) => destruct x
      end ].

Lemma module_body_units m i :
  preserves (in_units (savings_unit m)) (module_body m i).
Proof.
  destruct m; cbn [module_body savings_unit];
    unfold utilization_body, scan_instances, visit_instance, assess_instance,
      asg_body, visit_asg, s3_body, lifecycle_step, usage_step, tagging_body,
      anomalies_body;
    repeat units_step.
Qed.

(** X9. Whatever the clients do, the potential_savings a check returns is a
    whole, non-negative number of its fixed estimates: of 20 for the
    utilization check, 50 for the ASG check, 30 for the storage check and 25
    for the cost-anomaly check; the tagging check always returns 0. *)
Theorem savings_come_in_units (m : check_module) (i : snapshot) :
  exists fs triggers,
    run_module m i = Ret fs
    /\ 0 <= triggers
    /\ potential_savings fs = savings_unit m * triggers.
Proof.
  rewrite run_module_unfold. unfold run_check.
  destruct (exec_guarded (in_units (savings_unit m)) (module_body m i)
              (fun e => append_finding (module_error_prefix m +:+ exn_str e))
              (new_optimization (module_category m)))
    as (fs & E & k & Hk & Hs).
  - apply module_body_units.
  - intros e. apply append_finding_units.
  - intros e. apply total_modify.
  - exists 0. cbn. lia.
  - exists fs, k. auto.
Qed.

(** X10. The cost-optimizer handler answers 200 exactly when the context
    has an environment holding PROJECT_NAME, ENVIRONMENT and BUCKET_NAME and
    the four clients can be created; the report then carries the project and
    the environment as read and the timestamp of the clock.  No failure
    inside a check can turn the answer into a 500. *)
Theorem cost_handler_succeeds_iff (aws : boto3) (clk : clock) (event : json)
    (context : lambda_context) :
  (forall env p e b ec2 cloudwatch autoscaling s3,
      ctx_environment context = Some env ->
      env !! "PROJECT_NAME" = Some p ->
      env !! "ENVIRONMENT" = Some e ->
      env !! "BUCKET_NAME" = Some b ->
      client_ec2 aws = Ret ec2 ->
      client_cloudwatch aws = Ret cloudwatch ->
      client_autoscaling aws = Ret autoscaling ->
      client_s3 aws = Ret s3 ->
      exists rep,
        handler aws clk event context
        = Ret {| statusCode := 200; body := report_json rep |}
        /\ project rep = p /\ environment rep = e
        /\ timestamp rep = isoformat clk)
  /\ (forall r,
         handler aws clk event context = Ret r ->
         statusCode r = 200 ->
         exists env p e b ec2 cloudwatch autoscaling s3,
           ctx_environment context = Some env
           /\ env !! "PROJECT_NAME" = Some p
           /\ env !! "ENVIRONMENT" = Some e
           /\ env !! "BUCKET_NAME" = Some b
           /\ client_ec2 aws = Ret ec2
           /\ client_cloudwatch aws = Ret cloudwatch
           /\ client_autoscaling aws = Ret autoscaling
           /\ client_s3 aws = Ret s3).
Proof.
  split.
  - intros env p e b ec2 cloudwatch autoscaling s3 Henv Hp He Hb H1 H2 H3 H4.
    unfold handler, handler_body, run, try_except, bind, call, ret,
      context_environment, getitem.
    rewrite Henv, Hp, He, Hb, H1, H2, H3, H4.
    match goal with
    | |- context [exec (run_checks ?a ?b ?c ?d ?e ?f ?g ?h) ?r0] =>
      destruct (CostOptimizerSpec.run_checks_outcome a b c d e f g h r0)
        as (o1 & o2 & o3 & o4 & o5 & -> & _)
    end.
    cbn. eexists. split; [reflexivity |]. cbn. auto.
  - intros r Hr Hcode. revert Hr.
    unfold handler, handler_body, run, try_except, bind, call, ret,
      context_environment, getitem, handler_except.
    destruct (ctx_environment context) as [env |] eqn:Henv;
      [| cbn; intros [= <-]; discriminate].
    destruct (env !! "PROJECT_NAME") as [p |] eqn:Hp;
      [| cbn; intros [= <-]; discriminate].
    destruct (env !! "ENVIRONMENT") as [e |] eqn:He;
      [| cbn; intros [= <-]; discriminate].
    destruct (env !! "BUCKET_NAME") as [b |] eqn:Hb;
      [| cbn; intros [= <-]; discriminate].
    destruct (client_ec2 aws) as [c1 |] eqn:H1;
      [| cbn; intros [= <-]; discriminate].
    destruct (client_cloudwatch aws) as [c2 |] eqn:H2;
      [| cbn; intros [= <-]; discriminate].
    destruct (client_autoscaling aws) as [c3 |] eqn:H3;
      [| cbn; intros [= <-]; discriminate].
    destruct (client_s3 aws) as [c4 |] eqn:H4;
      [| cbn; intros [= <-]; discriminate].
    intros _. exists env, p, e, b, c1, c2, c3, c4. auto 10.
Qed.

(** X1 at a project none of the three groups carries. *)
Lemma asg_check_ignores_foreign_groups_witness :
  check_asg_efficiency Inventories.mixed_autoscaling
    Scenarios.steady_cloudwatch "payroll" "dev"
  = Ret {| category := "Auto Scaling Group Efficiency";
           findings := []; recommendations := []; potential_savings := 0 |}.
Proof.
  apply (asg_check_ignores_foreign_groups Inventories.mixed_autoscaling
           Scenarios.steady_cloudwatch "payroll" "dev"
           (DescribeAsgs [Inventories.web; Inventories.billing;
                          Inventories.jobs])).
  - reflexivity.
  - intros asg [<- | [<- | [<- | []]]]; reflexivity.
Defined.

(** X2 at the project shop: of its two groups only web has no scheduled
    actions. *)
Lemma asg_check_savings_witness :
  exists fs,
    check_asg_efficiency Inventories.mixed_autoscaling
      Scenarios.steady_cloudwatch "shop" "dev" = Ret fs
    /\ potential_savings fs = 50
    /\ In "ASG web: Desired=3, Min=1, Max=3" (findings fs).
Proof.
  destruct (asg_check_savings Inventories.mixed_autoscaling
              Scenarios.steady_cloudwatch "shop" "dev"
              (DescribeAsgs [Inventories.web; Inventories.billing;
                             Inventories.jobs]) eq_refl)
    as (fs & E & Hs & Hf).
  - intros asg [<- | [<- | [<- | []]]] Hown.
    + eexists. reflexivity.
    + discriminate Hown.
    + eexists. reflexivity.
  - exists fs. split; [exact E |]. split; [exact Hs |].
    apply (Hf Inventories.web); [left; reflexivity | reflexivity].
Defined.

(** X4 at three instances: one fully tagged, one with two tags, one with
    none. *)
Lemma tagging_check_outcome_witness :
  check_tagging_compliance Inventories.tagging_ec2 Inventories.locked_s3
    "shop" "dev"
  = Ret {| category := "Tagging Compliance";
           findings :=
             [ "Instance i-half missing tags: CostCenter, Owner";
               "Instance i-bare missing tags: Project, Environment, CostCenter, Owner" ];
           recommendations :=
             ["Apply missing cost allocation tags to resources"];
           potential_savings := 0 |}.
Proof.
  exact (tagging_check_outcome Inventories.tagging_ec2 Inventories.locked_s3
           "shop" "dev"
           (DescribeInstances
              [Reservation [Inventories.tagged; Inventories.half_tagged];
               Reservation [Inventories.bare]]) eq_refl).
Defined.

(** X5 at a bucket without lifecycle configuration, first on a client
    written for a test, which has the exception class, then on a client
    without it. *)
Lemma storage_savings_witness :
  (exists fs,
      optimize_s3_storage (Inventories.stub_s3 (utcnow Scenarios.noon))
        Scenarios.noon "assets" = Ret fs
      /\ potential_savings fs = 30)
  /\ (exists fs,
         optimize_s3_storage (Scenarios.unmanaged_s3 (utcnow Scenarios.noon))
           Scenarios.noon "shop-dev-assets" = Ret fs
         /\ potential_savings fs = 0).
Proof.
  split.
  - destruct (storage_savings (Inventories.stub_s3 (utcnow Scenarios.noon))
                Scenarios.noon "assets") as (fs & E & Hs & _).
    exists fs. split; [exact E | exact Hs].
  - destruct (storage_savings
                (Scenarios.unmanaged_s3 (utcnow Scenarios.noon))
                Scenarios.noon "shop-dev-assets") as (fs & E & Hs & _).
    exists fs. split; [exact E | exact Hs].
Defined.

(** X6 at a bucket whose lifecycle query is refused, on a client without
    the exception class: the error finding does not show the refusal. *)
Lemma storage_check_stops_on_lifecycle_failure_witness :
  optimize_s3_storage Inventories.locked_s3 Scenarios.noon "vault"
  = Ret {| category := "S3 Storage Optimization";
           findings :=
             [ "Error analyzing S3 storage: "
                 +:+ exn_str Scenarios.missing_class_error ];
           recommendations := [];
           potential_savings := 0 |}.
Proof.
  apply (storage_check_stops_on_lifecycle_failure Inventories.locked_s3
           Scenarios.noon "vault" (Exn ClientError "AccessDenied"));
    reflexivity.
Defined.



(** X10 at a configured context. *)
Lemma cost_handler_succeeds_iff_witness :
  exists rep,
    handler (Scenarios.account Scenarios.noon) Scenarios.noon JNull
      (Scenarios.context_of Scenarios.full_env)
    = Ret {| statusCode := 200; body := report_json rep |}
    /\ project rep = "shop" /\ environment rep = "dev"
    /\ timestamp rep = "1970-01-01T12:00:00".
Proof.
  destruct (cost_handler_succeeds_iff (Scenarios.account Scenarios.noon)
              Scenarios.noon JNull (Scenarios.context_of Scenarios.full_env))
    as [H _].
  apply (H Scenarios.full_env "shop" "dev" "shop-dev-assets"
           Scenarios.steady_ec2 Scenarios.steady_cloudwatch
           Scenarios.no_autoscaling
           (Scenarios.unmanaged_s3 (utcnow Scenarios.noon)));
    reflexivity.
Defined.

End CostOptimizerExtra.

(** ** Further properties of the workspace manager *)

Module WorkspaceManagerExtra.

Import PyFacts WorkspaceManager Readings.

Lemma subnets_loop l i :
  for_each l (fun s => append_subnet (subnet_info_of s)) i
  = (Ret tt,
     {| vpc_id := vpc_id i;
        subnets := subnets i ++ List.map subnet_info_of l;
        security_groups := security_groups i;
        nat_gateways := nat_gateways i;
        cidr_block := cidr_block i; state := state i;
        vpc_error := vpc_error i |}).
Proof.
  revert i. induction l as [| s l IH]; intros i; cbn.
  - rewrite app_nil_r. destruct i; reflexivity.
  - unfold bind. cbn. rewrite IH. cbn. rewrite <- app_assoc. reflexivity.
Qed.

Lemma security_groups_loop l i :
  for_each l (fun g => append_security_group (sg_info_of g)) i
  = (Ret tt,
     {| vpc_id := vpc_id i;
        subnets := subnets i;
        security_groups := security_groups i ++ List.map sg_info_of l;
        nat_gateways := nat_gateways i;
        cidr_block := cidr_block i; state := state i;
        vpc_error := vpc_error i |}).
Proof.
  revert i. induction l as [| s l IH]; intros i; cbn.
  - rewrite app_nil_r. destruct i; reflexivity.
  - unfold bind. cbn. rewrite IH. cbn. rewrite <- app_assoc. reflexivity.
Qed.

Lemma nat_gateways_loop l i :
  for_each l (fun n => append_nat_gateway (nat_info_of n)) i
  = (Ret tt,
     {| vpc_id := vpc_id i;
        subnets := subnets i;
        security_groups := security_groups i;
        nat_gateways := nat_gateways i ++ List.map nat_info_of l;
        cidr_block := cidr_block i; state := state i;
        vpc_error := vpc_error i |}).
Proof.
  revert i. induction l as [| s l IH]; intros i; cbn.
  - rewrite app_nil_r. destruct i; reflexivity.
  - unfold bind. cbn. rewrite IH. cbn. rewrite <- app_assoc. reflexivity.
Qed.

(** X11. When the four network queries answer, the VPC check returns one
    summary for each subnet, security group and NAT gateway of the
    responses, in their order, the address block and the state of the first
    VPC listed (none when no VPC is listed), and no error. *)
Theorem vpc_check_success (ec2 : ec2_client) (vpc workspace_ : string)
    (vpcs : describe_vpcs_response) (subs : describe_subnets_response)
    (groups : describe_security_groups_response)
    (nats : describe_nat_gateways_response) :
  describe_vpcs ec2 [vpc] = Ret vpcs ->
  describe_subnets ec2 (workspace_filters vpc workspace_) = Ret subs ->
  describe_security_groups ec2 (workspace_filters vpc workspace_) = Ret groups ->
  describe_nat_gateways ec2 (workspace_filters vpc workspace_) = Ret nats ->
  check_vpc_resources ec2 vpc workspace_
  = Ret {| vpc_id := vpc;
           subnets := List.map subnet_info_of (Subnets subs);
           security_groups := List.map sg_info_of (SecurityGroups groups);
           nat_gateways := List.map nat_info_of (NatGateways nats);
           cidr_block := VpcCidrBlock <$> head (Vpcs vpcs);
           state := VpcState <$> head (Vpcs vpcs);
           vpc_error := None |}.
Proof.
  intros H1 H2 H3 H4.
  unfold check_vpc_resources, exec, try_except, vpc_body.
  unfold bind, call. rewrite H1.
  destruct (Vpcs vpcs) as [| v vs]; cbn;
    rewrite H2, subnets_loop, H3, security_groups_loop, H4, nat_gateways_loop;
    reflexivity.
Qed.

(** X12. When the VPC query itself is refused, the VPC check returns the
    summary it was created with, holding only the error text, and the
    network validator then calls it unhealthy, with the issue that the VPC
    state is None and the warnings that no public and no private subnets
    were found. *)
Theorem vpc_check_refused (ec2 : ec2_client) (vpc workspace_ : string)
    (e : exn) :
  describe_vpcs ec2 [vpc] = Raise e ->
  exists info,
    check_vpc_resources ec2 vpc workspace_ = Ret info
    /\ info = {| vpc_id := vpc; subnets := []; security_groups := [];
                 nat_gateways := []; cidr_block := None; state := None;
                 vpc_error := Some (exn_str e) |}
    /\ validate_vpc_health info
       = {| status := "unhealthy";
            issues := ["VPC state is None, expected 'available'"];
            warnings := ["No public subnets found";
                         "No private subnets found"] |}.
Proof.
  intros Hq.
  unfold check_vpc_resources, exec, try_except, vpc_body.
  unfold bind at 1. unfold call at 1. rewrite Hq. cbn.
  eexists. split; [reflexivity |]. split; reflexivity.
Qed.

Lemma visit_subnet_step h (m : gmap string (list subnet_info)) s :
  warnings (fst (visit_subnet (h, m) s))
  = warnings h ++ low_ip_warnings [s]
  /\ forall t,
      is_Some (snd (visit_subnet (h, m) s) !! t)
      <-> is_Some (m !! t) \/ filed_under s = t.
Proof.
  unfold visit_subnet, low_ip_warnings, filed_under. cbv zeta.
  cbn [flat_map]. split.
  - destruct (available_ip_count s <? 10); cbn;
      rewrite ?app_nil_r; reflexivity.
  - intros t.
    destruct (available_ip_count s <? 10); cbn [snd];
      (destruct (decide (default "unknown" (subnet_type s) = t)) as [-> | Hne];
       [ rewrite lookup_insert_eq; split; [right; reflexivity | eauto]
       | rewrite lookup_insert_ne by exact Hne;
         destruct (m !! default "unknown" (subnet_type s)) eqn:Hm;
         [| rewrite lookup_insert_ne by exact Hne];
         (split; [auto | intros [H | H]; [exact H | contradiction]]) ]).
Qed.

Lemma subnets_fold l h (m : gmap string (list subnet_info)) :
  warnings (fst (fold_left visit_subnet l (h, m)))
  = warnings h ++ low_ip_warnings l
  /\ forall t,
      is_Some (snd (fold_left visit_subnet l (h, m)) !! t)
      <-> is_Some (m !! t) \/ has_type l t = true.
Proof.
  revert h m. induction l as [| s l IH]; intros h m.
  - cbn. rewrite app_nil_r. split; [reflexivity |].
    intros t. split; [auto | intros [H | H]; [exact H | discriminate]].
  - cbn [fold_left].
    destruct (visit_subnet (h, m) s) as [h1 m1] eqn:E.
    destruct (visit_subnet_step h m s) as [Hw1 Hm1]. rewrite E in Hw1, Hm1.
    cbn [fst snd] in Hw1, Hm1.
    destruct (IH h1 m1) as [Hw Hm]. split.
    + rewrite Hw, Hw1. unfold low_ip_warnings. cbn [flat_map].
      rewrite app_nil_r, <- app_assoc. reflexivity.
    + intros t. rewrite Hm, Hm1. unfold has_type. cbn [existsb].
      rewrite Bool.orb_true_iff, String.eqb_eq. tauto.
Qed.

(** X13. The warnings of the network validator are, in this order: one
    low-address warning for each subnet with fewer than 10 available
    addresses, in the order of the subnets; the warning that no public
    subnet was found exactly when no subnet has the type public; the warning
    that no private subnet was found exactly when no subnet has the type
    private.  A subnet without a type counts as of type unknown. *)
Theorem vpc_health_warnings (info : vpc_info) :
  warnings (validate_vpc_health info)
  = low_ip_warnings (subnets info)
    ++ (if has_type (subnets info) "public" then []
        else ["No public subnets found"])
    ++ (if has_type (subnets info) "private" then []
        else ["No private subnets found"]).
Proof.
  unfold validate_vpc_health.
  match goal with
  | |- context [fold_left visit_subnet ?l (?h, ?m)] =>
    destruct (subnets_fold l h m) as [Hw Hm];
    destruct (fold_left visit_subnet l (h, m)) as [h1 by_type]
  end.
  cbn [fst snd] in Hw, Hm.
  assert (Hlookup : forall t,
             by_type !! t = None <-> has_type (subnets info) t = false).
  { intros t. specialize (Hm t). rewrite lookup_empty in Hm. split.
    - intros Hn. destruct (has_type (subnets info) t); [| reflexivity].
      exfalso. rewrite Hn in Hm. destruct Hm as [_ Hm].
      destruct Hm as [x Hx]; [right; reflexivity | discriminate].
    - intros Hf. rewrite Hf in Hm.
      destruct (by_type !! t); [| reflexivity].
      exfalso. destruct Hm as [Hm _].
      destruct Hm as [[x Hx] | Hx]; [eexists; reflexivity | |];
        discriminate. }
  assert (Hw0 : warnings h1 = low_ip_warnings (subnets info)).
  { rewrite Hw. case_bool_decide; reflexivity. }
  cbv zeta. cbn [fold_left].
  destruct (by_type !! "public") eqn:Hpub;
    destruct (by_type !! "private") eqn:Hpriv;
    repeat match goal with
    | H : by_type !! ?t = None |- _ => apply Hlookup in H; rewrite H
    | H : by_type !! ?t = Some _ |- _ =>
      let Hs := fresh in
      assert (Hs : has_type (subnets info) t = true)
        by (destruct (has_type (subnets info) t) eqn:Hh;
            [reflexivity | apply Hlookup in Hh; congruence]);
      rewrite Hs; clear H
    end;
    cbn; rewrite Hw0, <- ?app_assoc, ?app_nil_r; reflexivity.
Qed.

(** X14. When the VPC query answers with a VPC in state available and the
    subnet query is refused, the VPC check keeps the state and the address
    block and records the error, and the network validator, which does not
    look at the error, still gives the status healthy, with the two warnings
    that no public and no private subnets were found. *)
Theorem vpc_check_subnets_refused (ec2 : ec2_client) (vpc workspace_ : string)
    (v : Aws.vpc) (others : list Aws.vpc) (e : exn) :
  describe_vpcs ec2 [vpc] = Ret (DescribeVpcs (v :: others)) ->
  VpcState v = "available" ->
  describe_subnets ec2 (workspace_filters vpc workspace_) = Raise e ->
  exists info,
    check_vpc_resources ec2 vpc workspace_ = Ret info
    /\ info = {| vpc_id := vpc; subnets := []; security_groups := [];
                 nat_gateways := []; cidr_block := Some (VpcCidrBlock v);
                 state := Some "available";
                 vpc_error := Some (exn_str e) |}
    /\ validate_vpc_health info
       = {| status := "healthy"; issues := [];
            warnings := ["No public subnets found";
                         "No private subnets found"] |}.
Proof.
  intros Hv Hstate Hs.
  unfold check_vpc_resources, exec, try_except, vpc_body, bind, call.
  rewrite Hv. cbn. rewrite Hs. cbn. rewrite Hstate.
  eexists. split; [reflexivity |]. split; reflexivity.
Qed.

Lemma sum_over_snoc count groups g :
  sum_over count (groups ++ [g]) = sum_over count groups + count g.
Proof.
  unfold sum_over. induction groups as [| x l IH]; cbn; [lia |].
  rewrite IH. lia.
Qed.

Lemma healthy_count_bounds asg :
  0 <= healthy_count asg <= len (AsgInstances asg).
Proof.
  unfold healthy_count, len. split; [lia |].
  apply inj_le. apply List.filter_length_le.
Qed.

Lemma record_asg_consistent asg :
  preserves consistent_totals (record_asg asg).
Proof.
  apply preserves_modify. intros i (Ht & Hh & Hall).
  unfold consistent_totals.
  cbn [auto_scaling_groups total_instances total_healthy].
  rewrite !sum_over_snoc, Ht, Hh.
  cbn [asg_details_of current_instances healthy_instances].
  split; [reflexivity |]. split; [reflexivity |].
  apply Forall_app. split; [exact Hall |].
  constructor; [| constructor]. cbn. apply healthy_count_bounds.
Qed.

Lemma sum_over_le groups :
  Forall (fun g => 0 <= healthy_instances g <= current_instances g) groups ->
  0 <= sum_over healthy_instances groups
    <= sum_over current_instances groups.
Proof.
  unfold sum_over. induction 1 as [| g l Hg _ IH]; cbn; lia.
Qed.

(** X15. Whatever the autoscaling client does, the workspace ASG check
    returns a summary whose totals agree with its list of groups:
    total_instances is the sum of the groups' current_instances,
    healthy_instances is the sum of the groups' healthy_instances, no group
    has more healthy instances than instances, and so the healthy total
    never exceeds the total. *)
Theorem asg_summary_totals (autoscaling : autoscaling_client)
    (project_name_ workspace_ : string) :
  exists info,
    check_workspace_asgs autoscaling project_name_ workspace_ = Ret info
    /\ total_instances info
       = sum_over current_instances (auto_scaling_groups info)
    /\ total_healthy info
       = sum_over healthy_instances (auto_scaling_groups info)
    /\ Forall (fun g => 0 <= healthy_instances g <= current_instances g)
              (auto_scaling_groups info)
    /\ 0 <= total_healthy info <= total_instances info.
Proof.
  unfold check_workspace_asgs.
  match goal with
  | |- context [exec (try_except ?m ?h) ?s] =>
    destruct (exec_guarded consistent_totals m h s)
      as (info & E & Ht & Hh & Hall)
  end.
  - unfold asgs_body. apply preserves_bind; [apply preserves_call |].
    intros response. apply preserves_for_each. intros asg.
    apply preserves_when. apply record_asg_consistent.
  - intros e. apply preserves_modify. intros i H. exact H.
  - intros e. apply total_modify.
  - unfold consistent_totals. cbn. auto.
  - exists info. split; [exact E |]. split; [exact Ht |].
    split; [exact Hh |]. split; [exact Hall |].
    rewrite Ht, Hh. apply sum_over_le, Hall.
Qed.

Lemma asgs_loop workspace_ l i :
  for_each l (fun asg => when (workspace_match workspace_ asg) (record_asg asg))
           i
  = (Ret tt,
     let matching := List.filter (workspace_match workspace_) l in
     {| auto_scaling_groups :=
          auto_scaling_groups i ++ List.map asg_details_of matching;
        total_instances :=
          total_instances i
          + sum_over current_instances (List.map asg_details_of matching);
        total_healthy :=
          total_healthy i
          + sum_over healthy_instances (List.map asg_details_of matching);
        asg_error := asg_error i |}).
Proof.
  revert i. induction l as [| asg l IH]; intros i; cbn.
  - rewrite app_nil_r, !Z.add_0_r. destruct i; reflexivity.
  - unfold bind. destruct (workspace_match workspace_ asg); cbn.
    + rewrite IH. cbn. rewrite <- app_assoc. cbn. f_equal. f_equal.
      * unfold sum_over. cbn. lia.
      * unfold sum_over. cbn. lia.
    + rewrite IH. reflexivity.
Qed.

(** X16. When the group query answers, the workspace ASG check lists
    exactly the groups that carry a tag Workspace with the workspace's name,
    in the order of the response, with no error; a group of another
    workspace, or without tags, is left out of the list and of the
    totals. *)
Theorem asg_summary_lists_workspace_groups (autoscaling : autoscaling_client)
    (project_name_ workspace_ : string) (response : describe_asgs_response) :
  describe_auto_scaling_groups autoscaling = Ret response ->
  let matching :=
    List.map asg_details_of
      (List.filter (workspace_match workspace_) (AutoScalingGroups response)) in
  check_workspace_asgs autoscaling project_name_ workspace_
  = Ret {| auto_scaling_groups := matching;
           total_instances := sum_over current_instances matching;
           total_healthy := sum_over healthy_instances matching;
           asg_error := None |}.
Proof.
  intros Hq matching.
  unfold check_workspace_asgs, exec, try_except, asgs_body, bind, call.
  rewrite Hq, asgs_loop. reflexivity.
Qed.

(** X17. When the group query is refused, or answers without a group of
    the workspace, the autoscaling validator applied to the summary of the
    workspace ASG check gives the same verdict: unhealthy, with the single
    issue that no Auto Scaling Groups were found, and no warning.  A refused
    query is not told apart from an empty workspace. *)
Theorem no_groups_verdict (autoscaling : autoscaling_client)
    (project_name_ workspace_ : string) :
  match describe_auto_scaling_groups autoscaling with
  | Raise _ => True
  | Ret response =>
    forall asg, In asg (AutoScalingGroups response) ->
                workspace_match workspace_ asg = false
  end ->
  exists info,
    check_workspace_asgs autoscaling project_name_ workspace_ = Ret info
    /\ validate_asg_health info workspace_
       = {| status := "unhealthy";
            issues := ["No Auto Scaling Groups found for this workspace"];
            warnings := [] |}.
Proof.
  intros H.
  destruct (describe_auto_scaling_groups autoscaling) as [response | e] eqn:Hq.
  - unfold check_workspace_asgs, exec, try_except, asgs_body, bind, call.
    rewrite Hq, asgs_loop.
    rewrite CostOptimizerExtra.filter_nothing by exact H.
    eexists. split; reflexivity.
  - unfold check_workspace_asgs, exec, try_except, asgs_body, bind, call.
    rewrite Hq. cbn. eexists. split; reflexivity.
Qed.

Lemma visit_group_clean workspace_ h asg :
  healthy_instances asg = current_instances asg ->
  current_instances asg = desired_capacity asg ->
  (workspace_ = "prod" ->
   2 <= min_size asg /\ 2 <= len (availability_zones asg)) ->
  visit_group workspace_ h asg = h.
Proof.
  intros Hh Hd Hprod. unfold visit_group.
  rewrite Hh, Hd, Z.ltb_irrefl, Z.eqb_refl. cbn.
  destruct (String.eqb workspace_ "prod") eqn:E; [| reflexivity].
  apply String.eqb_eq in E. destruct (Hprod E) as [Hm Hz].
  apply Z.ltb_ge in Hm, Hz. rewrite Hm, Hz. reflexivity.
Qed.

(** X18. For a summary with at least one group in which every group has
    all its instances healthy and as many instances as desired, and, in the
    workspace prod, a min_size of at least 2 and at least 2 availability
    zones, the autoscaling validator returns the clean verdict: healthy, no
    issue, no warning.  Outside prod the size and zone rules do not
    apply. *)
Theorem clean_groups_verdict (info : asg_info) (workspace_ : string) :
  auto_scaling_groups info <> [] ->
  (forall asg, In asg (auto_scaling_groups info) ->
     healthy_instances asg = current_instances asg
     /\ current_instances asg = desired_capacity asg
     /\ (workspace_ = "prod" ->
         2 <= min_size asg /\ 2 <= len (availability_zones asg))) ->
  validate_asg_health info workspace_ = healthy_verdict.
Proof.
  intros Hne Hall. unfold validate_asg_health.
  destruct (auto_scaling_groups info) as [| g gs] eqn:E; [congruence |].
  cbn [truthy negb]. cbv zeta.
  assert (Hfold : forall l h,
             (forall asg, In asg l -> In asg (g :: gs)) ->
             fold_left (visit_group workspace_) l h = h).
  { induction l as [| a l IH]; intros h Hsub; cbn; [reflexivity |].
    destruct (Hall a (Hsub a (or_introl eq_refl))) as (H1 & H2 & H3).
    rewrite visit_group_clean by assumption.
    apply IH. intros x Hx. apply Hsub. right. exact Hx. }
  apply Hfold. auto.
Qed.

Ltac split_outcomes :=
  repeat match goal with
  | |- context [match ?o with Ret _ => _ | Raise _ => _ end] =>
    destruct o; cbn
  | |- context [if isinstance ?e ?c then _ else _] =>
    destruct (isinstance e c); cbn
  | |- context [match Contents ?l with Some _ => _ | None => _ end] =>
    destruct (Contents l); cbn
  end.

(** X19. Whatever the S3 client does, the bucket check returns, and the
    storage validator applied to its summary follows the head-bucket query
    alone: when that query answers, the bucket is recorded as existing and
    the verdict is healthy with no issue, whatever fails afterwards; when it
    raises, for whatever reason, the summary is the one the check was
    created with plus the error text, and the verdict is unhealthy with the
    single issue that the bucket does not exist. *)
Theorem bucket_health_follows_head_bucket (s3 : s3_client)
    (bucket workspace_ : string) :
  exists info,
    check_s3_resources s3 bucket workspace_ = Ret info
    /\ match head_bucket s3 bucket with
       | Ret _ =>
         exists_ info = true
         /\ status (validate_s3_health info) = "healthy"
         /\ issues (validate_s3_health info) = []
       | Raise e =>
         info = {| bucket_name := bucket; exists_ := false;
                   versioning := "Unknown"; encryption := "Unknown";
                   object_count := 0; total_size_bytes := 0;
                   s3_error := Some (exn_str e) |}
         /\ validate_s3_health info
            = {| status := "unhealthy";
                 issues := ["S3 bucket does not exist"];
                 warnings := [] |}
       end.
Proof.
  unfold check_s3_resources, exec, try_except, s3_resources_body,
    encryption_step, try_except, bind, call, validate_s3_health.
  destruct (head_bucket s3 bucket) as [[] | e]; cbn.
  - split_outcomes; eexists; (split; [reflexivity |]); cbn; auto.
  - eexists. split; [reflexivity |]. cbn. auto.
Qed.

(** X20. When the head-bucket and versioning queries answer, the bucket
    check records the versioning status, or Suspended when the answer has
    none, and reads the encryption query as follows: Enabled when it
    answers, Disabled when it raises the no-such-bucket exception, Unknown
    when it raises anything else; a failure of the encryption query is never
    recorded as the error of the check, which is the failure of the listing
    or nothing.  The storage validator warns about disabled encryption
    exactly in the Disabled case. *)
Theorem bucket_encryption_reading (s3 : s3_client) (bucket workspace_ : string)
    (v : bucket_versioning) :
  head_bucket s3 bucket = Ret tt ->
  get_bucket_versioning s3 bucket = Ret v ->
  exists info,
    check_s3_resources s3 bucket workspace_ = Ret info
    /\ versioning info = default "Suspended" (Status v)
    /\ encryption info
       = match get_bucket_encryption s3 bucket with
         | Ret _ => "Enabled"
         | Raise e => if isinstance e NoSuchBucket then "Disabled"
                      else "Unknown"
         end
    /\ s3_error info
       = match list_objects_v2 s3 bucket 1000 with
         | Ret _ => None
         | Raise e => Some (exn_str e)
         end
    /\ warnings (validate_s3_health info)
       = match get_bucket_encryption s3 bucket with
         | Ret _ => []
         | Raise e => if isinstance e NoSuchBucket
                      then ["S3 bucket encryption is disabled"] else []
         end.
Proof.
  intros Hh Hv.
  unfold check_s3_resources, exec, try_except, s3_resources_body,
    encryption_step, try_except, bind, call, validate_s3_health.
  rewrite Hh. cbn. rewrite Hv. cbn.
  destruct (get_bucket_encryption s3 bucket) as [[] | e]; cbn;
    [| destruct (isinstance e NoSuchBucket); cbn];
    (destruct (list_objects_v2 s3 bucket 1000) as [l | e']; cbn;
     [destruct (Contents l); cbn |]);
    eexists; (split; [reflexivity |]); cbn; auto.
Qed.

Lemma parameters_loop l i :
  for_each l (fun p => append_parameter (param_info_of p)) i
  = (Ret tt,
     {| parameters := parameters i ++ List.map param_info_of l;
        workspace_config_exists := workspace_config_exists i;
        config_last_modified := config_last_modified i;
        config_version := config_version i;
        config_data := config_data i;
        ssm_error := ssm_error i |}).
Proof.
  revert i. induction l as [| s l IH]; intros i; cbn.
  - rewrite app_nil_r. destruct i; reflexivity.
  - unfold bind. cbn. rewrite IH. cbn. rewrite <- app_assoc. reflexivity.
Qed.

(** X21. When the query for the configuration parameter raises the
    parameter-not-found exception, the parameter check goes on: it records
    that the configuration does not exist, lists the parameters of the
    workspace, and reports no error unless the listing fails.  When the
    query raises any other exception, the check stops with that error and
    lists nothing. *)
Theorem missing_config_is_not_an_error
    (json_loads : string -> outcome json) (ssm : ssm_client)
    (project_name_ workspace_ : string) (e : exn) :
  get_parameter ssm (config_name project_name_ workspace_) = Raise e ->
  check_ssm_parameters json_loads ssm project_name_ workspace_
  = Ret (if isinstance e ParameterNotFound then
           match describe_parameters ssm
                   (workspace_prefix_filter project_name_ workspace_) with
           | Ret listing =>
             {| parameters := List.map param_info_of (Parameters listing);
                workspace_config_exists := false;
                config_last_modified := None; config_version := None;
                config_data := None; ssm_error := None |}
           | Raise e' =>
             {| parameters := []; workspace_config_exists := false;
                config_last_modified := None; config_version := None;
                config_data := None; ssm_error := Some (exn_str e') |}
           end
         else
           {| parameters := []; workspace_config_exists := false;
              config_last_modified := None; config_version := None;
              config_data := None; ssm_error := Some (exn_str e) |}).
Proof.
  unfold config_name, workspace_prefix_filter. intros Hq.
  unfold check_ssm_parameters, exec, try_except, ssm_body, config_step,
    try_except_cls, bind, call.
  cbv zeta. rewrite Hq.
  destruct (isinstance e ParameterNotFound); cbn; [| reflexivity].
  destruct (describe_parameters ssm _) as [listing | e']; cbn;
    [| reflexivity].
  rewrite parameters_loop. reflexivity.
Qed.

(** X22. When the configuration parameter exists but its text is rejected
    by the JSON parser, the parameter check records the string Invalid JSON
    as the configuration data, keeps the modification date and the version,
    goes on to list the parameters of the workspace, and reports no
    error. *)
Theorem invalid_config_json_is_recorded
    (json_loads : string -> outcome json) (ssm : ssm_client)
    (project_name_ workspace_ : string) (param : get_parameter_response)
    (e : exn) (listing : describe_parameters_response) :
  get_parameter ssm (config_name project_name_ workspace_) = Ret param ->
  json_loads (ParamValue (ParameterEntry param)) = Raise e ->
  isinstance e JSONDecodeError = true ->
  describe_parameters ssm (workspace_prefix_filter project_name_ workspace_)
  = Ret listing ->
  check_ssm_parameters json_loads ssm project_name_ workspace_
  = Ret {| parameters := List.map param_info_of (Parameters listing);
           workspace_config_exists := true;
           config_last_modified :=
             Some (ParamLastModifiedDate (ParameterEntry param));
           config_version := Some (ParamVersion (ParameterEntry param));
           config_data := Some (JStr "Invalid JSON");
           ssm_error := None |}.
Proof.
  unfold config_name, workspace_prefix_filter. intros Hq Hj Hc Hl.
  unfold check_ssm_parameters, exec, try_except, ssm_body, config_step,
    try_except_cls, bind, call.
  cbv zeta. rewrite Hq. cbn. rewrite Hj, Hc. cbn. rewrite Hl.
  rewrite parameters_loop. reflexivity.
Qed.

(** X23. The recommendations depend on the workspace name as follows.  In
    prod: to add NAT gateways when the VPC summary has none, to run at least
    3 instances when the total is below 3, to enable versioning when it is
    not Enabled.  In dev and test: to remove NAT gateways when there are
    some, to reduce the instance count when the total is above 2, to disable
    versioning when it is Enabled.  In default: the one recommendation to
    create dedicated workspaces, whatever the resources.  In any other
    workspace: none.  Each rule only applies when its resource summary is
    present, and the order is NAT, instances, versioning. *)
Theorem recommendations_by_tier (info : workspace_info) :
  let r := info_resources info in
  let nats := from_option nat_gateways [] (res_vpc r) in
  let has_vpc := bool_decide (is_Some (res_vpc r)) in
  let has_asg := bool_decide (is_Some (res_autoscaling r)) in
  let has_s3 := bool_decide (is_Some (res_s3 r)) in
  let total := from_option total_instances 0 (res_autoscaling r) in
  let versioned :=
    from_option (fun s => String.eqb (versioning s) "Enabled") false
                (res_s3 r) in
  generate_recommendations info "prod"
  = advise (has_vpc && negb (truthy nats))
      "Production environment should have NAT Gateways for private subnet internet access"
    ++ advise (has_asg && (total <? 3))
      "Production environment should have at least 3 instances for high availability"
    ++ advise (has_s3 && negb versioned)
      "Enable S3 versioning for production environments"
  /\ (forall workspace_,
         workspace_ = "dev" \/ workspace_ = "test" ->
         generate_recommendations info workspace_
         = advise (has_vpc && truthy nats)
             "Consider removing NAT Gateways in dev/test environments to reduce costs"
           ++ advise (has_asg && (2 <? total))
             "Consider reducing instance count in dev/test environments for cost optimization"
           ++ advise (has_s3 && versioned)
             "Consider disabling S3 versioning in dev/test to reduce storage costs")
  /\ generate_recommendations info "default"
     = ["Consider creating dedicated workspaces (dev, staging, prod) instead of using default"]
  /\ (forall workspace_,
         workspace_ <> "dev" -> workspace_ <> "test" ->
         workspace_ <> "prod" -> workspace_ <> "default" ->
         generate_recommendations info workspace_ = []).
Proof.
  intros r nats has_vpc has_asg has_s3 total versioned.
  subst r nats has_vpc has_asg has_s3 total versioned.
  unfold generate_recommendations, advise, push, dev_or_test.
  split; [| split; [| split]].
  - cbn [String.eqb Ascii.eqb Bool.eqb orb andb].
    destruct (res_vpc (info_resources info)) as [v |];
      destruct (res_autoscaling (info_resources info)) as [a |];
      destruct (res_s3 (info_resources info)) as [s |]; cbn;
      repeat match goal with
      | |- context [truthy ?l] => destruct (truthy l); cbn
      | |- context [?a <? ?b] => destruct (a <? b); cbn
      | |- context [String.eqb ?a ?b] => destruct (String.eqb a b); cbn
      end; reflexivity.
  - intros workspace_ [-> | ->];
      cbn [String.eqb Ascii.eqb Bool.eqb orb andb];
      destruct (res_vpc (info_resources info)) as [v |];
      destruct (res_autoscaling (info_resources info)) as [a |];
      destruct (res_s3 (info_resources info)) as [s |]; cbn;
      repeat match goal with
      | |- context [truthy ?l] => destruct (truthy l); cbn
      | |- context [?a <? ?b] => destruct (a <? b); cbn
      | |- context [String.eqb ?a ?b] => destruct (String.eqb a b); cbn
      end; reflexivity.
  - cbn [String.eqb Ascii.eqb Bool.eqb orb andb].
    destruct (res_vpc (info_resources info)) as [v |];
      destruct (res_autoscaling (info_resources info)) as [a |];
      destruct (res_s3 (info_resources info)) as [s |]; reflexivity.
  - intros workspace_ Hdev Htest Hprod Hdefault.
    apply String.eqb_neq in Hdev, Htest, Hprod, Hdefault.
    rewrite Hdev, Htest, Hprod, Hdefault. cbn.
    destruct (res_vpc (info_resources info)) as [v |];
      destruct (res_autoscaling (info_resources info)) as [a |];
      destruct (res_s3 (info_resources info)) as [s |]; reflexivity.
Qed.

(** X11 at a VPC with two subnets, one security group and one NAT
    gateway. *)
Lemma vpc_check_success_witness :
  exists info,
    check_vpc_resources Inventories.network_ec2 "vpc-1" "dev" = Ret info
    /\ subnet_id <$> subnets info = ["subnet-1"; "subnet-2"]
    /\ subnet_type <$> subnets info = [Some "public"; None]
    /\ state info = Some "available"
    /\ vpc_error info = None.
Proof.
  eexists. split.
  - apply (vpc_check_success Inventories.network_ec2 "vpc-1" "dev"
             (DescribeVpcs [Vpc "10.0.0.0/16" "available"])
             (DescribeSubnets [Inventories.public_subnet;
                               Inventories.plain_subnet])
             (DescribeSecurityGroups
                [SecurityGroup "sg-1" "web" "front" ["tcp/443"] []])
             (DescribeNatGateways
                [NatGateway "nat-1" "subnet-1" "available"
                   [NatGatewayAddress "203.0.113.7"]]));
      reflexivity.
  - repeat split; reflexivity.
Defined.

(** X12 at an account whose VPC query is refused. *)
Lemma vpc_check_refused_witness :
  exists info,
    check_vpc_resources Scenarios.steady_ec2 "vpc-1" "dev" = Ret info
    /\ vpc_error info = Some "AccessDenied"
    /\ status (validate_vpc_health info) = "unhealthy".
Proof.
  destruct (vpc_check_refused Scenarios.steady_ec2 "vpc-1" "dev"
              (Exn ClientError "AccessDenied") eq_refl)
    as (info & E & -> & Hv).
  eexists. split; [exact E |]. split; [reflexivity |].
  rewrite Hv. reflexivity.
Defined.

(** X14 at an account that lists the VPC and refuses the subnet query. *)
Lemma vpc_check_subnets_refused_witness :
  exists info,
    check_vpc_resources Inventories.half_network_ec2 "vpc-1" "dev" = Ret info
    /\ vpc_error info = Some "AccessDenied"
    /\ status (validate_vpc_health info) = "healthy".
Proof.
  destruct (vpc_check_subnets_refused Inventories.half_network_ec2 "vpc-1"
              "dev" (Vpc "10.0.0.0/16" "available") []
              (Exn ClientError "AccessDenied") eq_refl eq_refl eq_refl)
    as (info & E & -> & Hv).
  eexists. split; [exact E |]. split; [reflexivity |].
  rewrite Hv. reflexivity.
Defined.

(** X16 at the workspace dev, which two of the three groups belong to. *)
Lemma asg_summary_lists_workspace_groups_witness :
  exists info,
    check_workspace_asgs Inventories.mixed_autoscaling "shop" "dev" = Ret info
    /\ name <$> auto_scaling_groups info = ["web"; "jobs"]
    /\ total_instances info = 4
    /\ total_healthy info = 3.
Proof.
  eexists. split.
  - apply (asg_summary_lists_workspace_groups Inventories.mixed_autoscaling
             "shop" "dev"
             (DescribeAsgs [Inventories.web; Inventories.billing;
                            Inventories.jobs])).
    reflexivity.
  - repeat split; reflexivity.
Defined.

(** X17 at an autoscaling client that refuses the query. *)
Lemma no_groups_verdict_witness :
  exists info,
    check_workspace_asgs Scenarios.no_autoscaling "shop" "dev" = Ret info
    /\ validate_asg_health info "dev"
       = {| status := "unhealthy";
            issues := ["No Auto Scaling Groups found for this workspace"];
            warnings := [] |}.
Proof.
  apply (no_groups_verdict Scenarios.no_autoscaling "shop" "dev"). exact I.
Defined.

(** X18 at one group of the workspace dev with two healthy instances out of
    two, two desired, min_size 1 and one zone. *)
Lemma clean_groups_verdict_witness :
  validate_asg_health
    {| auto_scaling_groups := [Inventories.steady_group];
       total_instances := 2; total_healthy := 2; asg_error := None |}
    "dev"
  = healthy_verdict.
Proof.
  apply clean_groups_verdict.
  - discriminate.
  - intros asg [<- | []]. split; [reflexivity |]. split; [reflexivity |].
    intros H. discriminate H.
Defined.

(** X20 at a bucket whose encryption query raises the no-such-bucket
    exception. *)
Lemma bucket_encryption_reading_witness :
  exists info,
    check_s3_resources (Inventories.managed_s3 0) "assets" "dev" = Ret info
    /\ versioning info = "Suspended"
    /\ encryption info = "Disabled"
    /\ s3_error info = None
    /\ warnings (validate_s3_health info)
       = ["S3 bucket encryption is disabled"].
Proof.
  apply (bucket_encryption_reading (Inventories.managed_s3 0) "assets" "dev"
           (BucketVersioning None)); reflexivity.
Defined.

(** X21 at a parameter store without the configuration parameter. *)
Lemma missing_config_is_not_an_error_witness :
  check_ssm_parameters Scenarios.no_json Scenarios.no_ssm "shop" "dev"
  = Ret {| parameters := []; workspace_config_exists := false;
           config_last_modified := None; config_version := None;
           config_data := None; ssm_error := None |}.
Proof.
  apply (missing_config_is_not_an_error Scenarios.no_json Scenarios.no_ssm
           "shop" "dev" (Exn ParameterNotFound "ParameterNotFound")).
  reflexivity.
Defined.

(** X22 at a configuration parameter whose text is not JSON. *)
Lemma invalid_config_json_is_recorded_witness :
  exists info,
    check_ssm_parameters Scenarios.no_json Inventories.broken_config_ssm
      "shop" "dev" = Ret info
    /\ workspace_config_exists info = true
    /\ config_data info = Some (JStr "Invalid JSON")
    /\ config_version info = Some 3
    /\ ssm_error info = None.
Proof.
  eexists. split.
  - apply (invalid_config_json_is_recorded Scenarios.no_json
             Inventories.broken_config_ssm "shop" "dev"
             (GetParameter (SsmParameter "{oops" Inventories.stamp 3))
             (Exn JSONDecodeError "Expecting value")
             (DescribeParameters
                [ParameterMetadata "/shop/dev/config" "String"
                   Inventories.stamp 3]));
      reflexivity.
  - repeat split; reflexivity.
Defined.

End WorkspaceManagerExtra.

(** ** Further properties of the workspace handler *)

Module HandlerExtra.

Import PyFacts WorkspaceManager.

(** X24. The workspace handler answers 200 exactly when the context has an
    environment and a function name and the five clients can be created.
    The report then always has the autoscaling and the parameter sections
    and the autoscaling verdict; it has the VPC section and verdict exactly
    when VPC_ID is set to a non-empty value, the S3 section and verdict
    exactly when BUCKET_NAME is; and its recommendations are those the
    synthesizer gives for the report's own resources.  No failure inside a
    check, a validator or the status write can turn the answer into a
    500. *)
Theorem workspace_handler_succeeds_iff
    (json_loads : string -> outcome json) (aws : boto3) (clk : clock)
    (event : json) (context : lambda_context) :
  (forall env ec2 autoscaling s3 ssm cloudwatch fn,
      ctx_environment context = Some env ->
      client_ec2 aws = Ret ec2 ->
      client_autoscaling aws = Ret autoscaling ->
      client_s3 aws = Ret s3 ->
      client_ssm aws = Ret ssm ->
      client_cloudwatch aws = Ret cloudwatch ->
      ctx_function_name context = Some fn ->
      exists info,
        handler json_loads aws clk event context
        = Ret {| statusCode := 200; body := workspace_info_json info |}
        /\ function_name info = fn
        /\ timestamp info = isoformat clk
        /\ (is_Some (res_vpc (info_resources info))
            <-> get_default env "VPC_ID" "" <> "")
        /\ (is_Some (hc_vpc (info_health_checks info))
            <-> get_default env "VPC_ID" "" <> "")
        /\ (is_Some (res_s3 (info_resources info))
            <-> get_default env "BUCKET_NAME" "" <> "")
        /\ (is_Some (hc_s3 (info_health_checks info))
            <-> get_default env "BUCKET_NAME" "" <> "")
        /\ is_Some (res_autoscaling (info_resources info))
        /\ is_Some (hc_autoscaling (info_health_checks info))
        /\ is_Some (res_ssm (info_resources info))
        /\ recommendations info
           = generate_recommendations info
               (get_default env "WORKSPACE" "unknown"))
  /\ (forall r,
         handler json_loads aws clk event context = Ret r ->
         statusCode r = 200 ->
         exists env ec2 autoscaling s3 ssm cloudwatch fn,
           ctx_environment context = Some env
           /\ client_ec2 aws = Ret ec2
           /\ client_autoscaling aws = Ret autoscaling
           /\ client_s3 aws = Ret s3
           /\ client_ssm aws = Ret ssm
           /\ client_cloudwatch aws = Ret cloudwatch
           /\ ctx_function_name context = Some fn).
Proof.
  split.
  - intros env ec2 autoscaling s3 ssm cloudwatch fn Henv H1 H2 H3 H4 H5 Hfn.
    unfold handler, handler_body, assign_workspace, try_except, bind, call,
      ret, modify, context_environment, context_function_name.
    rewrite Henv, H1, H2, H3, H4, H5, Hfn. cbn beta iota.
    set (workspace_ := get_default env "WORKSPACE" "unknown").
    set (project_name_ := get_default env "PROJECT_NAME" "unknown").
    set (vpc_id_ := get_default env "VPC_ID" "").
    set (bucket_name_ := get_default env "BUCKET_NAME" "").
    unfold gather, bind, call, ret.
    destruct (HandlerSpec.check_vpc_resources_returns ec2 vpc_id_ workspace_)
      as [v ->].
    destruct (HandlerSpec.check_workspace_asgs_returns autoscaling
                project_name_ workspace_) as [a ->].
    destruct (HandlerSpec.check_s3_resources_returns s3 bucket_name_ workspace_)
      as [b ->].
    destruct (HandlerSpec.check_ssm_parameters_returns json_loads ssm
                project_name_ workspace_) as [p ->].
    assert (Hne : forall s, nonempty s = true <-> s <> "").
    { intros s. unfold nonempty. rewrite Bool.negb_true_iff.
      apply String.eqb_neq. }
    assert (Hemp : forall s, nonempty s = false -> ~ s <> "").
    { intros s Hs Hn. apply Hne in Hn. congruence. }
    destruct (nonempty vpc_id_) eqn:Hv; destruct (nonempty bucket_name_) eqn:Hb;
      rewrite HandlerSpec.store_workspace_status_returns; cbn;
      eexists; (split; [reflexivity |]); cbn;
      repeat match goal with
      | |- _ /\ _ => split
      | |- _ <-> _ => split
      | |- is_Some (Some _) => eexists; reflexivity
      | |- _ = _ => reflexivity
      | |- _ -> is_Some (Some _) => intros _; eexists; reflexivity
      | |- is_Some None -> _ => intros [? ?]; discriminate
      | |- is_Some (Some _) -> _ => intros _; apply Hne; assumption
      | |- _ -> is_Some None =>
        intros Hx; exfalso;
        first [exact (Hemp _ Hv Hx) | exact (Hemp _ Hb Hx)]
      end.
  - intros r Hr Hcode. revert Hr.
    unfold handler, handler_body, assign_workspace, handler_except,
      read_workspace, try_except, bind, call, ret, modify, get, raise,
      context_environment, context_function_name.
    destruct (ctx_environment context) as [env |] eqn:Henv;
      [| cbn; discriminate].
    cbn beta iota.
    destruct (client_ec2 aws) as [c1 |] eqn:H1;
      [| cbn; intros [= <-]; discriminate].
    destruct (client_autoscaling aws) as [c2 |] eqn:H2;
      [| cbn; intros [= <-]; discriminate].
    destruct (client_s3 aws) as [c3 |] eqn:H3;
      [| cbn; intros [= <-]; discriminate].
    destruct (client_ssm aws) as [c4 |] eqn:H4;
      [| cbn; intros [= <-]; discriminate].
    destruct (client_cloudwatch aws) as [c5 |] eqn:H5;
      [| cbn; intros [= <-]; discriminate].
    destruct (ctx_function_name context) as [fn |] eqn:Hfn;
      [| cbn; intros [= <-]; discriminate].
    intros _. exists env, c1, c2, c3, c4, c5, fn. auto 10.
Qed.

(** X25. The status write at the end of the workspace handler is best
    effort: whether the put-parameter call succeeds or raises, and whatever
    it raises, the handler returns the same response. *)
Theorem status_write_is_best_effort
    (json_loads : string -> outcome json) (ec2 : ec2_client)
    (cloudwatch : cloudwatch_client) (autoscaling : autoscaling_client)
    (s3 : s3_client) (ssm : ssm_client)
    (put : put_parameter_request -> outcome unit)
    (clk : clock) (event : json) (context : lambda_context) :
  handler json_loads
    {| client_ec2 := Ret ec2; client_cloudwatch := Ret cloudwatch;
       client_autoscaling := Ret autoscaling; client_s3 := Ret s3;
       client_ssm := Ret ssm |}
    clk event context
  = handler json_loads
      {| client_ec2 := Ret ec2; client_cloudwatch := Ret cloudwatch;
         client_autoscaling := Ret autoscaling; client_s3 := Ret s3;
         client_ssm :=
           Ret {| get_parameter := get_parameter ssm;
                  describe_parameters := describe_parameters ssm;
                  put_parameter := put |} |}
      clk event context.
Proof.
  set (ssm' := {| get_parameter := get_parameter ssm;
                  describe_parameters := describe_parameters ssm;
                  put_parameter := put |}).
  assert (Hssm : forall p w,
             check_ssm_parameters json_loads ssm' p w
             = check_ssm_parameters json_loads ssm p w) by reflexivity.
  unfold handler, handler_body, try_except, bind, call, ret.
  cbn [client_ec2 client_cloudwatch client_autoscaling client_s3 client_ssm].
  destruct (context_environment context) as [env | e]; [| reflexivity].
  cbn beta iota.
  destruct (assign_workspace _ _) as [[[] | e] l]; [| reflexivity].
  cbn beta iota.
  destruct (context_function_name context) as [fn | e]; [| reflexivity].
  cbn beta iota.
  unfold gather, bind, call, ret. rewrite !Hssm.
  set (workspace_ := get_default env "WORKSPACE" "unknown").
  set (project_name_ := get_default env "PROJECT_NAME" "unknown").
  set (vpc_id_ := get_default env "VPC_ID" "").
  set (bucket_name_ := get_default env "BUCKET_NAME" "").
  destruct (HandlerSpec.check_vpc_resources_returns ec2 vpc_id_ workspace_)
    as [v ->].
  destruct (HandlerSpec.check_workspace_asgs_returns autoscaling
              project_name_ workspace_) as [a ->].
  destruct (HandlerSpec.check_s3_resources_returns s3 bucket_name_ workspace_)
    as [b ->].
  destruct (HandlerSpec.check_ssm_parameters_returns json_loads ssm
              project_name_ workspace_) as [p ->].
  destruct (nonempty vpc_id_); destruct (nonempty bucket_name_);
    rewrite !HandlerSpec.store_workspace_status_returns; reflexivity.
Qed.

(** X24 at a context that names a bucket and no VPC. *)
Lemma workspace_handler_succeeds_iff_witness :
  exists info,
    handler Scenarios.no_json (Scenarios.account Scenarios.noon) Scenarios.noon
      JNull (Scenarios.context_of Inventories.workspace_env)
    = Ret {| statusCode := 200; body := workspace_info_json info |}
    /\ is_Some (res_s3 (info_resources info))
    /\ ~ is_Some (res_vpc (info_resources info))
    /\ is_Some (res_autoscaling (info_resources info))
    /\ is_Some (res_ssm (info_resources info)).
Proof.
  destruct (workspace_handler_succeeds_iff Scenarios.no_json
              (Scenarios.account Scenarios.noon) Scenarios.noon JNull
              (Scenarios.context_of Inventories.workspace_env)) as [H _].
  destruct (H Inventories.workspace_env Scenarios.steady_ec2
              Scenarios.no_autoscaling
              (Scenarios.unmanaged_s3 (utcnow Scenarios.noon))
              Scenarios.no_ssm Scenarios.steady_cloudwatch
              "workspace-manager" eq_refl eq_refl eq_refl eq_refl eq_refl
              eq_refl eq_refl)
    as (info & E & _ & _ & Hvpc & _ & Hs3 & _ & Hasg & _ & Hssm & _).
  exists info. split; [exact E |].
  split; [apply Hs3; discriminate |].
  split; [intros Hv; apply Hvpc in Hv; apply Hv; reflexivity |].
  split; assumption.
Defined.

End HandlerExtra.
